(** * n6800: the core of a cycle-accurate 6800 CPU (core.py)

    A shallow embedding of the clocked logic that [Core.elaborate] builds,
    one clock tick of the [ph1] domain at a time, and the properties of its
    reset sequence, instruction timing and bus transactions. *)

From Stdlib Require Import ZArith List Bool String Ascii Lia.
Import ListNotations.
Local Open Scope string_scope.
Local Open Scope list_scope.
Local Open Scope Z_scope.

(** ** Signals as integers *)

(** A value stored into a [w]-bit signal keeps its low [w] bits. *)
Definition trunc (w v : Z) : Z := v mod 2 ^ w.

(** [v[i]] *)
Definition bit (v i : Z) : bool := Z.testbit v i.

(** [v[lo:hi]], bits [lo] to [hi - 1]. *)
Definition slice (v lo hi : Z) : Z := Z.land (Z.shiftr v lo) (Z.ones (hi - lo)).

(** [Cat(lo, hi)] of two 8-bit parts, least significant first. *)
Definition Cat (lo hi : Z) : Z := Z.lor lo (Z.shiftl hi 8).

(** [Mux(sel, val1, val0)] *)
Definition Mux {T : Type} (sel : bool) (val1 val0 : T) : T :=
  if sel then val1 else val0.

(** An 8-bit value assigned to a [Signal(signed(8))]. *)
Definition signed8 (v : Z) : Z :=
  if bit v 7 then trunc 8 v - 256 else trunc 8 v.

Definition byte (v : Z) : Prop := 0 <= v < 256.
Definition word16 (v : Z) : Prop := 0 <= v < 65536.

(** [Value.matches]: a pattern is read most significant bit first and
    ["-"] stands for either bit. *)
Fixpoint matches1 (pat : string) (v : Z) : bool :=
  match pat with
  | EmptyString => true
  | String c rest =>
      let i := Z.of_nat (String.length rest) in
      (match c with
       | "-"%char => true
       | "1"%char => bit v i
       | _ => negb (bit v i)
       end) && matches1 rest v
  end.

Definition matches (pats : list string) (v : Z) : bool :=
  existsb (fun p => matches1 p v) pats.

(** ** Enumerations *)

Module Reg8.
Inductive t :=
| NONE | A | B | XH | XL | SPH | SPL | PCH | PCL
| TMP8 | TMP16H | TMP16L | DIN | DOUT.
End Reg8.

(** The function selector of the 8-bit ALU.  alu8.py is not among the
    sources; these are the members that core.py names. *)
Module ALU8Func.
Inductive t :=
| NONE | LD | ADD | ADC | SUB | SBC | AND | EOR | ORA
| COM | LSR | ROR | ASR | ASL | ROL | DEC | INC
| TAP | TPA | SEC | CLC | SEV | CLV | SEI | CLI | SEZ | CLZ.
End ALU8Func.

(** The ALU itself, taken as a parameter (alu8.py is not among the
    sources): its result bus and the flag register [ccs], which the ALU
    keeps and clocks with [ph1] like the core.  core.py reads [alu.ccs] in
    cycles that select no function (the branch condition), and
    formal_sta.py compares the flags a cycle after the load was selected,
    so the flags are state; the result and the next flags are functions
    of the selector, the two inputs and the present flags. *)
Module ALU8.
Record t := {
  output : ALU8Func.t -> Z -> Z -> Z -> Z;
  ccs_next : ALU8Func.t -> Z -> Z -> Z -> Z;
  ccs_reset : Z
}.
End ALU8.

(** consts.py is not among the sources either: the values of the
    addressing-mode field and the flag positions are parameters. *)
Module ModeBits.
Record t := {
  IMMEDIATE : Z; DIRECT : Z; INDEXED : Z; EXTENDED : Z;
  A : Z; B : Z
}.
End ModeBits.

Module Flags.
Record t := {
  C : BinNums.Z; V : BinNums.Z; Z : BinNums.Z; N : BinNums.Z;
  I : BinNums.Z
}.
End Flags.

(** ** A concrete configuration *)

(** Modelled from the spec: the values of [ModeBits] (consts.py is not
    among the sources).  The addressing-mode field is bits 4 and 5 of the
    opcode; the values are those of the 6800 opcode map, under which the
    patterns of the decode table select the modes their handlers treat. *)
Definition ModeBits_6800 : ModeBits.t :=
  {| ModeBits.IMMEDIATE := 0; ModeBits.DIRECT := 1;
     ModeBits.INDEXED := 2; ModeBits.EXTENDED := 3;
     ModeBits.A := 0; ModeBits.B := 1 |}.

(** Modelled from the spec: the positions of [Flags] (consts.py), in the
    order in which the spec lists the flag vector. *)
Definition Flags_6800 : Flags.t :=
  {| Flags.C := 0; Flags.V := 1; Flags.Z := 2; Flags.N := 3; Flags.I := 4 |}.

Definition put_bit (v i : Z) (f : bool) : Z :=
  if f then Z.setbit v i else Z.clearbit v i.

(** Modelled from the spec: the ALU of alu8.py (not among the sources), as
    far as the spec describes it.  The load function passes its operand,
    sets Zero and Negative from it and clears Overflow; the set and clear
    functions change their one flag; the selector [NONE] leaves the flags
    alone.  The arithmetic functions, which the spec leaves to the ALU,
    have no effect here. *)
Definition alu8_model (fl : Flags.t) : ALU8.t :=
  {| ALU8.output := fun func input1 input2 ccs =>
       match func with
       | ALU8Func.LD => input2
       | _ => 0
       end;
     ALU8.ccs_next := fun func input1 input2 ccs =>
       match func with
       | ALU8Func.LD =>
           put_bit (put_bit (put_bit ccs (Flags.Z fl) (input2 =? 0))
                      (Flags.N fl) (bit input2 7))
             (Flags.V fl) false
       | ALU8Func.SEC => put_bit ccs (Flags.C fl) true
       | ALU8Func.CLC => put_bit ccs (Flags.C fl) false
       | ALU8Func.SEV => put_bit ccs (Flags.V fl) true
       | ALU8Func.CLV => put_bit ccs (Flags.V fl) false
       | ALU8Func.SEI => put_bit ccs (Flags.I fl) true
       | ALU8Func.CLI => put_bit ccs (Flags.I fl) false
       | ALU8Func.SEZ => put_bit ccs (Flags.Z fl) true
       | ALU8Func.CLZ => put_bit ccs (Flags.Z fl) false
       | _ => ccs
       end;
     ALU8.ccs_reset := 0xD0 |}.

(** ** The state of the core *)

(** Every clocked signal of [Core], and the flag register of the ALU
    submodule.  [RW] is [true] for a read, [VMA] is [true] when the
    address is valid. *)
Record Core := mkCore {
  Addr : Z; Dout : Z; RW : bool; VMA : bool;
  a : Z; b : Z; x : Z; sp : Z; pc : Z;
  instr : Z; tmp8 : Z; tmp16 : Z;
  reset_state : Z; cycle : Z;
  ccs : Z
}.

Definition wf_core (s : Core) : Prop :=
  word16 (Addr s) /\ byte (Dout s) /\ byte (a s) /\ byte (b s) /\
  word16 (x s) /\ word16 (sp s) /\ word16 (pc s) /\ byte (instr s) /\
  byte (tmp8 s) /\ word16 (tmp16 s) /\
  0 <= reset_state s < 4 /\ 0 <= cycle s < 16.

(** ** The statements of one clock tick *)

(** The right-hand side of a clocked assignment to an 8-bit register:
    a value known from the registers and [Din], or the ALU result bus
    [alu8], which settles once the combinational statements are in. *)
Inductive rhs8 := Val (v : Z) | Alu8.

Definition trunc_rhs8 (r : rhs8) : rhs8 :=
  match r with Val v => Val (trunc 8 v) | Alu8 => Alu8 end.

(** Combinational signals. *)
Record Comb := mkComb {
  end_instr_flag : bool; end_instr_addr : Z;
  src8_1_select : Reg8.t; src8_2_select : Reg8.t;
  src8_1 : Z; src8_2 : Z;
  alu8_func : ALU8Func.t
}.

(** The values the clocked signals take at the clock edge. *)
Record Ph1 := mkPh1 {
  nx_Addr : Z; nx_Dout : Z; nx_RW : bool; nx_VMA : bool;
  nx_a : rhs8; nx_b : rhs8; nx_x : Z; nx_sp : Z; nx_pc : Z;
  nx_instr : Z; nx_tmp8 : rhs8; nx_tmp16 : Z;
  nx_reset_state : Z; nx_cycle : Z
}.

(** Modelled from the spec: [FormalData] (formal/verification.py is not
    among the sources).  The hook receives, in order, an (address, data)
    pair for every read and for every write that the core reports; the
    core reports them where core.py calls [formalData.read] and
    [formalData.write], which it does when a verification is supplied. *)
Record FormalData := mkFormal {
  read_log : list (Z * Z);
  write_log : list (Z * Z)
}.

(** What [m] holds: later statements override earlier ones. *)
Record Stmts := mkStmts {
  comb : Comb; ph1 : Ph1; formalData : FormalData
}.

Definition Stmt := Stmts -> Stmts.

Definition skip : Stmt := fun m => m.
Definition stmt_seq (p q : Stmt) : Stmt := fun m => q (p m).
Notation "p ;; q" := (stmt_seq p q) (at level 61, right associativity).
Definition If (c : bool) (p : Stmt) : Stmt := if c then p else skip.

Definition on_comb (f : Comb -> Comb) : Stmt :=
  fun m => mkStmts (f (comb m)) (ph1 m) (formalData m).
Definition on_ph1 (f : Ph1 -> Ph1) : Stmt :=
  fun m => mkStmts (comb m) (f (ph1 m)) (formalData m).
Definition on_formal (f : FormalData -> FormalData) : Stmt :=
  fun m => mkStmts (comb m) (ph1 m) (f (formalData m)).

(** [m.d.comb += sig.eq(v)] *)
Definition comb_end_instr_flag (v : bool) : Stmt :=
  on_comb (fun c => mkComb v (end_instr_addr c) (src8_1_select c)
    (src8_2_select c) (src8_1 c) (src8_2 c) (alu8_func c)).
Definition comb_end_instr_addr (v : Z) : Stmt :=
  on_comb (fun c => mkComb (end_instr_flag c) (trunc 16 v) (src8_1_select c)
    (src8_2_select c) (src8_1 c) (src8_2 c) (alu8_func c)).
Definition comb_src8_1_select (v : Reg8.t) : Stmt :=
  on_comb (fun c => mkComb (end_instr_flag c) (end_instr_addr c) v
    (src8_2_select c) (src8_1 c) (src8_2 c) (alu8_func c)).
Definition comb_src8_2_select (v : Reg8.t) : Stmt :=
  on_comb (fun c => mkComb (end_instr_flag c) (end_instr_addr c)
    (src8_1_select c) v (src8_1 c) (src8_2 c) (alu8_func c)).
Definition comb_src8_1 (v : Z) : Stmt :=
  on_comb (fun c => mkComb (end_instr_flag c) (end_instr_addr c)
    (src8_1_select c) (src8_2_select c) (trunc 8 v) (src8_2 c) (alu8_func c)).
Definition comb_src8_2 (v : Z) : Stmt :=
  on_comb (fun c => mkComb (end_instr_flag c) (end_instr_addr c)
    (src8_1_select c) (src8_2_select c) (src8_1 c) (trunc 8 v) (alu8_func c)).
Definition comb_alu8_func (v : ALU8Func.t) : Stmt :=
  on_comb (fun c => mkComb (end_instr_flag c) (end_instr_addr c)
    (src8_1_select c) (src8_2_select c) (src8_1 c) (src8_2 c) v).

(** [m.d.ph1 += sig.eq(v)] *)
Definition ph1_Addr (v : Z) : Stmt :=
  on_ph1 (fun n => mkPh1 (trunc 16 v) (nx_Dout n) (nx_RW n) (nx_VMA n)
    (nx_a n) (nx_b n) (nx_x n) (nx_sp n) (nx_pc n) (nx_instr n) (nx_tmp8 n)
    (nx_tmp16 n) (nx_reset_state n) (nx_cycle n)).
Definition ph1_Dout (v : Z) : Stmt :=
  on_ph1 (fun n => mkPh1 (nx_Addr n) (trunc 8 v) (nx_RW n) (nx_VMA n)
    (nx_a n) (nx_b n) (nx_x n) (nx_sp n) (nx_pc n) (nx_instr n) (nx_tmp8 n)
    (nx_tmp16 n) (nx_reset_state n) (nx_cycle n)).
Definition ph1_RW (v : bool) : Stmt :=
  on_ph1 (fun n => mkPh1 (nx_Addr n) (nx_Dout n) v (nx_VMA n)
    (nx_a n) (nx_b n) (nx_x n) (nx_sp n) (nx_pc n) (nx_instr n) (nx_tmp8 n)
    (nx_tmp16 n) (nx_reset_state n) (nx_cycle n)).
Definition ph1_VMA (v : bool) : Stmt :=
  on_ph1 (fun n => mkPh1 (nx_Addr n) (nx_Dout n) (nx_RW n) v
    (nx_a n) (nx_b n) (nx_x n) (nx_sp n) (nx_pc n) (nx_instr n) (nx_tmp8 n)
    (nx_tmp16 n) (nx_reset_state n) (nx_cycle n)).
Definition ph1_a (v : rhs8) : Stmt :=
  on_ph1 (fun n => mkPh1 (nx_Addr n) (nx_Dout n) (nx_RW n) (nx_VMA n)
    (trunc_rhs8 v) (nx_b n) (nx_x n) (nx_sp n) (nx_pc n) (nx_instr n) (nx_tmp8 n)
    (nx_tmp16 n) (nx_reset_state n) (nx_cycle n)).
Definition ph1_b (v : rhs8) : Stmt :=
  on_ph1 (fun n => mkPh1 (nx_Addr n) (nx_Dout n) (nx_RW n) (nx_VMA n)
    (nx_a n) (trunc_rhs8 v) (nx_x n) (nx_sp n) (nx_pc n) (nx_instr n) (nx_tmp8 n)
    (nx_tmp16 n) (nx_reset_state n) (nx_cycle n)).
Definition ph1_x (v : Z) : Stmt :=
  on_ph1 (fun n => mkPh1 (nx_Addr n) (nx_Dout n) (nx_RW n) (nx_VMA n)
    (nx_a n) (nx_b n) (trunc 16 v) (nx_sp n) (nx_pc n) (nx_instr n) (nx_tmp8 n)
    (nx_tmp16 n) (nx_reset_state n) (nx_cycle n)).
Definition ph1_pc (v : Z) : Stmt :=
  on_ph1 (fun n => mkPh1 (nx_Addr n) (nx_Dout n) (nx_RW n) (nx_VMA n)
    (nx_a n) (nx_b n) (nx_x n) (nx_sp n) (trunc 16 v) (nx_instr n) (nx_tmp8 n)
    (nx_tmp16 n) (nx_reset_state n) (nx_cycle n)).
Definition ph1_instr (v : Z) : Stmt :=
  on_ph1 (fun n => mkPh1 (nx_Addr n) (nx_Dout n) (nx_RW n) (nx_VMA n)
    (nx_a n) (nx_b n) (nx_x n) (nx_sp n) (nx_pc n) (trunc 8 v) (nx_tmp8 n)
    (nx_tmp16 n) (nx_reset_state n) (nx_cycle n)).
Definition ph1_tmp8 (v : rhs8) : Stmt :=
  on_ph1 (fun n => mkPh1 (nx_Addr n) (nx_Dout n) (nx_RW n) (nx_VMA n)
    (nx_a n) (nx_b n) (nx_x n) (nx_sp n) (nx_pc n) (nx_instr n) (trunc_rhs8 v)
    (nx_tmp16 n) (nx_reset_state n) (nx_cycle n)).
Definition ph1_tmp16 (v : Z) : Stmt :=
  on_ph1 (fun n => mkPh1 (nx_Addr n) (nx_Dout n) (nx_RW n) (nx_VMA n)
    (nx_a n) (nx_b n) (nx_x n) (nx_sp n) (nx_pc n) (nx_instr n) (nx_tmp8 n)
    (trunc 16 v) (nx_reset_state n) (nx_cycle n)).
(** [tmp16[8:].eq(v)] and [tmp16[:8].eq(v)]: the other half keeps what
    is pending for it. *)
Definition ph1_tmp16_hi (v : Z) : Stmt :=
  on_ph1 (fun n => mkPh1 (nx_Addr n) (nx_Dout n) (nx_RW n) (nx_VMA n)
    (nx_a n) (nx_b n) (nx_x n) (nx_sp n) (nx_pc n) (nx_instr n) (nx_tmp8 n)
    (Cat (slice (nx_tmp16 n) 0 8) (trunc 8 v))
    (nx_reset_state n) (nx_cycle n)).
Definition ph1_tmp16_lo (v : Z) : Stmt :=
  on_ph1 (fun n => mkPh1 (nx_Addr n) (nx_Dout n) (nx_RW n) (nx_VMA n)
    (nx_a n) (nx_b n) (nx_x n) (nx_sp n) (nx_pc n) (nx_instr n) (nx_tmp8 n)
    (Cat (trunc 8 v) (slice (nx_tmp16 n) 8 16))
    (nx_reset_state n) (nx_cycle n)).
Definition ph1_reset_state (v : Z) : Stmt :=
  on_ph1 (fun n => mkPh1 (nx_Addr n) (nx_Dout n) (nx_RW n) (nx_VMA n)
    (nx_a n) (nx_b n) (nx_x n) (nx_sp n) (nx_pc n) (nx_instr n) (nx_tmp8 n)
    (nx_tmp16 n) (trunc 2 v) (nx_cycle n)).
Definition ph1_cycle (v : Z) : Stmt :=
  on_ph1 (fun n => mkPh1 (nx_Addr n) (nx_Dout n) (nx_RW n) (nx_VMA n)
    (nx_a n) (nx_b n) (nx_x n) (nx_sp n) (nx_pc n) (nx_instr n) (nx_tmp8 n)
    (nx_tmp16 n) (nx_reset_state n) (trunc 4 v)).

(** [formalData.read(m, addr, data)] and [formalData.write(m, addr, data)] *)
Definition formal_read (addr data : Z) : Stmt :=
  on_formal (fun f => mkFormal (read_log f ++ [(addr, data)]) (write_log f)).
Definition formal_write (addr data : Z) : Stmt :=
  on_formal (fun f => mkFormal (read_log f) (write_log f ++ [(addr, data)])).

(** Before any statement: combinational signals are 0 and every clocked
    signal holds its value. *)
Definition Module_ (s : Core) : Stmts :=
  mkStmts
    (mkComb false 0 Reg8.NONE Reg8.NONE 0 0 ALU8Func.NONE)
    (mkPh1 (Addr s) (Dout s) (RW s) (VMA s) (Val (a s)) (Val (b s))
       (x s) (sp s) (pc s) (instr s) (Val (tmp8 s)) (tmp16 s)
       (reset_state s) (cycle s))
    (mkFormal [] []).

(** ** The decode table of [execute] *)

(** The handler that a [Case] of the switch on [instr] calls, with the
    arguments of the call. *)
Inductive Handler :=
| H_NOP | H_TAP | H_TPA | H_IN_DE_X | H_CL_SE_V | H_CL_SE_C | H_CL_SE_I
| H_BR
| H_ALU2 (func : ALU8Func.t) (operand1 operand2 : Z) (store : bool)
| H_JMP
| H_ALU (func : ALU8Func.t) (store : bool)
| H_STA
| H_Default.

(** The cases in the order of the source; the first that matches wins. *)
Definition decode_table : list (list string * Handler) :=
  [ (["00000001"], H_NOP);
    (["00000110"], H_TAP);
    (["00000111"], H_TPA);
    (["0000100-"], H_IN_DE_X);
    (["0000101-"], H_CL_SE_V);
    (["0000110-"], H_CL_SE_C);
    (["0000111-"], H_CL_SE_I);
    (["0010----"], H_BR);
    (["01--0000"], H_ALU2 ALU8Func.SUB 0 1 true);
    (["01--0011"], H_ALU2 ALU8Func.COM 0 1 true);
    (["01--0100"], H_ALU2 ALU8Func.LSR 0 1 true);
    (["01--0110"], H_ALU2 ALU8Func.ROR 0 1 true);
    (["01--0111"], H_ALU2 ALU8Func.ASR 0 1 true);
    (["01--1000"], H_ALU2 ALU8Func.ASL 0 1 true);
    (["01--1001"], H_ALU2 ALU8Func.ROL 0 1 true);
    (["01--1010"], H_ALU2 ALU8Func.DEC 0 1 true);
    (["01--1100"], H_ALU2 ALU8Func.INC 0 1 true);
    (["01--1101"], H_ALU2 ALU8Func.SUB 1 0 false);
    (["011-1110"], H_JMP);
    (["01--1111"], H_ALU2 ALU8Func.SUB 1 1 true);
    (["1---0110"], H_ALU ALU8Func.LD true);
    (["1---0000"], H_ALU ALU8Func.SUB true);
    (["1---0001"], H_ALU ALU8Func.SUB false);
    (["1---0010"], H_ALU ALU8Func.SBC true);
    (["1---0100"], H_ALU ALU8Func.AND true);
    (["1---0101"], H_ALU ALU8Func.AND false);
    (["1--10111"; "1-100111"], H_STA);
    (["1---1000"], H_ALU ALU8Func.EOR true);
    (["1---1001"], H_ALU ALU8Func.ADC true);
    (["1---1010"], H_ALU ALU8Func.ORA true);
    (["1---1011"], H_ALU ALU8Func.ADD true) ].

Fixpoint switch (table : list (list string * Handler)) (v : Z) : Handler :=
  match table with
  | [] => H_Default
  | (pats, h) :: rest => if matches pats v then h else switch rest v
  end.

Definition decode (opcode : Z) : Handler := switch decode_table opcode.

(** The 256 opcodes. *)
Definition opcodes : list Z := map Z.of_nat (List.seq 0%nat 256%nat).

(** ** The logic of [Core.elaborate] *)

Section CoreLogic.

Variable alu : ALU8.t.
Variable mb : ModeBits.t.
Variable fl : Flags.t.

(** [m.d.comb += self.mode.eq(self.instr[4:6])] *)
Definition mode (s : Core) : Z := slice (instr s) 4 6.

Definition reg8_map (s : Core) (Din : Z) (e : Reg8.t) : option Z :=
  match e with
  | Reg8.NONE => None
  | Reg8.A => Some (a s)
  | Reg8.B => Some (b s)
  | Reg8.XH => Some (slice (x s) 8 16)
  | Reg8.XL => Some (slice (x s) 0 8)
  | Reg8.SPH => Some (slice (sp s) 8 16)
  | Reg8.SPL => Some (slice (sp s) 0 8)
  | Reg8.PCH => Some (slice (pc s) 8 16)
  | Reg8.PCL => Some (slice (pc s) 0 8)
  | Reg8.TMP8 => Some (tmp8 s)
  | Reg8.TMP16H => Some (slice (tmp16 s) 8 16)
  | Reg8.TMP16L => Some (slice (tmp16 s) 0 8)
  | Reg8.DIN => Some Din
  | Reg8.DOUT => Some (Dout s)
  end.

Definition src_bus_setup (s : Core) (Din : Z) (bus : Z -> Stmt)
    (selector : Comb -> Reg8.t) : Stmt :=
  fun m =>
    match reg8_map s Din (selector (comb m)) with
    | Some v => bus v m
    | None => bus 0 m
    end.

Definition end_instr (addr : Z) : Stmt :=
  comb_end_instr_addr addr ;; comb_end_instr_flag true.

Definition reset_handler (s : Core) (Din : Z) : Stmt :=
  if reset_state s =? 0 then
    ph1_Addr 0xFFFE ;; ph1_RW true ;; ph1_reset_state 1
  else if reset_state s =? 1 then
    ph1_Addr 0xFFFF ;; ph1_RW true ;; ph1_tmp8 (Val Din) ;;
    ph1_reset_state 2
  else if reset_state s =? 2 then
    ph1_reset_state 3 ;;
    let reset_vec := Cat Din (tmp8 s) in
    end_instr reset_vec
  else skip.

Definition end_instr_flag_handler : Stmt :=
  fun m =>
    If (end_instr_flag (comb m))
      (ph1_pc (end_instr_addr (comb m)) ;;
       ph1_Addr (end_instr_addr (comb m)) ;;
       ph1_RW true ;;
       ph1_cycle 0) m.

Definition fetch (s : Core) (Din : Z) : Stmt :=
  ph1_instr Din ;; ph1_RW true ;; ph1_pc (pc s + 1) ;; ph1_Addr (pc s + 1).

Definition read_byte (s : Core) (Din : Z) (cyc : Z) (addr : Z)
    (comb_dest : option (Z -> Stmt)) : Stmt :=
  If (cycle s =? cyc) (ph1_Addr addr ;; ph1_RW true) ;;
  If (cycle s =? cyc + 1)
    (match comb_dest with Some dest => dest Din | None => skip end ;;
     formal_read (Addr s) Din).

(** *** Addressing modes: the operand and the statements *)

Definition mode_immediate8 (s : Core) (Din : Z) : Z * Stmt :=
  let operand := Mux (cycle s =? 1) Din (tmp8 s) in
  (operand,
   If (cycle s =? 1)
     (ph1_tmp8 (Val Din) ;; ph1_pc (pc s + 1) ;; ph1_Addr (pc s + 1) ;;
      ph1_RW true ;; formal_read (Addr s) Din)).

Definition mode_direct (s : Core) (Din : Z) : Z * Stmt :=
  let operand := Mux (cycle s =? 1) Din (tmp16 s) in
  (operand,
   If (cycle s =? 1)
     (ph1_tmp16_hi 0 ;; ph1_tmp16_lo Din ;; ph1_pc (pc s + 1) ;;
      ph1_Addr (pc s + 1) ;; ph1_RW true ;; formal_read (Addr s) Din)).

Definition mode_indexed (s : Core) (Din : Z) : Z * Stmt :=
  let operand := tmp16 s in
  (operand,
   If (cycle s =? 1)
     (ph1_tmp16_hi 0 ;; ph1_tmp16_lo Din ;; ph1_pc (pc s + 1) ;;
      ph1_Addr (pc s + 1) ;; ph1_RW true ;; ph1_VMA false ;;
      formal_read (Addr s) Din) ;;
   If (cycle s =? 2)
     (ph1_tmp16 (tmp16 s + x s) ;; ph1_VMA false)).

Definition mode_ext (s : Core) (Din : Z) : Z * Stmt :=
  let operand :=
    Mux (cycle s =? 2) (Cat Din (slice (tmp16 s) 8 16)) (tmp16 s) in
  (operand,
   If (cycle s =? 1)
     (ph1_tmp16_hi Din ;; ph1_pc (pc s + 1) ;; ph1_Addr (pc s + 1) ;;
      ph1_RW true ;; formal_read (Addr s) Din) ;;
   If (cycle s =? 2)
     (ph1_tmp16_lo Din ;; ph1_pc (pc s + 1) ;; formal_read (Addr s) Din)).

(** *** Instruction handlers *)

Definition ALU (s : Core) (Din : Z) (func : ALU8Func.t) (store : bool)
    : Stmt :=
  let bsel := bit (instr s) 6 in
  let store_alu8 :=
    if store then (if bsel then ph1_b Alu8 else ph1_a Alu8) else skip in
  if mode s =? ModeBits.DIRECT mb then
    let '(operand, resolve) := mode_direct s Din in
    resolve ;;
    read_byte s Din 1 operand (Some comb_src8_2) ;;
    If (cycle s =? 2)
      (comb_src8_1 (Mux bsel (b s) (a s)) ;;
       comb_alu8_func func ;;
       store_alu8 ;;
       end_instr (pc s))
  else if mode s =? ModeBits.EXTENDED mb then
    let '(operand, resolve) := mode_ext s Din in
    resolve ;;
    read_byte s Din 2 operand (Some comb_src8_2) ;;
    If (cycle s =? 3)
      (comb_src8_1 (Mux bsel (b s) (a s)) ;;
       comb_alu8_func func ;;
       store_alu8 ;;
       end_instr (pc s))
  else if mode s =? ModeBits.IMMEDIATE mb then
    let '(operand, resolve) := mode_immediate8 s Din in
    resolve ;;
    If (cycle s =? 2)
      (comb_src8_1 (Mux bsel (b s) (a s)) ;;
       comb_src8_2 operand ;;
       comb_alu8_func func ;;
       store_alu8 ;;
       end_instr (pc s))
  else if mode s =? ModeBits.INDEXED mb then
    let '(operand, resolve) := mode_indexed s Din in
    resolve ;;
    read_byte s Din 3 operand (Some comb_src8_2) ;;
    If (cycle s =? 4)
      (comb_src8_1 (Mux bsel (b s) (a s)) ;;
       comb_alu8_func func ;;
       store_alu8 ;;
       end_instr (pc s))
  else skip.

Definition ALU2 (s : Core) (Din : Z) (func : ALU8Func.t)
    (operand1 operand2 : Z) (store : bool) : Stmt :=
  let sel1 := negb (operand1 =? 0) in
  let sel2 := negb (operand2 =? 0) in
  if mode s =? ModeBits.A mb then
    comb_src8_1 (Mux sel1 (a s) 0) ;;
    comb_src8_2 (Mux sel2 (a s) 0) ;;
    comb_alu8_func func ;;
    If store (ph1_a Alu8) ;;
    end_instr (pc s)
  else if mode s =? ModeBits.B mb then
    comb_src8_1 (Mux sel1 (b s) 0) ;;
    comb_src8_2 (Mux sel2 (b s) 0) ;;
    comb_alu8_func func ;;
    If store (ph1_b Alu8) ;;
    end_instr (pc s)
  else if mode s =? ModeBits.EXTENDED mb then
    let '(operand, resolve) := mode_ext s Din in
    resolve ;;
    read_byte s Din 2 operand None ;;
    (if cycle s =? 3 then
       comb_src8_1 (Mux sel1 Din 0) ;;
       comb_src8_2 (Mux sel2 Din 0) ;;
       comb_alu8_func func ;;
       ph1_tmp8 Alu8 ;;
       ph1_VMA false ;;
       ph1_Addr operand ;;
       ph1_RW true
     else if cycle s =? 4 then
       ph1_Addr operand ;;
       ph1_Dout (tmp8 s) ;;
       ph1_RW false ;;
       If (negb store) (ph1_VMA false)
     else if cycle s =? 5 then
       If store (formal_write (Addr s) (Dout s)) ;;
       end_instr (pc s)
     else skip)
  else if mode s =? ModeBits.INDEXED mb then
    let '(operand, resolve) := mode_indexed s Din in
    resolve ;;
    read_byte s Din 3 operand None ;;
    If (cycle s =? 4)
      (comb_src8_1 (Mux sel1 Din 0) ;;
       comb_src8_2 (Mux sel2 Din 0) ;;
       comb_alu8_func func ;;
       ph1_tmp8 Alu8 ;;
       ph1_VMA false ;;
       ph1_Addr operand ;;
       ph1_RW true) ;;
    If (cycle s =? 5)
      (ph1_Addr operand ;;
       ph1_Dout (tmp8 s) ;;
       ph1_RW false ;;
       If (negb store) (ph1_VMA false)) ;;
    If (cycle s =? 6)
      (If store (formal_write (Addr s) (Dout s)) ;;
       end_instr (pc s))
  else skip.

Definition branch_check (s : Core) : bool :=
  let invert := bit (instr s) 0 in
  let sel := slice (instr s) 1 4 in
  let flag i := bit (ccs s) i in
  let cond :=
    if matches1 "000" sel then true
    else if matches1 "001" sel then
      negb (flag (Flags.C fl) || flag (Flags.Z fl))
    else if matches1 "010" sel then negb (flag (Flags.C fl))
    else if matches1 "011" sel then negb (flag (Flags.Z fl))
    else if matches1 "100" sel then negb (flag (Flags.V fl))
    else if matches1 "101" sel then negb (flag (Flags.N fl))
    else if matches1 "110" sel then
      negb (xorb (flag (Flags.N fl)) (flag (Flags.V fl)))
    else if matches1 "111" sel then
      negb (flag (Flags.Z fl)
            || xorb (flag (Flags.N fl)) (flag (Flags.V fl)))
    else false in
  let take_branch := xorb cond invert in
  take_branch.

Definition BR (s : Core) (Din : Z) : Stmt :=
  let '(operand, resolve) := mode_immediate8 s Din in
  let relative := signed8 operand in
  resolve ;;
  If (cycle s =? 2) (ph1_tmp16 (pc s + relative)) ;;
  If (cycle s =? 3)
    (let take_branch := branch_check s in
     end_instr (Mux take_branch (tmp16 s) (pc s))).

Definition CL_SE_C (s : Core) : Stmt :=
  If (cycle s =? 1)
    (comb_alu8_func (Mux (bit (instr s) 0) ALU8Func.SEC ALU8Func.CLC) ;;
     end_instr (pc s)).

Definition CL_SE_V (s : Core) : Stmt :=
  If (cycle s =? 1)
    (comb_alu8_func (Mux (bit (instr s) 0) ALU8Func.SEV ALU8Func.CLV) ;;
     end_instr (pc s)).

Definition CL_SE_I (s : Core) : Stmt :=
  If (cycle s =? 1)
    (comb_alu8_func (Mux (bit (instr s) 0) ALU8Func.SEI ALU8Func.CLI) ;;
     end_instr (pc s)).

Definition IN_DE_X (s : Core) : Stmt :=
  let dec := bit (instr s) 0 in
  If (cycle s =? 1)
    (ph1_VMA false ;; ph1_Addr (x s) ;;
     ph1_x (Mux dec (x s - 1) (x s + 1))) ;;
  If (cycle s =? 2)
    (ph1_VMA false ;; ph1_Addr (x s)) ;;
  If (cycle s =? 3)
    (comb_alu8_func (Mux (x s =? 0) ALU8Func.SEZ ALU8Func.CLZ) ;;
     end_instr (pc s)).

Definition JMP (s : Core) (Din : Z) : Stmt :=
  if mode s =? ModeBits.EXTENDED mb then
    let '(operand, resolve) := mode_ext s Din in
    resolve ;;
    If (cycle s =? 2) (end_instr operand)
  else if mode s =? ModeBits.INDEXED mb then
    let '(operand, resolve) := mode_indexed s Din in
    resolve ;;
    If (cycle s =? 3) (end_instr operand)
  else skip.

Definition NOP (s : Core) : Stmt := end_instr (pc s).

Definition STA (s : Core) (Din : Z) : Stmt :=
  let bsel := bit (instr s) 6 in
  if mode s =? ModeBits.DIRECT mb then
    let '(operand, resolve) := mode_direct s Din in
    resolve ;;
    If (cycle s =? 1)
      (ph1_VMA false ;; ph1_Addr operand ;; ph1_RW true) ;;
    If (cycle s =? 2)
      (ph1_Addr operand ;; ph1_Dout (Mux bsel (b s) (a s)) ;;
       ph1_RW false) ;;
    If (cycle s =? 3)
      (formal_write (Addr s) (Dout s) ;;
       comb_src8_2 (Mux bsel (b s) (a s)) ;;
       comb_alu8_func ALU8Func.LD ;;
       end_instr (pc s))
  else if mode s =? ModeBits.EXTENDED mb then
    let '(operand, resolve) := mode_ext s Din in
    resolve ;;
    If (cycle s =? 2)
      (ph1_VMA false ;; ph1_Addr operand ;; ph1_RW true) ;;
    If (cycle s =? 3)
      (ph1_Addr operand ;; ph1_Dout (Mux bsel (b s) (a s)) ;;
       ph1_RW false) ;;
    If (cycle s =? 4)
      (formal_write (Addr s) (Dout s) ;;
       comb_src8_2 (Mux bsel (b s) (a s)) ;;
       comb_alu8_func ALU8Func.LD ;;
       end_instr (pc s))
  else if mode s =? ModeBits.INDEXED mb then
    let '(operand, resolve) := mode_indexed s Din in
    resolve ;;
    If (cycle s =? 3)
      (ph1_VMA false ;; ph1_Addr operand ;; ph1_RW true) ;;
    If (cycle s =? 4)
      (ph1_Addr operand ;; ph1_Dout (Mux bsel (b s) (a s)) ;;
       ph1_RW false) ;;
    If (cycle s =? 5)
      (formal_write (Addr s) (Dout s) ;;
       comb_src8_2 (Mux bsel (b s) (a s)) ;;
       comb_alu8_func ALU8Func.LD ;;
       end_instr (pc s))
  else skip.

Definition TAP (s : Core) : Stmt :=
  If (cycle s =? 1)
    (comb_alu8_func ALU8Func.TAP ;;
     comb_src8_1 (a s) ;;
     end_instr (pc s)).

Definition TPA (s : Core) : Stmt :=
  If (cycle s =? 1)
    (comb_alu8_func ALU8Func.TPA ;;
     ph1_a Alu8 ;;
     end_instr (pc s)).

(** *** Dispatch, and one clock tick *)

Definition execute (s : Core) (Din : Z) : Stmt :=
  match decode (instr s) with
  | H_NOP => NOP s
  | H_TAP => TAP s
  | H_TPA => TPA s
  | H_IN_DE_X => IN_DE_X s
  | H_CL_SE_V => CL_SE_V s
  | H_CL_SE_C => CL_SE_C s
  | H_CL_SE_I => CL_SE_I s
  | H_BR => BR s Din
  | H_ALU2 func operand1 operand2 store =>
      ALU2 s Din func operand1 operand2 store
  | H_JMP => JMP s Din
  | H_ALU func store => ALU s Din func store
  | H_STA => STA s Din
  | H_Default => end_instr (pc s)
  end.

(** The statements of [elaborate], for the registers [s] and the byte
    [Din] on the data lines during this cycle.  The snapshots of
    [maybe_do_formal_verification] assign signals of the hook alone and
    are left out; what the handlers report to the hook is kept. *)
Definition elaborate (s : Core) (Din : Z) : Stmts :=
  (comb_end_instr_flag false ;;
   comb_src8_1_select Reg8.NONE ;;
   comb_src8_2_select Reg8.NONE ;;
   comb_alu8_func ALU8Func.NONE ;;
   ph1_VMA true ;;
   ph1_cycle (cycle s + 1) ;;
   src_bus_setup s Din comb_src8_1 src8_1_select ;;
   src_bus_setup s Din comb_src8_2 src8_2_select ;;
   reset_handler s Din ;;
   If (reset_state s =? 3)
     (if cycle s =? 0 then fetch s Din else execute s Din) ;;
   end_instr_flag_handler)
  (Module_ s).

(** [alu8], the output of the ALU for the settled inputs. *)
Definition alu8 (s : Core) (c : Comb) : Z :=
  trunc 8 (ALU8.output alu (alu8_func c) (src8_1 c) (src8_2 c) (ccs s)).

Definition eval8 (s : Core) (c : Comb) (r : rhs8) : Z :=
  match r with Val v => v | Alu8 => alu8 s c end.

(** The clock edge. *)
Definition commit (s : Core) (m : Stmts) : Core :=
  let c := comb m in
  let n := ph1 m in
  mkCore (nx_Addr n) (nx_Dout n) (nx_RW n) (nx_VMA n)
    (eval8 s c (nx_a n)) (eval8 s c (nx_b n)) (nx_x n) (nx_sp n) (nx_pc n)
    (nx_instr n) (eval8 s c (nx_tmp8 n)) (nx_tmp16 n)
    (nx_reset_state n) (nx_cycle n)
    (ALU8.ccs_next alu (alu8_func c) (src8_1 c) (src8_2 c) (ccs s)).

Definition step (s : Core) (Din : Z) : Core := commit s (elaborate s Din).

(** What the core reports to the formal hook during the tick. *)
Definition reads (s : Core) (Din : Z) : list (Z * Z) :=
  read_log (formalData (elaborate s Din)).
Definition writes (s : Core) (Din : Z) : list (Z * Z) :=
  write_log (formalData (elaborate s Din)).

(** Whether the tick ends the instruction, and the next fetch address. *)
Definition ends (s : Core) (Din : Z) : bool :=
  end_instr_flag (comb (elaborate s Din)).
Definition next_fetch (s : Core) (Din : Z) : Z :=
  end_instr_addr (comb (elaborate s Din)).

(** A reset pulse: every signal with a reset value takes it, the
    [reset_less] registers keep what they hold. *)
Definition reset_core (s : Core) : Core :=
  mkCore 0 0 true false (a s) (b s) (x s) (sp s) (pc s) (instr s)
    (tmp8 s) (tmp16 s) 0 0 (ALU8.ccs_reset alu).

(** *** Runs *)

(** The core clocked once for each byte of [dins], the bytes that the
    data lines carry cycle after cycle. *)
Fixpoint run (s : Core) (dins : list Z) : Core :=
  match dins with
  | [] => s
  | d :: ds => run (step s d) ds
  end.

Fixpoint run_reads (s : Core) (dins : list Z) : list (Z * Z) :=
  match dins with
  | [] => []
  | d :: ds => reads s d ++ run_reads (step s d) ds
  end.

Fixpoint run_writes (s : Core) (dins : list Z) : list (Z * Z) :=
  match dins with
  | [] => []
  | d :: ds => writes s d ++ run_writes (step s d) ds
  end.

(** The cycles at which end-of-instruction is asserted along a run. *)
Fixpoint run_ends (s : Core) (dins : list Z) : list bool :=
  match dins with
  | [] => []
  | d :: ds => ends s d :: run_ends (step s d) ds
  end.

(** The bus, cycle by cycle: address, direction, valid-address flag and
    the byte on the data lines (incoming on a read, [Dout] on a write). *)
Definition bus_cycle (s : Core) (Din : Z) : Z * bool * bool * Z :=
  (Addr s, RW s, VMA s, if RW s then Din else Dout s).

Fixpoint run_bus (s : Core) (dins : list Z) : list (Z * bool * bool * Z) :=
  match dins with
  | [] => []
  | d :: ds => bus_cycle s d :: run_bus (step s d) ds
  end.

(** The core with the read-only memory of the simulation in [__main__]:
    [Din] follows [Addr] within the cycle. *)
Definition tick (mem : Z -> Z) (s : Core) : Core := step s (mem (Addr s)).

Fixpoint ticks (mem : Z -> Z) (n : nat) (s : Core) : Core :=
  match n with
  | O => s
  | S k => ticks mem k (tick mem s)
  end.

(** States that a reset pulse followed by clock ticks leads to; the
    pulse may come at any time, and the data lines may carry anything. *)
Inductive reachable : Core -> Prop :=
| reach_reset : forall s, reachable (reset_core s)
| reach_step : forall s d, reachable s -> reachable (step s d).

(** *** What the spec says, for comparison *)

(** The table of base conditions of the branch handler (spec 4.9), by
    the number that the 3-bit selector holds. *)
Definition base_condition (selector : Z) (flags : Z) : bool :=
  let carry := bit flags (Flags.C fl) in
  let overflow := bit flags (Flags.V fl) in
  let zero := bit flags (Flags.Z fl) in
  let negative := bit flags (Flags.N fl) in
  match selector with
  | 0 => true
  | 1 => negb (carry || zero)
  | 2 => negb carry
  | 3 => negb zero
  | 4 => negb overflow
  | 5 => negb negative
  | 6 => negb (xorb negative overflow)
  | 7 => negb (zero || xorb negative overflow)
  | _ => false
  end.

(** The cycle in which an instruction ends, by handler and addressing
    mode, as the spec lists them (4.7 to 4.12); 0 where the handler has
    no branch for the mode. *)
Definition last_cycle (h : Handler) (md : Z) : Z :=
  match h with
  | H_NOP | H_TAP | H_TPA | H_CL_SE_V | H_CL_SE_C | H_CL_SE_I
  | H_Default => 1
  | H_IN_DE_X | H_BR => 3
  | H_ALU2 _ _ _ _ =>
      if md =? ModeBits.A mb then 1
      else if md =? ModeBits.B mb then 1
      else if md =? ModeBits.EXTENDED mb then 5
      else if md =? ModeBits.INDEXED mb then 6
      else 0
  | H_JMP =>
      if md =? ModeBits.EXTENDED mb then 2
      else if md =? ModeBits.INDEXED mb then 3
      else 0
  | H_ALU _ _ =>
      if md =? ModeBits.DIRECT mb then 2
      else if md =? ModeBits.EXTENDED mb then 3
      else if md =? ModeBits.IMMEDIATE mb then 2
      else if md =? ModeBits.INDEXED mb then 4
      else 0
  | H_STA =>
      if md =? ModeBits.DIRECT mb then 3
      else if md =? ModeBits.EXTENDED mb then 4
      else if md =? ModeBits.INDEXED mb then 5
      else 0
  end.

(** What holds of the sequencers in every state that the core reaches:
    during reset the cycle counter follows the reset state; afterwards
    the core is either about to fetch, with the program counter on the
    address lines, or inside the cycles of the latched instruction. *)
Definition core_inv (s : Core) : Prop :=
  (reset_state s = 0 /\ cycle s = 0) \/
  (reset_state s = 1 /\ cycle s = 1) \/
  (reset_state s = 2 /\ cycle s = 2) \/
  (reset_state s = 3 /\ cycle s = 0 /\ Addr s = pc s) \/
  (reset_state s = 3 /\ byte (instr s) /\
   1 <= cycle s <= last_cycle (decode (instr s)) (mode s)).

(** The data lines while NOP executes once for each byte of [ds]: the
    opcode during the fetch, then any byte. *)
Definition nops (ds : list Z) : list Z :=
  flat_map (fun d => [0x01; d]) ds.

End CoreLogic.

(** ** Sample inputs *)

(** The memory of the simulation in [__main__]. *)
Definition main_mem (addr : Z) : Z :=
  if addr =? 0xFFFE then 0x12
  else if addr =? 0xFFFF then 0x34
  else if addr =? 0x1234 then 0x20
  else if addr =? 0x1235 then 0xFE
  else if addr =? 0x1236 then 0x01
  else if addr =? 0xA010 then 0x01
  else 0xFF.

(** A core about to fetch at [pc0], as an end of instruction leaves it. *)
Definition fetching (pc0 : Z) : Core :=
  mkCore pc0 0 true true 0x11 0x22 0x3344 0x5566 pc0 0x01 0 0 3 0 0xD0.

(** ** The formal modules *)

(** [Formal.valid] of formal_jmp.py, formal_sta.py and formal_flag.py:
    the opcodes that each module checks. *)
Definition formal_jmp_valid (opcode : Z) : bool :=
  matches ["011-1110"] opcode.

Definition formal_sta_valid (opcode : Z) : bool :=
  matches ["1--10111"; "1-100111"] opcode.

Definition formal_flag_valid (opcode : Z) : bool :=
  matches ["00001010"; "00001011"; "00001100"; "00001101"; "00001110";
           "00001111"] opcode.

(** Modelled from the spec: [FormalData.plus16] (formal/verification.py is
    not among the sources), the 16-bit sum that the checks compare
    addresses with. *)
Definition plus16 (v1 v2 : Z) : Z := trunc 16 (v1 + v2).

(** [Formal.check] of formal_jmp.py.  The snapshot is given by the
    registers before the instruction ([pre], cycle 0 of the instruction),
    the registers after it ([post], cycle 0 of the next one) and the reads
    and writes reported in between; [data.read_addr[i]] and
    [data.read_data[i]] are the parts of the [i]-th reported read. *)
Definition formal_jmp_check (mb : ModeBits.t) (opcode : Z) (pre post : Core)
    (rd wr : list (Z * Z)) : Prop :=
  let md := slice opcode 4 6 in
  let read_addr i := fst (nth i rd (0, 0)) in
  let read_data i := snd (nth i rd (0, 0)) in
  (ccs post = ccs pre /\ a post = a pre /\ b post = b pre /\
   x post = x pre /\ sp post = sp pre /\ List.length wr = 0%nat) /\
  (md = ModeBits.EXTENDED mb ->
   List.length rd = 2%nat /\
   read_addr 0%nat = plus16 (pc pre) 1 /\
   read_addr 1%nat = plus16 (pc pre) 2 /\
   pc post = Cat (read_data 1%nat) (read_data 0%nat)) /\
  (md = ModeBits.INDEXED mb ->
   List.length rd = 1%nat /\
   read_addr 0%nat = plus16 (pc pre) 1 /\
   pc post = trunc 16 (x pre + read_data 0%nat)).

(** ** What every statement keeps *)

(** A statement keeps [P] when [P] of the pending assignments survives it. *)
Definition keeps (P : Stmts -> Prop) (p : Stmt) : Prop :=
  forall m, P m -> P (p m).

(** The pending value of an 8-bit register fits, whatever the ALU gives. *)
Definition wf_rhs8 (r : rhs8) : Prop :=
  match r with Val v => byte v | Alu8 => True end.

Definition wf_ph1 (n : Ph1) : Prop :=
  word16 (nx_Addr n) /\ byte (nx_Dout n) /\ wf_rhs8 (nx_a n) /\
  wf_rhs8 (nx_b n) /\ word16 (nx_x n) /\ word16 (nx_sp n) /\
  word16 (nx_pc n) /\ byte (nx_instr n) /\ wf_rhs8 (nx_tmp8 n) /\
  word16 (nx_tmp16 n) /\
  0 <= nx_reset_state n < 4 /\ 0 <= nx_cycle n < 16.

(** The number of cases of the decode table that an opcode matches. *)
Definition count_matches (opcode : Z) : nat :=
  List.length (filter (fun e => matches (fst e) opcode) decode_table).

(** ** Classes of handlers *)

(** Whether every pattern of a table is at most eight characters long, so
    that it looks at the low eight bits of the value alone. *)
Definition short_patterns (table : list (list string * Handler)) : bool :=
  forallb (fun e => forallb (fun p => (String.length p <=? 8)%nat) (fst e))
    table.

Definition is_JMP (h : Handler) : bool :=
  match h with H_JMP => true | _ => false end.

Definition is_STA (h : Handler) : bool :=
  match h with H_STA => true | _ => false end.

Definition is_CL_SE (h : Handler) : bool :=
  match h with H_CL_SE_V | H_CL_SE_C | H_CL_SE_I => true | _ => false end.

(** The function of the ALU that a clear-or-set instruction selects. *)
Definition cl_se_func (h : Handler) (set : bool) : ALU8Func.t :=
  match h with
  | H_CL_SE_V => Mux set ALU8Func.SEV ALU8Func.CLV
  | H_CL_SE_C => Mux set ALU8Func.SEC ALU8Func.CLC
  | H_CL_SE_I => Mux set ALU8Func.SEI ALU8Func.CLI
  | _ => ALU8Func.NONE
  end.

(** The handlers that load an accumulator from the ALU, that report a
    write, and that lower R/W. *)
Definition loads_acc (h : Handler) : bool :=
  match h with
  | H_TPA => true
  | H_ALU _ store => store
  | H_ALU2 _ _ _ store => store
  | _ => false
  end.

Definition reports_write (h : Handler) : bool :=
  match h with
  | H_STA => true
  | H_ALU2 _ _ _ store => store
  | _ => false
  end.

Definition lowers_RW (h : Handler) : bool :=
  match h with
  | H_STA | H_ALU2 _ _ _ _ => true
  | _ => false
  end.

(** ** Arithmetic of the signals *)

Lemma trunc_small w v : 0 <= v < 2 ^ w -> trunc w v = v.
Proof. intros H; unfold trunc; apply Z.mod_small; exact H. Qed.

Lemma trunc_range w v : 0 <= w -> 0 <= trunc w v < 2 ^ w.
Proof.
  intros H; unfold trunc; apply Z.mod_pos_bound.
  apply Z.pow_pos_nonneg; lia.
Qed.

Lemma trunc_byte v : byte (trunc 8 v).
Proof. apply (trunc_range 8 v); lia. Qed.

Lemma trunc_word16 v : word16 (trunc 16 v).
Proof. apply (trunc_range 16 v); lia. Qed.

Lemma trunc8_byte v : byte v -> trunc 8 v = v.
Proof. intros H; apply trunc_small; exact H. Qed.

Lemma trunc16_word v : word16 v -> trunc 16 v = v.
Proof. intros H; apply trunc_small; exact H. Qed.

Lemma trunc_idem w v : trunc w (trunc w v) = trunc w v.
Proof.
  unfold trunc. destruct (Z.eq_dec (2 ^ w) 0) as [E | E].
  - rewrite E, !Z.mod_0_r; reflexivity.
  - rewrite Z.mod_mod by exact E; reflexivity.
Qed.

Lemma trunc_add_l w u v : trunc w (trunc w u + v) = trunc w (u + v).
Proof. unfold trunc; rewrite Zplus_mod_idemp_l; reflexivity. Qed.

Lemma trunc_succ_succ w v : trunc w (trunc w (v + 1) + 1) = trunc w (v + 2).
Proof. rewrite trunc_add_l; f_equal; lia. Qed.

Lemma slice_spec v lo hi :
  0 <= lo <= hi -> slice v lo hi = (v / 2 ^ lo) mod 2 ^ (hi - lo).
Proof.
  intros H; unfold slice.
  rewrite Z.shiftr_div_pow2, Z.land_ones by lia; reflexivity.
Qed.

Lemma slice_low_byte v : byte (slice v 0 8).
Proof.
  rewrite slice_spec by lia. apply Z.mod_pos_bound; reflexivity.
Qed.

Lemma byte_high_bits lo n : byte lo -> 8 <= n -> Z.testbit lo n = false.
Proof.
  intros Hlo Hn. destruct (Z.eq_dec lo 0) as [-> | Hne].
  - apply Z.bits_0.
  - apply Z.bits_above_log2; [apply Hlo |].
    assert (Z.log2 lo < 8) by (apply Z.log2_lt_pow2; unfold byte in Hlo; lia).
    lia.
Qed.

Lemma Cat_disjoint lo hi : byte lo -> Z.land lo (Z.shiftl hi 8) = 0.
Proof.
  intros Hlo. apply Z.bits_inj'. intros n Hn.
  rewrite Z.land_spec, Z.bits_0.
  destruct (Z.ltb_spec n 8).
  - rewrite Z.shiftl_spec_low by lia. apply andb_false_r.
  - rewrite byte_high_bits by assumption. reflexivity.
Qed.

Lemma Cat_spec lo hi : byte lo -> Cat lo hi = lo + 256 * hi.
Proof.
  intros Hlo. unfold Cat.
  rewrite <- Z.lxor_lor, <- Z.add_nocarry_lxor by (apply Cat_disjoint; exact Hlo).
  rewrite Z.shiftl_mul_pow2 by lia. change (2 ^ 8) with 256. lia.
Qed.

Lemma Cat_word16 lo hi : byte lo -> byte hi -> word16 (Cat lo hi).
Proof.
  intros Hlo Hhi. rewrite Cat_spec by exact Hlo.
  unfold byte, word16 in *. lia.
Qed.

Lemma slice_Cat_hi lo hi : byte lo -> byte hi -> slice (Cat lo hi) 8 16 = hi.
Proof.
  intros Hlo Hhi. rewrite slice_spec, Cat_spec by (lia || exact Hlo).
  change (2 ^ 8) with 256. change (2 ^ (16 - 8)) with 256.
  replace (lo + 256 * hi) with (hi * 256 + lo) by lia.
  rewrite Z.div_add_l, (Z.div_small lo 256) by (unfold byte in Hlo; lia).
  rewrite Z.add_0_r. apply Z.mod_small; exact Hhi.
Qed.

Lemma slice_Cat_lo lo hi : byte lo -> slice (Cat lo hi) 0 8 = lo.
Proof.
  intros Hlo. rewrite slice_spec, Cat_spec by (lia || exact Hlo).
  change (2 ^ 0) with 1. change (2 ^ (8 - 0)) with 256.
  rewrite Z.div_1_r. replace (lo + 256 * hi) with (lo + hi * 256) by lia.
  rewrite Z.mod_add by lia. apply Z.mod_small; exact Hlo.
Qed.

(** The vector as the spec writes it: [(hi << 8) | lo]. *)
Lemma Cat_shift_or lo hi : Cat lo hi = Z.lor (Z.shiftl hi 8) lo.
Proof. unfold Cat; apply Z.lor_comm. Qed.

(** ** Symbolic execution of a clock tick *)

(** Evaluation of the statements of a tick on a state whose registers are
    variables: everything but the arithmetic of the data path. *)
Ltac core_eval_in E :=
  lazy - [trunc Cat slice bit signed8 Z.add Z.sub Z.mul Z.opp Z.testbit
          ALU8.output ALU8.ccs_next ALU8.ccs_reset decode
          ModeBits.IMMEDIATE ModeBits.DIRECT ModeBits.INDEXED
          ModeBits.EXTENDED ModeBits.A ModeBits.B
          Flags.C Flags.V Flags.Z Flags.N Flags.I] in E.

Ltac is_poslit p :=
  match p with
  | xH => idtac
  | xO ?q => is_poslit q
  | xI ?q => is_poslit q
  end.

Ltac is_Zlit v :=
  match v with
  | Z0 => idtac
  | Zpos ?p => is_poslit p
  | Zneg ?p => is_poslit p
  | (?u + ?w)%Z => is_Zlit u; is_Zlit w
  end.

Ltac trunc_lit_in E :=
  repeat match type of E with
  | context [trunc ?w ?v] =>
      is_Zlit v;
      let r := eval cbv in (trunc w v) in
      change (trunc w v) with r in E
  end.

Ltac lit_add_in E :=
  repeat match type of E with
  | context [(?u + ?w)%Z] =>
      is_Zlit u; is_Zlit w;
      let r := eval cbv in (u + w)%Z in
      change (u + w)%Z with r in E
  end.

Ltac proj_eval :=
  cbn [comb ph1 formalData read_log write_log
       end_instr_flag end_instr_addr src8_1_select src8_2_select src8_1
       src8_2 alu8_func].

Ltac bus_eval :=
  repeat match goal with
  | |- context [bus_cycle (mkCore ?A ?D ?R ?V ?a ?b ?x ?sp ?pc ?i ?t8 ?t16
                             ?rs ?cy ?cc) ?d] =>
      let r := eval cbv [bus_cycle Addr RW VMA Dout] in
        (bus_cycle (mkCore A D R V a b x sp pc i t8 t16 rs cy cc) d) in
      change (bus_cycle (mkCore A D R V a b x sp pc i t8 t16 rs cy cc) d)
        with r
  end.

(** One tick, on the innermost state that is given field by field.
    [pre E] settles the tests on the opcode in the unfolded statements [E]
    (the handler that [decode] selects, the addressing mode). *)
Ltac elab_one pre :=
  bus_eval;
  match goal with
  | |- context [elaborate ?mb ?fl (mkCore ?A ?D ?R ?V ?a ?b ?x ?sp ?pc ?i
                                     ?t8 ?t16 ?rs ?cy ?cc) ?d] =>
      let m := fresh "m" in
      let E := fresh "E" in
      remember (elaborate mb fl
                  (mkCore A D R V a b x sp pc i t8 t16 rs cy cc) d)
        as m eqn:E;
      unfold elaborate, execute in E; cbn [instr] in E;
      pre E; unfold read_byte in E; lit_add_in E; core_eval_in E;
      try (match goal with
           | |- context [commit ?alu (mkCore A D R V a b x sp pc i t8 t16
                                        rs cy cc) m] =>
               let s' := fresh "s'" in
               let E' := fresh "E'" in
               remember (commit alu
                           (mkCore A D R V a b x sp pc i t8 t16 rs cy cc) m)
                 as s' eqn:E';
               rewrite E in E';
               cbv [commit eval8 alu8 comb ph1 formalData
                    end_instr_flag end_instr_addr src8_1_select
                    src8_2_select src8_1 src8_2 alu8_func
                    nx_Addr nx_Dout nx_RW nx_VMA nx_a nx_b nx_x nx_sp nx_pc
                    nx_instr nx_tmp8 nx_tmp16 nx_reset_state nx_cycle ccs]
                 in E';
               trunc_lit_in E'; subst s'
           end);
      subst m; proj_eval; bus_eval
  end.

Ltac unfold_run :=
  cbn [run run_reads run_writes run_ends run_bus ticks];
  unfold tick, step, ends, reads, writes, next_fetch.

(** A tick that needs no test settled: reset and fetch. *)
Ltac elab_plain := elab_one ltac:(fun E => idtac).

(** The state, field by field. *)
Ltac open_core s :=
  destruct s as [Addr0 Dout0 RW0 VMA0 a0 b0 x0 sp0 pc0 instr0 tmp80 tmp160
                 rs0 cy0 ccs0];
  cbn [Addr Dout RW VMA a b x sp pc instr tmp8 tmp16 reset_state cycle ccs
       wf_core] in *.

Ltac trunc_lit :=
  repeat match goal with
  | |- context [trunc ?w ?v] =>
      is_Zlit v;
      let r := eval cbv in (trunc w v) in
      change (trunc w v) with r
  end.

(** The tests on the opcode, for the mode values of the 6800. *)
Ltac settle_opcode Hdec Hmd E :=
  rewrite Hdec in E;
  unfold NOP, TAP, TPA, IN_DE_X, CL_SE_V, CL_SE_C, CL_SE_I, BR, ALU2, JMP,
         ALU, STA, mode in E;
  cbn [instr] in E; rewrite ?Hmd in E;
  cbn [ModeBits.IMMEDIATE ModeBits.DIRECT ModeBits.INDEXED ModeBits.EXTENDED
       ModeBits.A ModeBits.B ModeBits_6800] in E.

(** ** The decode table *)

Lemma byte_in_opcodes op : byte op -> In op opcodes.
Proof.
  intros H. unfold opcodes. apply in_map_iff. exists (Z.to_nat op). split.
  - apply Z2Nat.id. apply H.
  - apply in_seq. unfold byte in H. lia.
Qed.

Lemma decode_branch op : matches ["0010----"] op = true -> decode op = H_BR.
Proof.
  intros H. cbv - [bit] in H. cbv - [bit].
  destruct (bit op 7), (bit op 6), (bit op 5), (bit op 4);
    try discriminate H; reflexivity.
Qed.

(** An opcode that no case matches takes the default of the switch. *)
Lemma switch_no_match table v :
  forallb (fun e => negb (matches (fst e) v)) table = true ->
  switch table v = H_Default.
Proof.
  induction table as [| [pats h] rest IH]; intros H; [reflexivity |].
  cbn [forallb fst] in H. apply andb_true_iff in H. destruct H as [H1 H2].
  cbn [switch]. apply negb_true_iff in H1. rewrite H1. apply IH, H2.
Qed.

Lemma mode_range v : 0 <= slice v 4 6 < 4.
Proof. rewrite slice_spec by lia. apply Z.mod_pos_bound. reflexivity. Qed.

Lemma selector_range v : 0 <= slice v 1 4 < 8.
Proof. rewrite slice_spec by lia. apply Z.mod_pos_bound. reflexivity. Qed.

(** Under the mode values of the 6800 every opcode has a last cycle,
    between 1 and 6: each pattern of the table selects only modes that
    its handler treats. *)
Lemma last_cycle_bounds op :
  byte op ->
  1 <= last_cycle ModeBits_6800 (decode op) (slice op 4 6) <= 6.
Proof.
  intros H. apply byte_in_opcodes in H.
  assert (Hall : forallb (fun o =>
            let n := last_cycle ModeBits_6800 (decode o) (slice o 4 6) in
            (1 <=? n) && (n <=? 6)) opcodes = true) by (vm_compute; reflexivity).
  rewrite forallb_forall in Hall. specialize (Hall op H). cbv zeta in Hall.
  apply andb_true_iff in Hall. destruct Hall as [H1 H2].
  apply Z.leb_le in H1, H2. lia.
Qed.

(** ** The ALU of the sample configuration *)

Lemma put_bit_same v i f : 0 <= i -> bit (put_bit v i f) i = f.
Proof.
  intros Hi. unfold bit, put_bit. destruct f.
  - apply Z.setbit_eq; exact Hi.
  - apply Z.clearbit_eq.
Qed.

Lemma put_bit_other v i j f :
  0 <= i -> i <> j -> bit (put_bit v i f) j = bit v j.
Proof.
  intros Hi Hij. unfold bit, put_bit. destruct f.
  - apply Z.setbit_neq; assumption.
  - apply Z.clearbit_neq; exact Hij.
Qed.

Lemma alu8_model_NONE fl input1 input2 flags :
  ALU8.ccs_next (alu8_model fl) ALU8Func.NONE input1 input2 flags = flags.
Proof. reflexivity. Qed.

Lemma alu8_model_LD input1 v flags :
  let flags' :=
    ALU8.ccs_next (alu8_model Flags_6800) ALU8Func.LD input1 v flags in
  bit flags' (Flags.Z Flags_6800) = (v =? 0) /\
  bit flags' (Flags.N Flags_6800) = bit v 7 /\
  bit flags' (Flags.V Flags_6800) = false.
Proof.
  cbn [alu8_model ALU8.ccs_next Flags_6800 Flags.Z Flags.N Flags.V].
  repeat split.
  - rewrite 2 put_bit_other by lia. apply put_bit_same; lia.
  - rewrite put_bit_other by lia. apply put_bit_same; lia.
  - apply put_bit_same; lia.
Qed.

(** ** Properties of the core, for any ALU, mode values and flag layout *)

Section CoreProps.

Variable alu : ALU8.t.
Variable mb : ModeBits.t.
Variable fl : Flags.t.

(** The ALU leaves the flags alone in a cycle that selects no function. *)
Hypothesis alu_NONE :
  forall input1 input2 flags,
    ALU8.ccs_next alu ALU8Func.NONE input1 input2 flags = flags.

(** The load function of the ALU sets Zero and Negative from its operand
    and clears Overflow (spec 4.10; formal_sta.py asserts it). *)
Hypothesis alu_LD :
  forall input1 v flags,
    let flags' := ALU8.ccs_next alu ALU8Func.LD input1 v flags in
    bit flags' (Flags.Z fl) = (v =? 0) /\
    bit flags' (Flags.N fl) = bit v 7 /\
    bit flags' (Flags.V fl) = false.

(** *** End of instruction *)

(** Whatever the handlers did, an asserted end-of-instruction flag has
    the last word on [pc], [Addr], [RW] and [cycle]. *)
Lemma end_of_instruction (s : Core) (d : Z) :
  ends mb fl s d = true ->
  cycle (step alu mb fl s d) = 0 /\
  pc (step alu mb fl s d) = trunc 16 (next_fetch mb fl s d) /\
  Addr (step alu mb fl s d) = trunc 16 (next_fetch mb fl s d) /\
  RW (step alu mb fl s d) = true.
Proof.
  unfold ends, next_fetch, step, elaborate. cbv [stmt_seq].
  match goal with
  | |- context [end_instr_flag_handler ?X] => generalize X
  end.
  intros m. unfold end_instr_flag_handler, If.
  destruct (end_instr_flag (comb m)) eqn:Hf.
  - intros _. destruct m as [c n f]. cbn in *. repeat split.
  - unfold skip. rewrite Hf. discriminate.
Qed.

(** *** Reset *)

(** C1: after a reset pulse the bus carries exactly two valid reads before
    the core leaves the reset sequence, at 0xFFFE and then at 0xFFFF (the
    cycle of the pulse itself has no valid address); the third tick
    asserts end-of-instruction with the vector [(byte_at(0xFFFE) << 8) |
    byte_at(0xFFFF)] as the next fetch address, and execution starts with
    the program counter and the address lines at that vector. *)
Theorem reset_reads_vector (mem : Z -> Z) (s : Core) :
  byte (mem 0xFFFE) -> byte (mem 0xFFFF) ->
  let vector := Z.lor (Z.shiftl (mem 0xFFFE) 8) (mem 0xFFFF) in
  let s0 := reset_core alu s in
  let s1 := tick alu mb fl mem s0 in
  let s2 := tick alu mb fl mem s1 in
  let s3 := tick alu mb fl mem s2 in
  VMA s0 = false /\
  (Addr s1, RW s1, VMA s1, reset_state s1) = (0xFFFE, true, true, 1) /\
  (Addr s2, RW s2, VMA s2, reset_state s2) = (0xFFFF, true, true, 2) /\
  ends mb fl s0 (mem (Addr s0)) = false /\
  ends mb fl s1 (mem (Addr s1)) = false /\
  ends mb fl s2 (mem (Addr s2)) = true /\
  next_fetch mb fl s2 (mem (Addr s2)) = vector /\
  pc s3 = vector /\ Addr s3 = vector /\ RW s3 = true /\
  reset_state s3 = 3 /\ cycle s3 = 0.
Proof.
  intros Hhi Hlo vector s0 s1 s2 s3.
  subst s3 s2 s1 s0 vector. open_core s.
  unfold reset_core. unfold_run. cbn [Addr].
  elab_plain. cbn [Addr]. elab_plain. cbn [Addr]. elab_plain.
  cbn [Addr RW VMA reset_state pc cycle].
  rewrite (trunc8_byte _ Hhi).
  rewrite <- Cat_shift_or.
  rewrite !(trunc16_word (Cat _ _)) by (apply Cat_word16; assumption).
  repeat split.
Qed.

(** *** Branches *)

(** The switch of [branch_check] against the table of the spec. *)
Lemma branch_check_table (s : Core) :
  branch_check fl s =
  xorb (base_condition fl (slice (instr s) 1 4) (ccs s)) (bit (instr s) 0).
Proof.
  unfold branch_check, base_condition.
  pose proof (selector_range (instr s)) as Hsel.
  assert (Hcases : slice (instr s) 1 4 = 0 \/ slice (instr s) 1 4 = 1 \/
                   slice (instr s) 1 4 = 2 \/ slice (instr s) 1 4 = 3 \/
                   slice (instr s) 1 4 = 4 \/ slice (instr s) 1 4 = 5 \/
                   slice (instr s) 1 4 = 6 \/ slice (instr s) 1 4 = 7) by lia.
  repeat destruct Hcases as [Hc | Hcases]; try rewrite Hc; try rewrite Hcases;
    reflexivity.
Qed.

(** C2: for every opcode of the pattern 0010xxxx and every flag vector the
    branch is taken exactly when the base condition that bits 3..1 select
    from the table of the spec, XOR bit 0, is true; the cycle of the
    decision (cycle 3) ends the instruction with the target held in
    [tmp16] when taken and with the program counter as it is otherwise. *)
Theorem branch_decision (s : Core) (d : Z) :
  matches ["0010----"] (instr s) = true ->
  reset_state s = 3 -> cycle s = 3 ->
  word16 (tmp16 s) -> word16 (pc s) ->
  let taken :=
    xorb (base_condition fl (slice (instr s) 1 4) (ccs s))
         (bit (instr s) 0) in
  branch_check fl s = taken /\
  ends mb fl s d = true /\
  next_fetch mb fl s d = (if taken then tmp16 s else pc s) /\
  pc (step alu mb fl s d) = (if taken then tmp16 s else pc s) /\
  Addr (step alu mb fl s d) = (if taken then tmp16 s else pc s) /\
  cycle (step alu mb fl s d) = 0.
Proof.
  intros Hpat Hrs Hcy Ht Hp taken.
  pose proof (decode_branch _ Hpat) as Hdec.
  pose proof (branch_check_table s) as Hbc. fold taken in Hbc.
  split; [exact Hbc |].
  assert (Hw : trunc 16 (if taken then tmp16 s else pc s) =
               if taken then tmp16 s else pc s)
    by (apply trunc16_word; destruct taken; assumption).
  clearbody taken. clear Hpat.
  open_core s. subst rs0 cy0. unfold_run.
  elab_one ltac:(fun E =>
    rewrite Hdec in E; unfold BR in E; rewrite Hbc in E).
  cbn [pc Addr cycle]. unfold Mux. rewrite !trunc_idem, Hw.
  repeat split.
Qed.

(** C6: an opcode of the branch pattern with selector 000 and invert bit 0
    (BRA) takes the branch whatever the flags; the target is the program
    counter past the two bytes of the instruction plus the sign-extended
    offset; and with 0x20 at 0x1234 and 0xFE at 0x1235 in memory, a core
    that fetches at 0x1234 is back at 0x1234 when the instruction ends,
    four ticks later and not before. *)
Theorem bra_always_taken (mem : Z -> Z) (s : Core) :
  mem 0x1234 = 0x20 -> mem 0x1235 = 0xFE ->
  reset_state s = 3 -> cycle s = 0 -> pc s = 0x1234 -> Addr s = 0x1234 ->
  (forall s0, matches ["0010----"] (instr s0) = true ->
              slice (instr s0) 1 4 = 0 -> bit (instr s0) 0 = false ->
              branch_check fl s0 = true) /\
  (forall s0 offset d2 d3,
     byte offset -> reset_state s0 = 3 -> cycle s0 = 0 ->
     pc (run alu mb fl s0 [0x20; offset; d2; d3]) =
       trunc 16 (pc s0 + 2 + signed8 offset)) /\
  cycle (ticks alu mb fl mem 1 s) = 1 /\
  cycle (ticks alu mb fl mem 2 s) = 2 /\
  cycle (ticks alu mb fl mem 3 s) = 3 /\
  tmp16 (ticks alu mb fl mem 3 s) = 0x1234 /\
  cycle (ticks alu mb fl mem 4 s) = 0 /\
  pc (ticks alu mb fl mem 4 s) = 0x1234 /\
  Addr (ticks alu mb fl mem 4 s) = 0x1234.
Proof.
  intros Hm0 Hm1 Hrs Hcy Hpc Haddr. split; [| split].
  - intros s0 _ Hsel Hinv. rewrite branch_check_table, Hsel, Hinv.
    reflexivity.
  - intros s0 offset d2 d3 Hoff Hrs0 Hcy0.
    open_core s0. subst rs0 cy0. unfold_run.
    elab_plain. trunc_lit.
    elab_one ltac:(fun E => change (decode 32) with H_BR in E; unfold BR in E).
    elab_one ltac:(fun E => change (decode 32) with H_BR in E; unfold BR in E).
    elab_one ltac:(fun E =>
      change (decode 32) with H_BR in E; unfold BR in E;
      rewrite branch_check_table in E; cbn [instr ccs] in E;
      change (slice 32 1 4) with 0 in E;
      change (bit 32 0) with false in E;
      unfold base_condition in E).
    cbn [pc]. rewrite !trunc_idem, trunc_succ_succ, trunc_add_l,
      (trunc8_byte offset Hoff).
    reflexivity.
  - open_core s. subst rs0 cy0 pc0 Addr0. unfold_run. cbn [Addr].
    rewrite Hm0. elab_plain. cbn [Addr]. trunc_lit. rewrite Hm1.
    elab_one ltac:(fun E => change (decode 32) with H_BR in E; unfold BR in E).
    cbn [Addr]. trunc_lit.
    elab_one ltac:(fun E => change (decode 32) with H_BR in E; unfold BR in E).
    cbn [Addr]. trunc_lit.
    elab_one ltac:(fun E =>
      change (decode 32) with H_BR in E; unfold BR in E;
      rewrite branch_check_table in E; cbn [instr ccs] in E;
      change (slice 32 1 4) with 0 in E;
      change (bit 32 0) with false in E;
      unfold base_condition in E).
    cbn [cycle tmp16 pc Addr].
    change (trunc 16 (4662 + signed8 254)) with 4660. trunc_lit.
    repeat split.
Qed.

(** *** Instructions with an operand in memory *)

(** C3, as amended: a direct-mode instruction of the ALU family takes
    three cycles (fetch, cycle 1, and cycle 2, which ends it) and reads
    memory twice: the zero-page address at [pc + 1], then the operand at
    that address.  The core reports both reads to the formal hook, and
    both are valid read cycles on the bus; nothing is written. *)
Theorem alu_direct (s : Core) (op d1 d2 : Z) (func : ALU8Func.t)
    (store : bool) :
  byte op -> byte d1 ->
  decode op = H_ALU func store -> slice op 4 6 = ModeBits.DIRECT mb ->
  reset_state s = 3 -> cycle s = 0 ->
  let dins := [op; d1; d2] in
  let s' := run alu mb fl s dins in
  run_ends alu mb fl s dins = [false; false; true] /\
  run_reads alu mb fl s dins = [(trunc 16 (pc s + 1), d1); (d1, d2)] /\
  run_writes alu mb fl s dins = [] /\
  run_bus alu mb fl (step alu mb fl s op) [d1; d2] =
    [(trunc 16 (pc s + 1), true, true, d1); (d1, true, true, d2)] /\
  pc s' = trunc 16 (pc s + 2) /\ x s' = x s /\ sp s' = sp s /\
  cycle s' = 0.
Proof.
  intros Hop Hd1 Hdec Hmode Hrs Hcy dins s'. subst s' dins.
  assert (Hw : word16 d1) by (unfold byte, word16 in *; lia).
  open_core s. subst rs0 cy0. unfold_run.
  elab_plain. rewrite (trunc8_byte op Hop).
  destruct store, (bit op 6) eqn:Hb.
  all: elab_one ltac:(fun E =>
    rewrite Hdec in E; unfold ALU, mode in E; cbn [instr] in E;
    rewrite Hmode, ?Hb, !Z.eqb_refl in E).
  all: elab_one ltac:(fun E =>
    rewrite Hdec in E; unfold ALU, mode in E; cbn [instr] in E;
    rewrite Hmode, ?Hb, !Z.eqb_refl in E).
  all: cbn [pc x sp cycle app].
  all: rewrite !trunc_idem, !trunc_succ_succ, (trunc16_word d1 Hw).
  all: repeat split.
Qed.

(** C4: an extended-mode JMP reads memory twice, at [pc + 1] and at
    [pc + 2], and writes nothing; it ends at cycle 2, the cycle that
    resolves the address, without a read at the destination; afterwards
    the program counter is the first byte read (high) with the second
    (low), and the registers of the snapshot other than the program
    counter (A, B, X, SP and the flags) are as before.  The scratch
    register [tmp16] and the instruction latch are not among them. *)
Theorem jmp_extended (s : Core) (op d1 d2 : Z) :
  byte op -> byte d1 -> byte d2 ->
  decode op = H_JMP -> slice op 4 6 = ModeBits.EXTENDED mb ->
  reset_state s = 3 -> cycle s = 0 ->
  let dins := [op; d1; d2] in
  let s' := run alu mb fl s dins in
  run_ends alu mb fl s dins = [false; false; true] /\
  run_reads alu mb fl s dins =
    [(trunc 16 (pc s + 1), d1); (trunc 16 (pc s + 2), d2)] /\
  run_writes alu mb fl s dins = [] /\
  run_bus alu mb fl (step alu mb fl s op) [d1; d2] =
    [(trunc 16 (pc s + 1), true, true, d1);
     (trunc 16 (pc s + 2), true, true, d2)] /\
  pc s' = Z.lor (Z.shiftl d1 8) d2 /\
  a s' = a s /\ b s' = b s /\ x s' = x s /\ sp s' = sp s /\
  ccs s' = ccs s /\ Dout s' = Dout s /\ cycle s' = 0.
Proof.
  intros Hop Hd1 Hd2 Hdec Hmode Hrs Hcy dins s'. subst s' dins.
  open_core s. subst rs0 cy0. unfold_run.
  elab_plain. rewrite (trunc8_byte op Hop).
  elab_one ltac:(fun E =>
    rewrite Hdec in E; unfold JMP, mode in E; cbn [instr] in E;
    rewrite Hmode, !Z.eqb_refl in E).
  elab_one ltac:(fun E =>
    rewrite Hdec in E; unfold JMP, mode in E; cbn [instr] in E;
    rewrite Hmode, !Z.eqb_refl in E).
  cbn [pc a b x sp ccs Dout cycle app].
  rewrite !alu_NONE, !trunc_succ_succ, (trunc8_byte d1 Hd1).
  rewrite slice_Cat_hi by (assumption || apply slice_low_byte).
  rewrite !(trunc16_word (Cat _ _)) by (apply Cat_word16; assumption).
  rewrite Cat_shift_or. repeat split.
Qed.

Lemma Cat_zero_high lo t : byte lo ->
  Cat (trunc 8 lo) (slice (Cat (slice t 0 8) 0) 8 16) = lo.
Proof.
  intros Hlo.
  rewrite slice_Cat_hi by (apply slice_low_byte || (unfold byte; lia)).
  rewrite trunc8_byte, Cat_spec by exact Hlo. lia.
Qed.

(** C5: an indexed-mode store reads memory once, the offset at [pc + 1],
    and writes once, in its last cycle (cycle 5): the address is the index
    register plus the offset, modulo 2^16, and the byte is what the
    accumulator that bit 6 selects held before the instruction.  Between
    them the bus has three dead cycles.  The flags change in the last
    cycle alone, by the load function of the ALU on the stored byte: Zero
    and Negative follow it and Overflow is cleared. *)
Theorem sta_indexed (s : Core) (op d1 d2 d3 d4 d5 : Z) :
  byte op -> byte d1 ->
  decode op = H_STA -> slice op 4 6 = ModeBits.INDEXED mb ->
  ModeBits.INDEXED mb <> ModeBits.DIRECT mb ->
  ModeBits.INDEXED mb <> ModeBits.EXTENDED mb ->
  byte (a s) -> byte (b s) ->
  reset_state s = 3 -> cycle s = 0 ->
  let acc := Mux (bit op 6) (b s) (a s) in
  let target := trunc 16 (x s + d1) in
  let dins := [op; d1; d2; d3; d4; d5] in
  let s' := run alu mb fl s dins in
  run_ends alu mb fl s dins = [false; false; false; false; false; true] /\
  run_reads alu mb fl s dins = [(trunc 16 (pc s + 1), d1)] /\
  run_writes alu mb fl s dins = [(target, acc)] /\
  run_bus alu mb fl (step alu mb fl s op) [d1; d2; d3; d4; d5] =
    [(trunc 16 (pc s + 1), true, true, d1);
     (trunc 16 (pc s + 2), true, false, d2);
     (trunc 16 (pc s + 2), true, false, d3);
     (target, true, false, d4);
     (target, false, true, acc)] /\
  pc s' = trunc 16 (pc s + 2) /\
  a s' = a s /\ b s' = b s /\ x s' = x s /\ sp s' = sp s /\
  ccs s' = ALU8.ccs_next alu ALU8Func.LD 0 acc (ccs s) /\
  bit (ccs s') (Flags.Z fl) = (acc =? 0) /\
  bit (ccs s') (Flags.N fl) = bit acc 7 /\
  bit (ccs s') (Flags.V fl) = false /\
  cycle s' = 0.
Proof.
  intros Hop Hd1 Hdec Hmode Hnd Hne Ha Hb Hrs Hcy acc target dins s'.
  subst s' dins target acc.
  apply Z.eqb_neq in Hnd, Hne.
  open_core s. subst rs0 cy0. unfold_run.
  elab_plain. rewrite (trunc8_byte op Hop).
  do 5 elab_one ltac:(fun E =>
    rewrite Hdec in E; unfold STA, mode in E; cbn [instr] in E;
    rewrite Hmode, Hnd, Hne, !Z.eqb_refl in E).
  cbn [pc a b x sp ccs cycle app].
  rewrite !alu_NONE, !trunc_idem, !trunc_succ_succ.
  rewrite Cat_zero_high by exact Hd1.
  rewrite (Z.add_comm d1 x0).
  unfold Mux.
  assert (Hacc : trunc 8 (if bit op 6 then b0 else a0) =
                 if bit op 6 then b0 else a0)
    by (apply trunc8_byte; destruct (bit op 6); assumption).
  rewrite !Hacc.
  pose proof (alu_LD 0 (if bit op 6 then b0 else a0) ccs0) as (HZ & HN & HV).
  repeat split; assumption.
Qed.

(** *** Instructions without operand *)

(** C7: an opcode that no case of the table matches ends at the first
    execute cycle, with the program counter as the fetch left it (one
    past the opcode) as the next fetch address; nothing is reported read
    or written, the bus stays in read direction, and A, B, X, SP, the
    flags, the scratch registers and the data-out latch are as before;
    the instruction latch holds the opcode. *)
Theorem illegal_opcode_skips (s : Core) (op d : Z) :
  byte op ->
  forallb (fun e => negb (matches (fst e) op)) decode_table = true ->
  reset_state s = 3 -> cycle s = 0 ->
  let s1 := step alu mb fl s op in
  let s2 := step alu mb fl s1 d in
  run_ends alu mb fl s [op; d] = [false; true] /\
  cycle s1 = 1 /\ pc s1 = trunc 16 (pc s + 1) /\
  next_fetch mb fl s1 d = pc s1 /\
  pc s2 = trunc 16 (pc s + 1) /\ Addr s2 = pc s2 /\ cycle s2 = 0 /\
  run_reads alu mb fl s [op; d] = [] /\
  run_writes alu mb fl s [op; d] = [] /\
  RW s1 = true /\ RW s2 = true /\
  a s2 = a s /\ b s2 = b s /\ x s2 = x s /\ sp s2 = sp s /\
  ccs s2 = ccs s /\ tmp8 s2 = tmp8 s /\ tmp16 s2 = tmp16 s /\
  Dout s2 = Dout s /\ instr s2 = op.
Proof.
  intros Hop Hno Hrs Hcy s1 s2. subst s2 s1.
  pose proof (switch_no_match decode_table op Hno) as Hdec.
  fold (decode op) in Hdec. clear Hno.
  open_core s. subst rs0 cy0. unfold_run.
  elab_plain. rewrite (trunc8_byte op Hop).
  elab_one ltac:(fun E => rewrite Hdec in E).
  cbn [Addr RW pc cycle a b x sp ccs tmp8 tmp16 Dout instr app].
  rewrite !alu_NONE, !trunc_idem. repeat split.
Qed.

Lemma nop_once Addr0 Dout0 RW0 VMA0 a0 b0 x0 sp0 pc0 instr0 tmp80 tmp160
    ccs0 d :
  run alu mb fl
    (mkCore Addr0 Dout0 RW0 VMA0 a0 b0 x0 sp0 pc0 instr0 tmp80 tmp160 3 0
       ccs0)
    [0x01; d] =
  mkCore (trunc 16 (pc0 + 1)) Dout0 true true a0 b0 x0 sp0
    (trunc 16 (pc0 + 1)) 0x01 tmp80 tmp160 3 0 ccs0.
Proof.
  unfold_run. elab_plain.
  elab_one ltac:(fun E => change (decode 1) with H_NOP in E).
  rewrite !alu_NONE, !trunc_idem. reflexivity.
Qed.

(** C8: NOP executed any number of times in succession, whatever the data
    lines carry in its second cycle, advances the program counter by one
    per execution (modulo 2^16) and changes neither A, B, X, SP nor any
    flag, nor the scratch registers and the data-out latch; the core is
    ready to fetch again. *)
Theorem nop_changes_only_pc (s : Core) (ds : list Z) :
  reset_state s = 3 -> cycle s = 0 -> word16 (pc s) ->
  let s' := run alu mb fl s (nops ds) in
  pc s' = trunc 16 (pc s + Z.of_nat (List.length ds)) /\
  a s' = a s /\ b s' = b s /\ x s' = x s /\ sp s' = sp s /\
  ccs s' = ccs s /\ tmp8 s' = tmp8 s /\ tmp16 s' = tmp16 s /\
  Dout s' = Dout s /\ reset_state s' = 3 /\ cycle s' = 0.
Proof.
  revert s. induction ds as [| d ds IH]; intros s Hrs Hcy Hpc s'.
  - subst s'. cbn [nops flat_map run List.length Z.of_nat].
    rewrite Z.add_0_r, trunc16_word by exact Hpc. repeat split; assumption.
  - subst s'. open_core s. subst rs0 cy0.
    change (nops (d :: ds)) with ([0x01; d] ++ nops ds).
    cbn [app]. change (run alu mb fl ?s0 (1 :: d :: ?l))
      with (run alu mb fl (run alu mb fl s0 [1; d]) l).
    rewrite nop_once.
    match goal with
    | |- context [run alu mb fl ?s1 (nops ds)] =>
        specialize (IH s1 eq_refl eq_refl (trunc_word16 _))
    end.
    cbv zeta in IH. cbn [pc a b x sp ccs tmp8 tmp16 Dout] in IH.
    destruct IH as (Epc & IH). split; [| exact IH].
    rewrite Epc, trunc_add_l. f_equal.
    cbn [List.length]. lia.
Qed.

End CoreProps.

(** ** The sequencers, under the mode values of the 6800 *)

Section Sequencers.

Variable alu : ALU8.t.
Variable fl : Flags.t.

Lemma reset_cycle (s : Core) (d : Z) :
  reset_state s = cycle s -> 0 <= cycle s <= 2 ->
  let s' := step alu ModeBits_6800 fl s d in
  ends ModeBits_6800 fl s d = (cycle s =? 2) /\
  reset_state s' = reset_state s + 1 /\
  cycle s' = (if cycle s =? 2 then 0 else cycle s + 1).
Proof.
  intros Hrs Hcy s'. subst s'. open_core s. subst rs0.
  assert (Hc : cy0 = 0 \/ cy0 = 1 \/ cy0 = 2) by lia.
  destruct Hc as [Hc | [Hc | Hc]]; subst cy0;
    unfold_run; elab_plain; cbn [reset_state cycle]; repeat split.
Qed.

Lemma fetch_cycle (s : Core) (d : Z) :
  reset_state s = 3 -> cycle s = 0 ->
  let s' := step alu ModeBits_6800 fl s d in
  ends ModeBits_6800 fl s d = false /\
  reset_state s' = 3 /\ instr s' = trunc 8 d /\ cycle s' = 1.
Proof.
  intros Hrs Hcy s'. subst s'. open_core s. subst rs0 cy0.
  unfold_run. elab_plain. cbn [reset_state instr cycle]. repeat split.
Qed.

(** A cycle of an instruction, by handler, mode and cycle: the instruction
    ends in its last cycle and in no cycle before, and until then the
    cycle counter counts. *)
Lemma execute_cycle (s : Core) (d : Z) :
  reset_state s = 3 ->
  1 <= cycle s <= last_cycle ModeBits_6800 (decode (instr s)) (mode s) ->
  let s' := step alu ModeBits_6800 fl s d in
  ends ModeBits_6800 fl s d =
    (cycle s =? last_cycle ModeBits_6800 (decode (instr s)) (mode s)) /\
  reset_state s' = 3 /\ instr s' = instr s /\
  cycle s' = (if ends ModeBits_6800 fl s d then 0 else cycle s + 1).
Proof.
  intros Hrs Hcy s'. subst s'. open_core s. subst rs0.
  unfold mode in *. cbn [instr] in *.
  pose proof (mode_range instr0) as Hmr.
  assert (Hmd : slice instr0 4 6 = 0 \/ slice instr0 4 6 = 1 \/
                slice instr0 4 6 = 2 \/ slice instr0 4 6 = 3) by lia.
  clear Hmr.
  destruct (decode instr0) as [ | | | | | | | | func o1 o2 st | | func st | | ]
    eqn:Hdec;
    destruct Hmd as [Hmd | [Hmd | [Hmd | Hmd]]]; rewrite Hmd in *;
    cbn [last_cycle Z.eqb Pos.eqb ModeBits.IMMEDIATE ModeBits.DIRECT
         ModeBits.INDEXED ModeBits.EXTENDED ModeBits.A ModeBits.B
         ModeBits_6800] in *;
    try lia;
    (assert (Hc : cy0 = 1 \/ cy0 = 2 \/ cy0 = 3 \/ cy0 = 4 \/ cy0 = 5 \/
                  cy0 = 6) by lia;
     destruct Hc as [Hc | [Hc | [Hc | [Hc | [Hc | Hc]]]]]; subst cy0;
     try lia; clear Hcy);
    try destruct st; destruct (bit instr0 6) eqn:Hb6;
    unfold_run;
    elab_one ltac:(fun E => settle_opcode Hdec Hmd E; rewrite ?Hb6 in E);
    cbn [reset_state instr cycle]; repeat split.
Qed.

Lemma core_inv_step (s : Core) (d : Z) :
  core_inv ModeBits_6800 s ->
  core_inv ModeBits_6800 (step alu ModeBits_6800 fl s d) /\
  (cycle (step alu ModeBits_6800 fl s d) = 0 ->
   ends ModeBits_6800 fl s d = true).
Proof.
  intros [[Hrs Hcy] | [[Hrs Hcy] | [[Hrs Hcy] | [(Hrs & Hcy & _) |
          (Hrs & Hb & Hcy)]]]].
  - destruct (reset_cycle s d) as (He & Hrs' & Hcy'); [lia | lia |].
    rewrite Hcy in Hcy', He. rewrite Hrs in Hrs'.
    cbn [Z.eqb Pos.eqb Z.add Pos.add Pos.succ] in Hcy', Hrs', He.
    split; [| lia]. right; left. split; assumption.
  - destruct (reset_cycle s d) as (He & Hrs' & Hcy'); [lia | lia |].
    rewrite Hcy in Hcy', He. rewrite Hrs in Hrs'.
    cbn [Z.eqb Pos.eqb Z.add Pos.add Pos.succ] in Hcy', Hrs', He.
    split; [| lia]. right; right; left. split; assumption.
  - destruct (reset_cycle s d) as (He & Hrs' & Hcy'); [lia | lia |].
    rewrite Hcy in Hcy', He. rewrite Hrs in Hrs'.
    cbn [Z.eqb Pos.eqb Z.add Pos.add Pos.succ] in Hcy', Hrs', He.
    split; [| intros _; exact He].
    destruct (end_of_instruction alu ModeBits_6800 fl s d He)
      as (_ & Hpc & Haddr & _).
    right; right; right; left. repeat split; congruence.
  - destruct (fetch_cycle s d Hrs Hcy) as (He & Hrs' & Hi & Hcy').
    split; [| lia]. right; right; right; right.
    split; [exact Hrs' |]. split; [rewrite Hi; apply trunc_byte |].
    rewrite Hcy'. unfold mode. rewrite Hi.
    pose proof (last_cycle_bounds (trunc 8 d) (trunc_byte d)). lia.
  - destruct (execute_cycle s d Hrs Hcy) as (He & Hrs' & Hi & Hcy').
    destruct (ends ModeBits_6800 fl s d) eqn:Hends.
    + split; [| intros _; reflexivity].
      destruct (end_of_instruction alu ModeBits_6800 fl s d Hends)
        as (_ & Hpc & Haddr & _).
      right; right; right; left. repeat split; congruence.
    + split; [| lia]. symmetry in He. apply Z.eqb_neq in He.
      right; right; right; right.
      split; [exact Hrs' |]. unfold mode in *. rewrite Hi.
      split; [exact Hb | lia].
Qed.

Lemma reachable_inv (s : Core) :
  reachable alu ModeBits_6800 fl s -> core_inv ModeBits_6800 s.
Proof.
  induction 1 as [s | s d _ IH].
  - left. split; reflexivity.
  - apply core_inv_step; exact IH.
Qed.

Lemma reachable_ticks (mem : Z -> Z) (n : nat) : forall s,
  reachable alu ModeBits_6800 fl s ->
  reachable alu ModeBits_6800 fl (ticks alu ModeBits_6800 fl mem n s).
Proof.
  induction n as [| n IH]; intros s Hs; [exact Hs |].
  cbn [ticks]. apply IH. unfold tick. apply reach_step. exact Hs.
Qed.

Lemma core_inv_cycle (s : Core) :
  core_inv ModeBits_6800 s -> 0 <= cycle s <= 6.
Proof.
  intros [[_ H] | [[_ H] | [[_ H] | [(_ & H & _) | (_ & Hb & H)]]]];
    try lia.
  unfold mode in H. pose proof (last_cycle_bounds (instr s) Hb). lia.
Qed.

(** From any cycle of an instruction on, no cycle ends it but the last. *)
Lemma run_ends_from (k : nat) : forall (s : Core) (ds : list Z),
  reset_state s = 3 ->
  1 <= cycle s <= last_cycle ModeBits_6800 (decode (instr s)) (mode s) ->
  cycle s + Z.of_nat k =
    last_cycle ModeBits_6800 (decode (instr s)) (mode s) ->
  List.length ds = S k ->
  run_ends alu ModeBits_6800 fl s ds = repeat false k ++ [true] /\
  cycle (run alu ModeBits_6800 fl s ds) = 0.
Proof.
  induction k as [| k IH]; intros s ds Hrs Hcy Hk Hlen.
  - destruct ds as [| d [| d' ds]]; try discriminate Hlen.
    destruct (execute_cycle s d Hrs Hcy) as (He & _ & _ & Hcy').
    cbn [run_ends run repeat app]. rewrite He in *.
    replace (cycle s =? _) with true in * by (symmetry; apply Z.eqb_eq; lia).
    split; [reflexivity | exact Hcy'].
  - destruct ds as [| d ds]; [discriminate Hlen |].
    destruct (execute_cycle s d Hrs Hcy) as (He & Hrs' & Hi & Hcy').
    cbn [run_ends run repeat app]. rewrite He in *.
    replace (cycle s =? _) with false in * by (symmetry; apply Z.eqb_neq; lia).
    destruct (IH (step alu ModeBits_6800 fl s d) ds) as [IH1 IH2].
    + exact Hrs'.
    + unfold mode in *. rewrite Hi. lia.
    + unfold mode in *. rewrite Hi. lia.
    + cbn in Hlen. lia.
    + rewrite IH1. split; [reflexivity | exact IH2].
Qed.

(** C9: in every state that the core reaches, if the reset sequence is
    over and the cycle counter is 0, the address lines carry the program
    counter, so the fetch samples the opcode at the program counter; the
    cycle counter becomes 0 only by an end of instruction (the last reset
    state makes one), and an end of instruction loads the program counter
    and the address register with the same value, the next fetch
    address. *)
Theorem fetch_address_is_pc (s : Core) :
  reachable alu ModeBits_6800 fl s ->
  (reset_state s = 3 -> cycle s = 0 -> Addr s = pc s) /\
  (forall d,
     cycle (step alu ModeBits_6800 fl s d) = 0 ->
     ends ModeBits_6800 fl s d = true) /\
  (forall d,
     ends ModeBits_6800 fl s d = true ->
     cycle (step alu ModeBits_6800 fl s d) = 0 /\
     pc (step alu ModeBits_6800 fl s d) =
       trunc 16 (next_fetch ModeBits_6800 fl s d) /\
     Addr (step alu ModeBits_6800 fl s d) =
       trunc 16 (next_fetch ModeBits_6800 fl s d)).
Proof.
  intros Hs. pose proof (reachable_inv s Hs) as Hinv. repeat split.
  - intros Hrs Hcy.
    destruct Hinv as [[H _] | [[H _] | [[H _] | [(_ & _ & H) | (_ & _ & H)]]]];
      lia.
  - intros d. apply core_inv_step. exact Hinv.
  - apply end_of_instruction; assumption.
  - apply (end_of_instruction alu ModeBits_6800 fl s d); assumption.
  - apply (end_of_instruction alu ModeBits_6800 fl s d); assumption.
Qed.

(** C10: in every state that the core reaches the cycle counter is at
    most 6, so the 4-bit counter never wraps; and every opcode, whatever
    mode its bits select and also when no case of the table matches, is
    ended by the cycle [n] that the spec gives for its handler and mode,
    1 <= n <= 6, and by no cycle before: fetched in any state, the
    instruction is complete after [n + 1] ticks. *)
Theorem cycle_counter_bounded :
  (forall s, reachable alu ModeBits_6800 fl s -> 0 <= cycle s <= 6) /\
  (forall s op ds,
     byte op -> reset_state s = 3 -> cycle s = 0 ->
     let n := last_cycle ModeBits_6800 (decode op) (slice op 4 6) in
     List.length ds = Z.to_nat n ->
     1 <= n <= 6 /\
     run_ends alu ModeBits_6800 fl s (op :: ds) =
       repeat false (Z.to_nat n) ++ [true] /\
     cycle (run alu ModeBits_6800 fl s (op :: ds)) = 0).
Proof.
  split.
  - intros s Hs. apply core_inv_cycle, reachable_inv, Hs.
  - intros s op ds Hop Hrs Hcy n Hlen.
    pose proof (last_cycle_bounds op Hop) as Hn. fold n in Hn.
    split; [exact Hn |].
    destruct (fetch_cycle s op Hrs Hcy) as (He & Hrs' & Hi & Hcy').
    rewrite (trunc8_byte op Hop) in Hi.
    cbn [run_ends run]. rewrite He.
    destruct (run_ends_from (Z.to_nat n - 1)
                (step alu ModeBits_6800 fl s op) ds) as [H1 H2].
    + exact Hrs'.
    + unfold mode. rewrite Hi, Hcy'. fold n. lia.
    + unfold mode. rewrite Hi, Hcy'. fold n. lia.
    + lia.
    + rewrite H1. split; [| exact H2].
      replace (Z.to_nat n) with (S (Z.to_nat n - 1)) at 2 by lia.
      reflexivity.
Qed.

End Sequencers.

(** ** The theorems at sample inputs *)

(** The reset sequence on the memory of [__main__]: the vector is 0x1234. *)
Lemma reset_reads_vector_witness :
  byte (main_mem 0xFFFE) /\ byte (main_mem 0xFFFF) /\
  pc (ticks (alu8_model Flags_6800) ModeBits_6800 Flags_6800 main_mem 3
        (reset_core (alu8_model Flags_6800) (fetching 0))) =
  Z.lor (Z.shiftl (main_mem 0xFFFE) 8) (main_mem 0xFFFF).
Proof.
  assert (Hhi : byte (main_mem 0xFFFE)) by (unfold byte, main_mem, fetching; simpl; lia).
  assert (Hlo : byte (main_mem 0xFFFF)) by (unfold byte, main_mem, fetching; simpl; lia).
  split; [exact Hhi |]. split; [exact Hlo |].
  pose proof (reset_reads_vector (alu8_model Flags_6800) ModeBits_6800
                Flags_6800 main_mem (fetching 0) Hhi Hlo) as H.
  cbv zeta in H. destruct H as (_ & _ & _ & _ & _ & _ & _ & H & _). exact H.
Defined.

(** BEQ (0x27) in its deciding cycle with the Zero flag set: taken. *)
Lemma branch_decision_witness :
  let s := mkCore 0x1002 0 true true 0 0 0 0 0x1002 0x27 0x10 0x2000 3 3
             0x04 in
  matches ["0010----"] (instr s) = true /\
  reset_state s = 3 /\ cycle s = 3 /\
  word16 (tmp16 s) /\ word16 (pc s) /\
  pc (step (alu8_model Flags_6800) ModeBits_6800 Flags_6800 s 0xFF) =
    (if xorb (base_condition Flags_6800 (slice (instr s) 1 4) (ccs s))
             (bit (instr s) 0)
     then tmp16 s else pc s).
Proof.
  intros s.
  assert (H1 : matches ["0010----"] (instr s) = true) by reflexivity.
  assert (H2 : reset_state s = 3) by reflexivity.
  assert (H3 : cycle s = 3) by reflexivity.
  assert (H4 : word16 (tmp16 s)) by (unfold word16, fetching; simpl; lia).
  assert (H5 : word16 (pc s)) by (unfold word16, fetching; simpl; lia).
  repeat (split; [assumption |]).
  pose proof (branch_decision (alu8_model Flags_6800) ModeBits_6800
                Flags_6800 s 0xFF H1 H2 H3 H4 H5) as H.
  cbv zeta in H. destruct H as (_ & _ & _ & H & _). exact H.
Defined.

(** BRA on the memory of [__main__]. *)
Lemma bra_always_taken_witness :
  main_mem 0x1234 = 0x20 /\ main_mem 0x1235 = 0xFE /\
  reset_state (fetching 0x1234) = 3 /\ cycle (fetching 0x1234) = 0 /\
  pc (fetching 0x1234) = 0x1234 /\ Addr (fetching 0x1234) = 0x1234 /\
  pc (ticks (alu8_model Flags_6800) ModeBits_6800 Flags_6800 main_mem 4
        (fetching 0x1234)) = 0x1234.
Proof.
  repeat (split; [reflexivity |]).
  pose proof (bra_always_taken (alu8_model Flags_6800) ModeBits_6800
                Flags_6800 main_mem (fetching 0x1234)
                eq_refl eq_refl eq_refl eq_refl eq_refl eq_refl) as H.
  destruct H as (_ & _ & _ & _ & _ & _ & _ & H & _). exact H.
Defined.

(** LDA A direct (0x96) at 0x1000, zero-page address 0x10, operand 0x42. *)
Lemma alu_direct_witness :
  byte 0x96 /\ byte 0x10 /\
  decode 0x96 = H_ALU ALU8Func.LD true /\
  slice 0x96 4 6 = ModeBits.DIRECT ModeBits_6800 /\
  reset_state (fetching 0x1000) = 3 /\ cycle (fetching 0x1000) = 0 /\
  run_reads (alu8_model Flags_6800) ModeBits_6800 Flags_6800
    (fetching 0x1000) [0x96; 0x10; 0x42] =
  [(trunc 16 (pc (fetching 0x1000) + 1), 0x10); (0x10, 0x42)].
Proof.
  assert (H1 : byte 0x96) by (unfold byte; lia).
  assert (H2 : byte 0x10) by (unfold byte; lia).
  split; [exact H1 |]. split; [exact H2 |].
  repeat (split; [reflexivity |]).
  pose proof (alu_direct (alu8_model Flags_6800) ModeBits_6800 Flags_6800
                (fetching 0x1000) 0x96 0x10 0x42 ALU8Func.LD true H1 H2
                eq_refl eq_refl eq_refl eq_refl) as H.
  cbv zeta in H. destruct H as (_ & H & _). exact H.
Defined.

(** C3, as stated, fails: LDA A direct reads memory twice, so it is not
    the case that its only read is the one at [pc + 1]. *)
Lemma alu_direct_single_read_counterexample :
  let s := fetching 0x1000 in
  let dins := [0x96; 0x10; 0x42] in
  decode 0x96 = H_ALU ALU8Func.LD true /\
  slice 0x96 4 6 = ModeBits.DIRECT ModeBits_6800 /\
  run_ends (alu8_model Flags_6800) ModeBits_6800 Flags_6800 s dins =
    [false; false; true] /\
  run_reads (alu8_model Flags_6800) ModeBits_6800 Flags_6800 s dins =
    [(0x1001, 0x10); (0x0010, 0x42)] /\
  ~ (exists d,
       run_reads (alu8_model Flags_6800) ModeBits_6800 Flags_6800 s dins =
       [(pc s + 1, d)]).
Proof.
  intros s dins. repeat (split; [reflexivity |]).
  intros [d H]. vm_compute in H. discriminate H.
Qed.

(** JMP extended (0x7E) at 0x1000 to 0xA010. *)
Lemma jmp_extended_witness :
  (forall input1 input2 flags,
     ALU8.ccs_next (alu8_model Flags_6800) ALU8Func.NONE input1 input2 flags
     = flags) /\
  byte 0x7E /\ byte 0xA0 /\ byte 0x10 /\
  decode 0x7E = H_JMP /\
  slice 0x7E 4 6 = ModeBits.EXTENDED ModeBits_6800 /\
  reset_state (fetching 0x1000) = 3 /\ cycle (fetching 0x1000) = 0 /\
  pc (run (alu8_model Flags_6800) ModeBits_6800 Flags_6800
        (fetching 0x1000) [0x7E; 0xA0; 0x10]) =
  Z.lor (Z.shiftl 0xA0 8) 0x10.
Proof.
  assert (H1 : byte 0x7E) by (unfold byte; lia).
  assert (H2 : byte 0xA0) by (unfold byte; lia).
  assert (H3 : byte 0x10) by (unfold byte; lia).
  split; [exact (alu8_model_NONE Flags_6800) |].
  split; [exact H1 |]. split; [exact H2 |]. split; [exact H3 |].
  repeat (split; [reflexivity |]).
  pose proof (jmp_extended (alu8_model Flags_6800) ModeBits_6800 Flags_6800
                (alu8_model_NONE Flags_6800) (fetching 0x1000)
                0x7E 0xA0 0x10 H1 H2 H3 eq_refl eq_refl eq_refl eq_refl)
    as H.
  cbv zeta in H. destruct H as (_ & _ & _ & _ & H & _). exact H.
Defined.

(** STA A indexed (0xA7) at 0x1000 with offset 0x10: X is 0x3344 and A
    holds 0x11. *)
Lemma sta_indexed_witness :
  byte 0xA7 /\ byte 0x10 /\
  decode 0xA7 = H_STA /\
  slice 0xA7 4 6 = ModeBits.INDEXED ModeBits_6800 /\
  ModeBits.INDEXED ModeBits_6800 <> ModeBits.DIRECT ModeBits_6800 /\
  ModeBits.INDEXED ModeBits_6800 <> ModeBits.EXTENDED ModeBits_6800 /\
  byte (a (fetching 0x1000)) /\ byte (b (fetching 0x1000)) /\
  reset_state (fetching 0x1000) = 3 /\ cycle (fetching 0x1000) = 0 /\
  run_writes (alu8_model Flags_6800) ModeBits_6800 Flags_6800
    (fetching 0x1000) [0xA7; 0x10; 0xFF; 0xFF; 0xFF; 0xFF] =
  [(trunc 16 (x (fetching 0x1000) + 0x10),
    Mux (bit 0xA7 6) (b (fetching 0x1000)) (a (fetching 0x1000)))].
Proof.
  assert (H1 : byte 0xA7) by (unfold byte; lia).
  assert (H2 : byte 0x10) by (unfold byte; lia).
  assert (H3 : ModeBits.INDEXED ModeBits_6800 <>
               ModeBits.DIRECT ModeBits_6800) by (simpl; lia).
  assert (H4 : ModeBits.INDEXED ModeBits_6800 <>
               ModeBits.EXTENDED ModeBits_6800) by (simpl; lia).
  assert (H5 : byte (a (fetching 0x1000))) by (unfold byte, main_mem, fetching; simpl; lia).
  assert (H6 : byte (b (fetching 0x1000))) by (unfold byte, main_mem, fetching; simpl; lia).
  split; [exact H1 |]. split; [exact H2 |].
  split; [reflexivity |]. split; [reflexivity |].
  split; [exact H3 |]. split; [exact H4 |].
  split; [exact H5 |]. split; [exact H6 |].
  split; [reflexivity |]. split; [reflexivity |].
  pose proof (sta_indexed (alu8_model Flags_6800) ModeBits_6800 Flags_6800
                (alu8_model_NONE Flags_6800) alu8_model_LD
                (fetching 0x1000) 0xA7 0x10 0xFF 0xFF 0xFF 0xFF
                H1 H2 eq_refl eq_refl H3 H4 H5 H6 eq_refl eq_refl) as H.
  cbv zeta in H. destruct H as (_ & _ & H & _). exact H.
Defined.

(** Opcode 0x00, which no case matches. *)
Lemma illegal_opcode_skips_witness :
  byte 0x00 /\
  forallb (fun e => negb (matches (fst e) 0x00)) decode_table = true /\
  reset_state (fetching 0x1000) = 3 /\ cycle (fetching 0x1000) = 0 /\
  pc (step (alu8_model Flags_6800) ModeBits_6800 Flags_6800
        (step (alu8_model Flags_6800) ModeBits_6800 Flags_6800
           (fetching 0x1000) 0x00) 0xFF) =
  trunc 16 (pc (fetching 0x1000) + 1).
Proof.
  assert (H1 : byte 0x00) by (unfold byte; lia).
  split; [exact H1 |]. repeat (split; [reflexivity |]).
  pose proof (illegal_opcode_skips (alu8_model Flags_6800) ModeBits_6800
                Flags_6800 (alu8_model_NONE Flags_6800) (fetching 0x1000)
                0x00 0xFF H1 eq_refl eq_refl eq_refl) as H.
  cbv zeta in H. destruct H as (_ & _ & _ & _ & H & _). exact H.
Defined.

(** Three NOPs from 0x1236. *)
Lemma nop_changes_only_pc_witness :
  reset_state (fetching 0x1236) = 3 /\ cycle (fetching 0x1236) = 0 /\
  word16 (pc (fetching 0x1236)) /\
  pc (run (alu8_model Flags_6800) ModeBits_6800 Flags_6800
        (fetching 0x1236) (nops [0xFF; 0xFF; 0xFF])) =
  trunc 16 (pc (fetching 0x1236) + Z.of_nat (List.length [0xFF; 0xFF; 0xFF])).
Proof.
  assert (H1 : word16 (pc (fetching 0x1236)))
    by (unfold word16, fetching; simpl; lia).
  split; [reflexivity |]. split; [reflexivity |]. split; [exact H1 |].
  pose proof (nop_changes_only_pc (alu8_model Flags_6800) ModeBits_6800
                Flags_6800 (alu8_model_NONE Flags_6800) (fetching 0x1236)
                [0xFF; 0xFF; 0xFF] eq_refl eq_refl H1) as H.
  cbv zeta in H. destruct H as (H & _). exact H.
Defined.

(** The core of the simulation three ticks after a reset pulse: about to
    fetch, with the vector on the address lines. *)
Lemma fetch_address_is_pc_witness :
  let s := ticks (alu8_model Flags_6800) ModeBits_6800 Flags_6800 main_mem 3
             (reset_core (alu8_model Flags_6800) (fetching 0)) in
  reachable (alu8_model Flags_6800) ModeBits_6800 Flags_6800 s /\
  reset_state s = 3 /\ cycle s = 0 /\ Addr s = pc s.
Proof.
  intros s.
  pose proof (reachable_ticks (alu8_model Flags_6800) Flags_6800 main_mem 3
                _ (reach_reset (alu8_model Flags_6800) ModeBits_6800
                     Flags_6800 (fetching 0))) as Hs.
  fold s in Hs.
  split; [exact Hs |]. split; [reflexivity |]. split; [reflexivity |].
  exact (proj1 (fetch_address_is_pc (alu8_model Flags_6800) Flags_6800 s Hs)
           eq_refl eq_refl).
Defined.

(** The core of the simulation nine ticks after a reset pulse. *)
Lemma cycle_counter_bounded_witness :
  let s := ticks (alu8_model Flags_6800) ModeBits_6800 Flags_6800 main_mem 9
             (reset_core (alu8_model Flags_6800) (fetching 0)) in
  reachable (alu8_model Flags_6800) ModeBits_6800 Flags_6800 s /\
  0 <= cycle s <= 6.
Proof.
  intros s.
  pose proof (reachable_ticks (alu8_model Flags_6800) Flags_6800 main_mem 9
                _ (reach_reset (alu8_model Flags_6800) ModeBits_6800
                     Flags_6800 (fetching 0))) as Hs.
  fold s in Hs.
  split; [exact Hs |].
  exact (proj1 (cycle_counter_bounded (alu8_model Flags_6800) Flags_6800)
           s Hs).
Defined.

(** * Frames, the decode table and the other instructions *)

(** ** Frames: what no statement of a tick touches *)

Lemma keeps_seq P p q : keeps P p -> keeps P q -> keeps P (p ;; q).
Proof. intros Hp Hq m Hm. apply Hq, Hp, Hm. Qed.

Lemma keeps_skip P : keeps P skip.
Proof. intros m Hm. exact Hm. Qed.

Lemma slice_high_byte v : byte (slice v 8 16).
Proof. rewrite slice_spec by lia. apply Z.mod_pos_bound. reflexivity. Qed.

(** The handlers, as sequences of assignments under tests. *)
Ltac open_handlers :=
  cbv [execute NOP TAP TPA IN_DE_X CL_SE_V CL_SE_C CL_SE_I BR ALU2 JMP ALU
       STA mode_immediate8 mode_direct mode_indexed mode_ext read_byte
       end_instr reset_handler fetch If].

(** One step of the decomposition of a statement; [leaf] proves [keeps P]
    of a single assignment.  The shape of the statement decides, not
    unification, which would evaluate the tests. *)
Ltac keeps_step leaf :=
  lazymatch goal with
  | |- keeps _ (stmt_seq _ _) => apply keeps_seq
  | |- keeps _ skip => apply keeps_skip
  | |- keeps _ (if ?c then _ else _) => destruct c eqn:?
  | |- keeps _ (match ?h with H_NOP => _ | _ => _ end) => destruct h eqn:?
  | |- keeps _ _ => leaf
  end.

Ltac keeps_tac leaf := repeat (keeps_step leaf).

(** An assignment, applied to pending assignments given field by field. *)
Ltac open_leaf :=
  unfold keeps; intros;
  repeat match goal with
  | m : Stmts |- _ => destruct m
  | n : Ph1 |- _ => destruct n
  | f : FormalData |- _ => destruct f
  | c : Comb |- _ => destruct c
  | v : rhs8 |- _ => destruct v
  end;
  cbn in *.

Section Frames.

Variable alu : ALU8.t.
Variable mb : ModeBits.t.
Variable fl : Flags.t.

Lemma keeps_elaborate (P : Stmts -> Prop) (s : Core) (d : Z) :
  (forall v, keeps P (comb_end_instr_flag v)) ->
  (forall v, keeps P (comb_end_instr_addr v)) ->
  (forall v, keeps P (comb_src8_1_select v)) ->
  (forall v, keeps P (comb_src8_2_select v)) ->
  (forall v, keeps P (comb_src8_1 v)) ->
  (forall v, keeps P (comb_src8_2 v)) ->
  (forall v, keeps P (comb_alu8_func v)) ->
  (forall v, keeps P (ph1_Addr v)) ->
  (forall v, keeps P (ph1_Dout v)) ->
  keeps P (ph1_RW true) ->
  (lowers_RW (decode (instr s)) = true -> keeps P (ph1_RW false)) ->
  (forall v, keeps P (ph1_VMA v)) ->
  (loads_acc (decode (instr s)) = true -> keeps P (ph1_a Alu8)) ->
  (loads_acc (decode (instr s)) = true -> keeps P (ph1_b Alu8)) ->
  (decode (instr s) = H_IN_DE_X -> forall v, keeps P (ph1_x v)) ->
  (forall v, keeps P (ph1_pc v)) ->
  ((reset_state s =? 3) = true -> (cycle s =? 0) = true ->
   forall v, keeps P (ph1_instr v)) ->
  (forall v, keeps P (ph1_tmp8 v)) ->
  (forall v, keeps P (ph1_tmp16 v)) ->
  (forall v, keeps P (ph1_tmp16_hi v)) ->
  (forall v, keeps P (ph1_tmp16_lo v)) ->
  (forall v, keeps P (ph1_reset_state v)) ->
  (forall v, keeps P (ph1_cycle v)) ->
  keeps P (formal_read (Addr s) d) ->
  (reports_write (decode (instr s)) = true ->
   keeps P (formal_write (Addr s) (Dout s))) ->
  P (Module_ s) -> P (elaborate mb fl s d).
Proof.
  intros K1 K2 K3 K4 K5 K6 K7 K8 K9 K10 K10' K11 K12 K13 K14 K15 K16 K17 K18 K19
    K20 K21 K22 K23 K24 H0.
  unfold elaborate.
  match goal with |- P (?p (Module_ s)) => assert (Hk : keeps P p) end;
    [| apply Hk, H0].
  assert (Ksrc : forall bus sel, (forall v, keeps P (bus v)) ->
                  keeps P (src_bus_setup s d bus sel)).
  { intros bus sel Hb m Hm. unfold src_bus_setup.
    destruct (reg8_map s d (sel (comb m))); apply Hb, Hm. }
  assert (Kend : keeps P end_instr_flag_handler).
  { intros m Hm. unfold end_instr_flag_handler, If.
    destruct (end_instr_flag (comb m)); [| exact Hm].
    apply K22, K10, K8, K15, Hm. }
  open_handlers.
  keeps_tac ltac:(idtac; lazymatch goal with
    | |- keeps _ (src_bus_setup _ _ _ _) => apply Ksrc; assumption
    | |- keeps _ end_instr_flag_handler => exact Kend
    | |- keeps _ (comb_end_instr_flag _) => apply K1
    | |- keeps _ (comb_end_instr_addr _) => apply K2
    | |- keeps _ (comb_src8_1_select _) => apply K3
    | |- keeps _ (comb_src8_2_select _) => apply K4
    | |- keeps _ (comb_src8_1 _) => apply K5
    | |- keeps _ (comb_src8_2 _) => apply K6
    | |- keeps _ (comb_alu8_func _) => apply K7
    | |- keeps _ (ph1_Addr _) => apply K8
    | |- keeps _ (ph1_Dout _) => apply K9
    | |- keeps _ (ph1_RW true) => exact K10
    | |- keeps _ (ph1_RW false) => apply K10'; reflexivity
    | |- keeps _ (ph1_VMA _) => apply K11
    | |- keeps _ (ph1_a Alu8) => apply K12; reflexivity
    | |- keeps _ (ph1_b Alu8) => apply K13; reflexivity
    | |- keeps _ (ph1_x _) => apply K14; reflexivity
    | |- keeps _ (ph1_pc _) => apply K15
    | |- keeps _ (ph1_instr _) => apply K16; reflexivity
    | |- keeps _ (ph1_tmp8 _) => apply K17
    | |- keeps _ (ph1_tmp16 _) => apply K18
    | |- keeps _ (ph1_tmp16_hi _) => apply K19
    | |- keeps _ (ph1_tmp16_lo _) => apply K20
    | |- keeps _ (ph1_reset_state _) => apply K21
    | |- keeps _ (ph1_cycle _) => apply K22
    | |- keeps _ (formal_read _ _) => exact K23
    | |- keeps _ (formal_write _ _) => apply K24; reflexivity
    end).
Qed.


(** X1: The registers keep their widths: whatever the data lines carry and
    whatever the ALU returns, a tick leaves every register of the core
    within its width. *)
Theorem step_keeps_widths (s : Core) (d : Z) :
  wf_core s -> wf_core (step alu mb fl s d).
Proof.
  intros Hwf.
  assert (H : wf_ph1 (ph1 (elaborate mb fl s d))).
  { apply (keeps_elaborate (fun m => wf_ph1 (ph1 m)));
      [ .. | unfold Module_, wf_ph1, wf_core, wf_rhs8 in *; cbn; exact Hwf ];
      open_leaf; unfold wf_ph1, wf_rhs8 in *; cbn in *;
      repeat match goal with H : _ /\ _ |- _ => destruct H end;
      repeat match goal with |- _ /\ _ => split end;
      try assumption; try exact I;
      first [ apply trunc_byte | apply trunc_word16
            | apply Cat_word16;
              first [apply slice_low_byte | apply trunc_byte
                    | apply slice_high_byte]
            | match goal with
              | |- context [trunc ?w ?v] =>
                  pose proof (trunc_range w v ltac:(lia)) as Hr;
                  change (2 ^ 2) with 4 in Hr; change (2 ^ 4) with 16 in Hr;
                  lia
              end ]. }
  unfold step, commit, wf_core. cbn [Addr Dout a b x sp pc instr tmp8 tmp16
    reset_state cycle].
  destruct H as (H1 & H2 & H3 & H4 & H5 & H6 & H7 & H8 & H9 & H10 & H11 & H12).
  assert (He : forall r, wf_rhs8 r ->
            byte (eval8 alu s (comb (elaborate mb fl s d)) r)).
  { intros [v |] Hr; cbn; [exact Hr | apply trunc_byte]. }
  repeat split; try (apply He; assumption);
    first [apply H1 | apply H2 | apply H5 | apply H6 | apply H7 | apply H8
          | apply H10 | apply H11 | apply H12].
Qed.

(** X2: No instruction of this core writes the stack pointer. *)
Theorem sp_never_written (s : Core) (d : Z) :
  sp (step alu mb fl s d) = sp s.
Proof.
  change (sp (step alu mb fl s d)) with (nx_sp (ph1 (elaborate mb fl s d))).
  apply (keeps_elaborate (fun m => nx_sp (ph1 m) = sp s));
    [ .. | reflexivity ]; open_leaf; assumption.
Qed.

(** X3: The index register changes only in a cycle of INX or DEX. *)
Theorem x_written_by_inx_dex (s : Core) (d : Z) :
  decode (instr s) <> H_IN_DE_X -> x (step alu mb fl s d) = x s.
Proof.
  intros Hne.
  change (x (step alu mb fl s d)) with (nx_x (ph1 (elaborate mb fl s d))).
  apply (keeps_elaborate (fun m => nx_x (ph1 m) = x s));
    [ .. | reflexivity ]; try contradiction; open_leaf; assumption.
Qed.

(** X4: The instruction latch changes only in the fetch cycle. *)
Theorem instr_latched_by_fetch (s : Core) (d : Z) :
  instr (step alu mb fl s d) <> instr s ->
  reset_state s = 3 /\ cycle s = 0.
Proof.
  intros Hne.
  destruct (reset_state s =? 3) eqn:Hrs; destruct (cycle s =? 0) eqn:Hcy;
    try (split; apply Z.eqb_eq; assumption).
  all: exfalso; apply Hne.
  all: change (instr (step alu mb fl s d))
         with (nx_instr (ph1 (elaborate mb fl s d))).
  all: apply (keeps_elaborate (fun m => nx_instr (ph1 m) = instr s));
    [ .. | reflexivity ]; try (intros; congruence); open_leaf; assumption.
Qed.

(** X5: What the core reports to the hook is what the bus carries: a reported
    read has the address on the address lines and the byte on the data
    lines of this cycle, a reported write the address and [Dout]. *)
Theorem reports_follow_bus (s : Core) (d : Z) :
  Forall (fun r => r = (Addr s, d)) (reads mb fl s d) /\
  Forall (fun w => w = (Addr s, Dout s)) (writes mb fl s d).
Proof.
  unfold reads, writes.
  apply (keeps_elaborate
           (fun m => Forall (fun r => r = (Addr s, d))
                       (read_log (formalData m)) /\
                     Forall (fun w => w = (Addr s, Dout s))
                       (write_log (formalData m))));
    [ .. | split; constructor ]; open_leaf; try assumption.
  all: match goal with Hm : _ /\ _ |- _ => destruct Hm as [H1 H2] end.
  all: split; try assumption.
  all: apply Forall_app; split; [assumption | repeat constructor].
Qed.

(** X6: The accumulators change only in a cycle of an instruction that
    stores the result of the ALU: TPA and the storing instructions of the
    two ALU families.  Compares, tests, branches, jumps, stores to memory
    and the flag instructions leave A and B as they are. *)
Theorem accumulators_written_by_alu (s : Core) (d : Z) :
  loads_acc (decode (instr s)) = false ->
  a (step alu mb fl s d) = a s /\ b (step alu mb fl s d) = b s.
Proof.
  intros Hl.
  assert (H : nx_a (ph1 (elaborate mb fl s d)) = Val (a s) /\
              nx_b (ph1 (elaborate mb fl s d)) = Val (b s)).
  { apply (keeps_elaborate (fun m => nx_a (ph1 m) = Val (a s) /\
                                     nx_b (ph1 m) = Val (b s)));
      [ .. | split; reflexivity ]; try (intros; congruence);
      open_leaf; assumption. }
  destruct H as [Ha Hb]. unfold step, commit. cbn [a b].
  rewrite Ha, Hb. split; reflexivity.
Qed.

(** X7: Only a store reports a write: a cycle of an instruction that is
    neither STA nor a storing read-modify-write instruction reports none,
    and neither do reset and fetch of such an opcode. *)
Theorem only_stores_report_writes (s : Core) (d : Z) :
  reports_write (decode (instr s)) = false -> writes mb fl s d = [].
Proof.
  intros Hn. unfold writes.
  apply (keeps_elaborate (fun m => write_log (formalData m) = []));
    [ .. | reflexivity ]; try (intros; congruence);
    open_leaf; assumption.
Qed.

(** X8: Only STA and the read-modify-write instructions lower R/W: once R/W
    is high, a cycle with any other opcode in the latch leaves it high. *)
Theorem only_stores_lower_RW (s : Core) (d : Z) :
  lowers_RW (decode (instr s)) = false -> RW s = true ->
  RW (step alu mb fl s d) = true.
Proof.
  intros Hn Hrw.
  change (RW (step alu mb fl s d)) with (nx_RW (ph1 (elaborate mb fl s d))).
  apply (keeps_elaborate (fun m => nx_RW (ph1 m) = true));
    [ .. | exact Hrw ]; try (intros; congruence);
    open_leaf; first [assumption | reflexivity].
Qed.

End Frames.

(** ** The decode table, opcode by opcode *)

Lemma bit_trunc8 v i : 0 <= i < 8 -> bit (trunc 8 v) i = bit v i.
Proof. intros H. unfold bit, trunc. apply Z.mod_pow2_bits_low. lia. Qed.

Lemma matches1_low pat v :
  (String.length pat <= 8)%nat -> matches1 pat (trunc 8 v) = matches1 pat v.
Proof.
  induction pat as [| c rest IH]; intros Hlen; [reflexivity |].
  cbn [String.length] in Hlen. cbn [matches1].
  rewrite IH by lia. rewrite bit_trunc8 by lia. reflexivity.
Qed.

Lemma matches_low pats v :
  forallb (fun p => (String.length p <=? 8)%nat) pats = true ->
  matches pats (trunc 8 v) = matches pats v.
Proof.
  unfold matches. induction pats as [| p rest IH]; intros H; [reflexivity |].
  cbn [forallb] in H. apply andb_true_iff in H. destruct H as [H1 H2].
  cbn [existsb]. rewrite IH by exact H2.
  rewrite matches1_low by (apply Nat.leb_le; exact H1). reflexivity.
Qed.

Lemma switch_low table v :
  short_patterns table = true -> switch table (trunc 8 v) = switch table v.
Proof.
  induction table as [| [pats h] rest IH]; intros H; [reflexivity |].
  cbn [short_patterns forallb fst] in H. apply andb_true_iff in H.
  destruct H as [H1 H2]. cbn [switch].
  rewrite matches_low by exact H1. rewrite IH by exact H2. reflexivity.
Qed.

(** The handler depends on the low eight bits of the latch alone. *)
Lemma decode_low v : decode (trunc 8 v) = decode v.
Proof. apply switch_low. reflexivity. Qed.

Lemma count_matches_low v : count_matches (trunc 8 v) = count_matches v.
Proof.
  unfold count_matches. f_equal. apply filter_ext_in.
  intros [pats h] Hin. cbn [fst]. apply matches_low.
  assert (Hs : short_patterns decode_table = true) by reflexivity.
  unfold short_patterns in Hs. rewrite forallb_forall in Hs.
  apply (Hs _ Hin).
Qed.

Lemma for_all_opcodes (P : Z -> bool) :
  forallb P opcodes = true -> forall op, byte op -> P op = true.
Proof.
  intros H op Hop. rewrite forallb_forall in H.
  apply H, byte_in_opcodes, Hop.
Qed.

(** X9: No opcode matches two cases of the decode table, so the order of the
    cases decides nothing. *)
Theorem decode_cases_disjoint (op : Z) : (count_matches op <= 1)%nat.
Proof.
  rewrite <- count_matches_low. apply Nat.leb_le.
  apply (for_all_opcodes (fun o => (count_matches o <=? 1)%nat));
    [vm_compute; reflexivity | apply trunc_byte].
Qed.

(** X10: Each formal module declares valid exactly the opcodes that [execute]
    hands to the handler it checks. *)
Theorem formal_valid_is_decode (op : Z) :
  formal_jmp_valid op = is_JMP (decode op) /\
  formal_sta_valid op = is_STA (decode op) /\
  formal_flag_valid op = is_CL_SE (decode op).
Proof.
  unfold formal_jmp_valid, formal_sta_valid, formal_flag_valid.
  rewrite <- (decode_low op).
  rewrite <- (matches_low ["011-1110"] op) by reflexivity.
  rewrite <- (matches_low ["1--10111"; "1-100111"] op) by reflexivity.
  rewrite <- (matches_low ["00001010"; "00001011"; "00001100"; "00001101";
                           "00001110"; "00001111"] op) by reflexivity.
  pose proof (trunc_byte op) as Hb. revert Hb. generalize (trunc 8 op).
  intros o Ho.
  assert (H : (Bool.eqb (matches ["011-1110"] o) (is_JMP (decode o)) &&
               Bool.eqb (matches ["1--10111"; "1-100111"] o)
                 (is_STA (decode o)) &&
               Bool.eqb (matches ["00001010"; "00001011"; "00001100";
                                  "00001101"; "00001110"; "00001111"] o)
                 (is_CL_SE (decode o))) = true).
  { apply (for_all_opcodes (fun o =>
       Bool.eqb (matches ["011-1110"] o) (is_JMP (decode o)) &&
       Bool.eqb (matches ["1--10111"; "1-100111"] o) (is_STA (decode o)) &&
       Bool.eqb (matches ["00001010"; "00001011"; "00001100";
                          "00001101"; "00001110"; "00001111"] o)
         (is_CL_SE (decode o)))); [vm_compute; reflexivity | exact Ho]. }
  apply andb_true_iff in H. destruct H as [H H3].
  apply andb_true_iff in H. destruct H as [H1 H2].
  apply Bool.eqb_prop in H1, H2, H3. repeat split; assumption.
Qed.

(** ** The other instructions, cycle by cycle *)

Lemma Cat_high_of_pending lo hi t :
  byte lo -> byte hi ->
  Cat lo (slice (Cat (slice t 0 8) (trunc 8 hi)) 8 16) = Cat lo hi.
Proof.
  intros Hlo Hhi. rewrite (trunc8_byte hi Hhi).
  rewrite slice_Cat_hi by (assumption || apply slice_low_byte). reflexivity.
Qed.

Lemma byte_word16 v : byte v -> word16 v.
Proof. unfold byte, word16. intros H. lia. Qed.

Lemma trunc_plus3 w v :
  trunc w (trunc w (trunc w (v + 1) + 1) + 1) = trunc w (v + 3).
Proof.
  rewrite trunc_add_l.
  replace (trunc w (v + 1) + 1 + 1) with (trunc w (v + 1) + 2) by lia.
  rewrite trunc_add_l. f_equal. lia.
Qed.

Section Instructions.

Variable alu : ALU8.t.
Variable mb : ModeBits.t.
Variable fl : Flags.t.

Hypothesis alu_NONE :
  forall input1 input2 flags,
    ALU8.ccs_next alu ALU8Func.NONE input1 input2 flags = flags.

(** X11: An immediate-mode instruction of the ALU family takes three cycles and
    reads memory once, the operand at [pc + 1]; the ALU gets the selected
    accumulator and the operand, and its result goes to that accumulator
    unless the instruction only compares. *)
Theorem alu_immediate (s : Core) (op d1 d2 : Z) (func : ALU8Func.t)
    (store : bool) :
  byte op -> byte d1 -> byte (a s) -> byte (b s) ->
  decode op = H_ALU func store -> slice op 4 6 = ModeBits.IMMEDIATE mb ->
  ModeBits.IMMEDIATE mb <> ModeBits.DIRECT mb ->
  ModeBits.IMMEDIATE mb <> ModeBits.EXTENDED mb ->
  reset_state s = 3 -> cycle s = 0 ->
  let bsel := bit op 6 in
  let acc := Mux bsel (b s) (a s) in
  let result := trunc 8 (ALU8.output alu func acc d1 (ccs s)) in
  let dins := [op; d1; d2] in
  let s' := run alu mb fl s dins in
  run_ends alu mb fl s dins = [false; false; true] /\
  run_reads alu mb fl s dins = [(trunc 16 (pc s + 1), d1)] /\
  run_writes alu mb fl s dins = [] /\
  pc s' = trunc 16 (pc s + 2) /\
  a s' = (if store && negb bsel then result else a s) /\
  b s' = (if store && bsel then result else b s) /\
  ccs s' = ALU8.ccs_next alu func acc d1 (ccs s) /\
  x s' = x s /\ sp s' = sp s.
Proof.
  intros Hop Hd1 Ha Hb Hdec Hmode Hn1 Hn2 Hrs Hcy bsel acc result dins s'.
  subst s' dins result acc bsel.
  apply Z.eqb_neq in Hn1, Hn2.
  open_core s. subst rs0 cy0. unfold_run.
  elab_plain. rewrite (trunc8_byte op Hop).
  destruct store, (bit op 6) eqn:Hb6.
  all: do 2 elab_one ltac:(fun E =>
    rewrite Hdec in E; unfold ALU, mode in E; cbn [instr] in E;
    rewrite Hmode, ?Hn1, ?Hn2, ?Hb6, !Z.eqb_refl in E).
  all: cbn [pc a b x sp ccs app andb negb]; unfold Mux.
  all: rewrite !alu_NONE, !trunc_idem, !trunc_succ_succ,
         ?(trunc8_byte a0 Ha), ?(trunc8_byte b0 Hb), !(trunc8_byte d1 Hd1).
  all: repeat split.
Qed.


(** X12: The data path of a direct-mode instruction of the ALU family: the ALU
    gets the selected accumulator and the byte read at the zero-page
    address; its result goes to that accumulator unless the instruction
    only compares, and the other accumulator keeps its value. *)
Theorem alu_direct_result (s : Core) (op d1 d2 : Z) (func : ALU8Func.t)
    (store : bool) :
  byte op -> byte d1 -> byte d2 -> byte (a s) -> byte (b s) ->
  decode op = H_ALU func store -> slice op 4 6 = ModeBits.DIRECT mb ->
  reset_state s = 3 -> cycle s = 0 ->
  let bsel := bit op 6 in
  let acc := Mux bsel (b s) (a s) in
  let result := trunc 8 (ALU8.output alu func acc d2 (ccs s)) in
  let s' := run alu mb fl s [op; d1; d2] in
  a s' = (if store && negb bsel then result else a s) /\
  b s' = (if store && bsel then result else b s) /\
  ccs s' = ALU8.ccs_next alu func acc d2 (ccs s).
Proof.
  intros Hop Hd1 Hd2 Ha Hb Hdec Hmode Hrs Hcy bsel acc result s'.
  subst s' result acc bsel.
  open_core s. subst rs0 cy0. unfold_run.
  elab_plain. rewrite (trunc8_byte op Hop).
  destruct store, (bit op 6) eqn:Hb6.
  all: do 2 elab_one ltac:(fun E =>
    rewrite Hdec in E; unfold ALU, mode in E; cbn [instr] in E;
    rewrite Hmode, ?Hb6, !Z.eqb_refl in E).
  all: cbn [a b ccs andb negb]; unfold Mux.
  all: rewrite !alu_NONE,
         ?(trunc8_byte a0 Ha), ?(trunc8_byte b0 Hb), !(trunc8_byte d2 Hd2).
  all: repeat split.
Qed.

(** X13: An extended-mode instruction of the ALU family takes four cycles and
    reads memory three times: the two address bytes at [pc + 1] and
    [pc + 2], high byte first, then the operand at that address. *)
Theorem alu_extended (s : Core) (op d1 d2 d3 : Z) (func : ALU8Func.t)
    (store : bool) :
  byte op -> byte d1 -> byte d2 -> byte d3 -> byte (a s) -> byte (b s) ->
  decode op = H_ALU func store -> slice op 4 6 = ModeBits.EXTENDED mb ->
  ModeBits.EXTENDED mb <> ModeBits.DIRECT mb ->
  reset_state s = 3 -> cycle s = 0 ->
  let bsel := bit op 6 in
  let acc := Mux bsel (b s) (a s) in
  let result := trunc 8 (ALU8.output alu func acc d3 (ccs s)) in
  let dins := [op; d1; d2; d3] in
  let s' := run alu mb fl s dins in
  run_ends alu mb fl s dins = [false; false; false; true] /\
  run_reads alu mb fl s dins =
    [(trunc 16 (pc s + 1), d1); (trunc 16 (pc s + 2), d2);
     (Cat d2 d1, d3)] /\
  run_writes alu mb fl s dins = [] /\
  run_bus alu mb fl (step alu mb fl s op) [d1; d2; d3] =
    [(trunc 16 (pc s + 1), true, true, d1);
     (trunc 16 (pc s + 2), true, true, d2);
     (Cat d2 d1, true, true, d3)] /\
  pc s' = trunc 16 (pc s + 3) /\
  a s' = (if store && negb bsel then result else a s) /\
  b s' = (if store && bsel then result else b s) /\
  ccs s' = ALU8.ccs_next alu func acc d3 (ccs s) /\
  x s' = x s /\ sp s' = sp s.
Proof.
  intros Hop Hd1 Hd2 Hd3 Ha Hb Hdec Hmode Hn1 Hrs Hcy bsel acc result dins
    s'.
  subst s' dins result acc bsel.
  apply Z.eqb_neq in Hn1.
  open_core s. subst rs0 cy0. unfold_run.
  elab_plain. rewrite (trunc8_byte op Hop).
  destruct store, (bit op 6) eqn:Hb6.
  all: do 3 elab_one ltac:(fun E =>
    rewrite Hdec in E; unfold ALU, mode in E; cbn [instr] in E;
    rewrite Hmode, ?Hn1, ?Hb6, !Z.eqb_refl in E).
  all: cbn [pc a b x sp ccs app andb negb]; unfold Mux.
  all: rewrite !alu_NONE, !trunc_idem, !trunc_plus3, !trunc_succ_succ,
         ?(trunc8_byte a0 Ha), ?(trunc8_byte b0 Hb), !(trunc8_byte d3 Hd3),
         !Cat_high_of_pending by assumption.
  all: rewrite !(trunc16_word (Cat d2 d1)) by (apply Cat_word16; assumption).
  all: repeat split.
Qed.

(** X14: An indexed-mode instruction of the ALU family takes five cycles: it
    reads the offset at [pc + 1], spends two cycles without a valid
    address while it adds the index register, and reads the operand at
    index plus offset, modulo 2^16. *)
Theorem alu_indexed (s : Core) (op d1 d2 d3 d4 : Z) (func : ALU8Func.t)
    (store : bool) :
  byte op -> byte d1 -> byte d4 -> byte (a s) -> byte (b s) ->
  decode op = H_ALU func store -> slice op 4 6 = ModeBits.INDEXED mb ->
  ModeBits.INDEXED mb <> ModeBits.DIRECT mb ->
  ModeBits.INDEXED mb <> ModeBits.EXTENDED mb ->
  ModeBits.INDEXED mb <> ModeBits.IMMEDIATE mb ->
  reset_state s = 3 -> cycle s = 0 ->
  let bsel := bit op 6 in
  let acc := Mux bsel (b s) (a s) in
  let target := trunc 16 (x s + d1) in
  let result := trunc 8 (ALU8.output alu func acc d4 (ccs s)) in
  let dins := [op; d1; d2; d3; d4] in
  let s' := run alu mb fl s dins in
  run_ends alu mb fl s dins = [false; false; false; false; true] /\
  run_reads alu mb fl s dins = [(trunc 16 (pc s + 1), d1); (target, d4)] /\
  run_writes alu mb fl s dins = [] /\
  run_bus alu mb fl (step alu mb fl s op) [d1; d2; d3; d4] =
    [(trunc 16 (pc s + 1), true, true, d1);
     (trunc 16 (pc s + 2), true, false, d2);
     (trunc 16 (pc s + 2), true, false, d3);
     (target, true, true, d4)] /\
  pc s' = trunc 16 (pc s + 2) /\
  a s' = (if store && negb bsel then result else a s) /\
  b s' = (if store && bsel then result else b s) /\
  ccs s' = ALU8.ccs_next alu func acc d4 (ccs s) /\
  x s' = x s /\ sp s' = sp s.
Proof.
  intros Hop Hd1 Hd4 Ha Hb Hdec Hmode Hn1 Hn2 Hn3 Hrs Hcy bsel acc target
    result dins s'.
  subst s' dins result target acc bsel.
  apply Z.eqb_neq in Hn1, Hn2, Hn3.
  open_core s. subst rs0 cy0. unfold_run.
  elab_plain. rewrite (trunc8_byte op Hop).
  destruct store, (bit op 6) eqn:Hb6.
  all: do 4 elab_one ltac:(fun E =>
    rewrite Hdec in E; unfold ALU, mode in E; cbn [instr] in E;
    rewrite Hmode, ?Hn1, ?Hn2, ?Hn3, ?Hb6, !Z.eqb_refl in E).
  all: cbn [pc a b x sp ccs app andb negb]; unfold Mux.
  all: rewrite !alu_NONE, !trunc_idem, !trunc_succ_succ,
         ?(trunc8_byte a0 Ha), ?(trunc8_byte b0 Hb), !(trunc8_byte d4 Hd4),
         !Cat_zero_high by assumption.
  all: rewrite !(Z.add_comm d1 x0).
  all: repeat split.
Qed.


(** X15: A read-modify-write instruction on an accumulator (mode A or B) has a
    single execute cycle and no memory access: the ALU gets the
    accumulator on the inputs the instruction names and zero on the
    others, and its result goes back to that accumulator unless the
    instruction only tests; the other accumulator keeps its value. *)
Theorem alu2_inherent (s : Core) (op d : Z) (func : ALU8Func.t)
    (operand1 operand2 : Z) (store : bool) :
  byte op -> byte (a s) -> byte (b s) ->
  decode op = H_ALU2 func operand1 operand2 store ->
  slice op 4 6 = ModeBits.A mb \/
  (slice op 4 6 = ModeBits.B mb /\ ModeBits.B mb <> ModeBits.A mb) ->
  reset_state s = 3 -> cycle s = 0 ->
  let on_b := negb (slice op 4 6 =? ModeBits.A mb) in
  let acc := if on_b then b s else a s in
  let input1 := if operand1 =? 0 then 0 else acc in
  let input2 := if operand2 =? 0 then 0 else acc in
  let result := trunc 8 (ALU8.output alu func input1 input2 (ccs s)) in
  let s' := run alu mb fl s [op; d] in
  run_ends alu mb fl s [op; d] = [false; true] /\
  run_reads alu mb fl s [op; d] = [] /\
  run_writes alu mb fl s [op; d] = [] /\
  pc s' = trunc 16 (pc s + 1) /\
  a s' = (if store && negb on_b then result else a s) /\
  b s' = (if store && on_b then result else b s) /\
  ccs s' = ALU8.ccs_next alu func input1 input2 (ccs s) /\
  x s' = x s /\ sp s' = sp s.
Proof.
  intros Hop Ha Hb Hdec Hmode Hrs Hcy on_b acc input1 input2 result s'.
  subst s' result input2 input1 acc on_b.
  open_core s. subst rs0 cy0. unfold_run.
  elab_plain. rewrite (trunc8_byte op Hop).
  destruct Hmode as [Hmode | [Hmode Hne]];
    [| apply Z.eqb_neq in Hne];
    destruct store, (operand1 =? 0) eqn:H1, (operand2 =? 0) eqn:H2.
  all: elab_one ltac:(fun E =>
    rewrite Hdec in E; unfold ALU2, mode in E; cbn [instr] in E;
    rewrite Hmode, ?Hne, ?H1, ?H2, !Z.eqb_refl in E).
  all: rewrite Hmode, ?Hne, ?Z.eqb_refl.
  all: cbn [pc a b x sp ccs app andb negb].
  all: rewrite !alu_NONE, !trunc_idem,
         ?(trunc8_byte a0 Ha), ?(trunc8_byte b0 Hb).
  all: trunc_lit.
  all: repeat split.
Qed.

(** X16: A read-modify-write instruction in extended mode ends at cycle 5: it
    reads the two address bytes and the operand, holds the result of the
    ALU in [tmp8] through a cycle without a valid address, and drives the
    write of the result to the address of the operand in its last cycle.
    The variant that only tests reports no write and keeps the
    valid-address flag low in that last cycle. *)
Theorem alu2_extended (s : Core) (op d1 d2 d3 d4 d5 : Z)
    (func : ALU8Func.t) (operand1 operand2 : Z) (store : bool) :
  byte op -> byte d1 -> byte d2 -> byte d3 ->
  decode op = H_ALU2 func operand1 operand2 store ->
  slice op 4 6 = ModeBits.EXTENDED mb ->
  ModeBits.EXTENDED mb <> ModeBits.A mb ->
  ModeBits.EXTENDED mb <> ModeBits.B mb ->
  reset_state s = 3 -> cycle s = 0 ->
  let target := Cat d2 d1 in
  let input1 := if operand1 =? 0 then 0 else d3 in
  let input2 := if operand2 =? 0 then 0 else d3 in
  let result := trunc 8 (ALU8.output alu func input1 input2 (ccs s)) in
  let dins := [op; d1; d2; d3; d4; d5] in
  let s' := run alu mb fl s dins in
  run_ends alu mb fl s dins = [false; false; false; false; false; true] /\
  run_reads alu mb fl s dins =
    [(trunc 16 (pc s + 1), d1); (trunc 16 (pc s + 2), d2); (target, d3)] /\
  run_writes alu mb fl s dins =
    (if store then [(target, result)] else []) /\
  run_bus alu mb fl (step alu mb fl s op) [d1; d2; d3; d4; d5] =
    [(trunc 16 (pc s + 1), true, true, d1);
     (trunc 16 (pc s + 2), true, true, d2);
     (target, true, true, d3);
     (target, true, false, d4);
     (target, false, store, result)] /\
  pc s' = trunc 16 (pc s + 3) /\
  ccs s' = ALU8.ccs_next alu func input1 input2 (ccs s) /\
  a s' = a s /\ b s' = b s /\ x s' = x s /\ sp s' = sp s.
Proof.
  intros Hop Hd1 Hd2 Hd3 Hdec Hmode Hn1 Hn2 Hrs Hcy target input1 input2
    result dins s'.
  subst s' dins result input2 input1 target.
  apply Z.eqb_neq in Hn1, Hn2.
  open_core s. subst rs0 cy0. unfold_run.
  elab_plain. rewrite (trunc8_byte op Hop).
  destruct store, (operand1 =? 0) eqn:H1, (operand2 =? 0) eqn:H2.
  all: do 5 elab_one ltac:(fun E =>
    rewrite Hdec in E; unfold ALU2, mode in E; cbn [instr] in E;
    rewrite Hmode, ?Hn1, ?Hn2, ?H1, ?H2, !Z.eqb_refl in E).
  all: cbn [pc a b x sp ccs app].
  all: rewrite !alu_NONE, !trunc_idem, !trunc_plus3, !trunc_succ_succ,
         ?(trunc8_byte d3 Hd3), ?(trunc8_byte d2 Hd2), ?(trunc8_byte d1 Hd1).
  all: rewrite !slice_Cat_hi by (assumption || apply slice_low_byte).
  all: rewrite !(trunc16_word (Cat d2 d1)) by (apply Cat_word16; assumption).
  all: trunc_lit.
  all: repeat split.
Qed.


(** X17: A read-modify-write instruction in indexed mode ends at cycle 6: it
    reads the offset, forms the address in two cycles without a valid
    address, reads the operand at index plus offset, holds the result
    through one more dead cycle and writes it to the same address in its
    last cycle; the variant that only tests reports no write and keeps
    the valid-address flag low there. *)
Theorem alu2_indexed (s : Core) (op d1 d2 d3 d4 d5 d6 : Z)
    (func : ALU8Func.t) (operand1 operand2 : Z) (store : bool) :
  byte op -> byte d1 -> byte d4 ->
  decode op = H_ALU2 func operand1 operand2 store ->
  slice op 4 6 = ModeBits.INDEXED mb ->
  ModeBits.INDEXED mb <> ModeBits.A mb ->
  ModeBits.INDEXED mb <> ModeBits.B mb ->
  ModeBits.INDEXED mb <> ModeBits.EXTENDED mb ->
  reset_state s = 3 -> cycle s = 0 ->
  let target := trunc 16 (x s + d1) in
  let input1 := if operand1 =? 0 then 0 else d4 in
  let input2 := if operand2 =? 0 then 0 else d4 in
  let result := trunc 8 (ALU8.output alu func input1 input2 (ccs s)) in
  let dins := [op; d1; d2; d3; d4; d5; d6] in
  let s' := run alu mb fl s dins in
  run_ends alu mb fl s dins =
    [false; false; false; false; false; false; true] /\
  run_reads alu mb fl s dins = [(trunc 16 (pc s + 1), d1); (target, d4)] /\
  run_writes alu mb fl s dins =
    (if store then [(target, result)] else []) /\
  run_bus alu mb fl (step alu mb fl s op) [d1; d2; d3; d4; d5; d6] =
    [(trunc 16 (pc s + 1), true, true, d1);
     (trunc 16 (pc s + 2), true, false, d2);
     (trunc 16 (pc s + 2), true, false, d3);
     (target, true, true, d4);
     (target, true, false, d5);
     (target, false, store, result)] /\
  pc s' = trunc 16 (pc s + 2) /\
  ccs s' = ALU8.ccs_next alu func input1 input2 (ccs s) /\
  a s' = a s /\ b s' = b s /\ x s' = x s /\ sp s' = sp s.
Proof.
  intros Hop Hd1 Hd4 Hdec Hmode Hn1 Hn2 Hn3 Hrs Hcy target input1 input2
    result dins s'.
  subst s' dins result input2 input1 target.
  apply Z.eqb_neq in Hn1, Hn2, Hn3.
  open_core s. subst rs0 cy0. unfold_run.
  elab_plain. rewrite (trunc8_byte op Hop).
  destruct store, (operand1 =? 0) eqn:H1, (operand2 =? 0) eqn:H2.
  all: do 6 elab_one ltac:(fun E =>
    rewrite Hdec in E; unfold ALU2, mode in E; cbn [instr] in E;
    rewrite Hmode, ?Hn1, ?Hn2, ?Hn3, ?H1, ?H2, !Z.eqb_refl in E).
  all: cbn [pc a b x sp ccs app].
  all: rewrite !alu_NONE, !trunc_idem, !trunc_succ_succ,
         ?(trunc8_byte d4 Hd4), !Cat_zero_high by assumption.
  all: rewrite !(Z.add_comm d1 x0).
  all: trunc_lit.
  all: repeat split.
Qed.

(** X18: An indexed-mode JMP ends at cycle 3: it reads the offset at [pc + 1]
    and nothing else, writes nothing, and continues at index plus offset,
    modulo 2^16; A, B, X, SP and the flags are as before. *)
Theorem jmp_indexed (s : Core) (op d1 d2 d3 : Z) :
  byte op -> byte d1 ->
  decode op = H_JMP -> slice op 4 6 = ModeBits.INDEXED mb ->
  ModeBits.INDEXED mb <> ModeBits.EXTENDED mb ->
  reset_state s = 3 -> cycle s = 0 ->
  let dins := [op; d1; d2; d3] in
  let s' := run alu mb fl s dins in
  run_ends alu mb fl s dins = [false; false; false; true] /\
  run_reads alu mb fl s dins = [(trunc 16 (pc s + 1), d1)] /\
  run_writes alu mb fl s dins = [] /\
  run_bus alu mb fl (step alu mb fl s op) [d1; d2; d3] =
    [(trunc 16 (pc s + 1), true, true, d1);
     (trunc 16 (pc s + 2), true, false, d2);
     (trunc 16 (pc s + 2), true, false, d3)] /\
  pc s' = trunc 16 (x s + d1) /\ Addr s' = trunc 16 (x s + d1) /\
  a s' = a s /\ b s' = b s /\ x s' = x s /\ sp s' = sp s /\
  ccs s' = ccs s.
Proof.
  intros Hop Hd1 Hdec Hmode Hn1 Hrs Hcy dins s'. subst s' dins.
  apply Z.eqb_neq in Hn1.
  open_core s. subst rs0 cy0. unfold_run.
  elab_plain. rewrite (trunc8_byte op Hop).
  do 3 elab_one ltac:(fun E =>
    rewrite Hdec in E; unfold JMP, mode in E; cbn [instr] in E;
    rewrite Hmode, ?Hn1, !Z.eqb_refl in E).
  cbn [pc Addr a b x sp ccs app].
  rewrite !alu_NONE, !trunc_idem, !trunc_succ_succ,
    !Cat_zero_high by assumption.
  rewrite !(Z.add_comm d1 x0). repeat split.
Qed.


(** X19: A direct-mode store ends at cycle 3: it reads the zero-page address at
    [pc + 1], spends a cycle without a valid address, and writes the
    selected accumulator to that address in its last cycle, where the
    load function of the ALU sets the flags from the stored byte. *)
Theorem sta_direct (s : Core) (op d1 d2 d3 : Z) :
  byte op -> byte d1 -> byte (a s) -> byte (b s) ->
  decode op = H_STA -> slice op 4 6 = ModeBits.DIRECT mb ->
  reset_state s = 3 -> cycle s = 0 ->
  let acc := Mux (bit op 6) (b s) (a s) in
  let dins := [op; d1; d2; d3] in
  let s' := run alu mb fl s dins in
  run_ends alu mb fl s dins = [false; false; false; true] /\
  run_reads alu mb fl s dins = [(trunc 16 (pc s + 1), d1)] /\
  run_writes alu mb fl s dins = [(d1, acc)] /\
  run_bus alu mb fl (step alu mb fl s op) [d1; d2; d3] =
    [(trunc 16 (pc s + 1), true, true, d1);
     (d1, true, false, d2);
     (d1, false, true, acc)] /\
  pc s' = trunc 16 (pc s + 2) /\
  a s' = a s /\ b s' = b s /\ x s' = x s /\ sp s' = sp s /\
  ccs s' = ALU8.ccs_next alu ALU8Func.LD 0 acc (ccs s).
Proof.
  intros Hop Hd1 Ha Hb Hdec Hmode Hrs Hcy acc dins s'. subst s' dins acc.
  pose proof (byte_word16 d1 Hd1) as Hw.
  open_core s. subst rs0 cy0. unfold_run.
  elab_plain. rewrite (trunc8_byte op Hop).
  do 3 elab_one ltac:(fun E =>
    rewrite Hdec in E; unfold STA, mode in E; cbn [instr] in E;
    rewrite Hmode, !Z.eqb_refl in E).
  cbn [pc a b x sp ccs app]. unfold Mux.
  assert (Hacc : trunc 8 (if bit op 6 then b0 else a0) =
                 if bit op 6 then b0 else a0)
    by (apply trunc8_byte; destruct (bit op 6); assumption).
  rewrite !alu_NONE, !trunc_idem, !trunc_succ_succ, !Hacc,
    !Cat_zero_high, !(trunc16_word d1 Hw) by assumption.
  repeat split.
Qed.

(** X20: An extended-mode store ends at cycle 4: it reads the two address
    bytes at [pc + 1] and [pc + 2], high byte first, spends a cycle
    without a valid address, and writes the selected accumulator to that
    address in its last cycle. *)
Theorem sta_extended (s : Core) (op d1 d2 d3 d4 : Z) :
  byte op -> byte d1 -> byte d2 -> byte (a s) -> byte (b s) ->
  decode op = H_STA -> slice op 4 6 = ModeBits.EXTENDED mb ->
  ModeBits.EXTENDED mb <> ModeBits.DIRECT mb ->
  reset_state s = 3 -> cycle s = 0 ->
  let acc := Mux (bit op 6) (b s) (a s) in
  let target := Cat d2 d1 in
  let dins := [op; d1; d2; d3; d4] in
  let s' := run alu mb fl s dins in
  run_ends alu mb fl s dins = [false; false; false; false; true] /\
  run_reads alu mb fl s dins =
    [(trunc 16 (pc s + 1), d1); (trunc 16 (pc s + 2), d2)] /\
  run_writes alu mb fl s dins = [(target, acc)] /\
  run_bus alu mb fl (step alu mb fl s op) [d1; d2; d3; d4] =
    [(trunc 16 (pc s + 1), true, true, d1);
     (trunc 16 (pc s + 2), true, true, d2);
     (target, true, false, d3);
     (target, false, true, acc)] /\
  pc s' = trunc 16 (pc s + 3) /\
  a s' = a s /\ b s' = b s /\ x s' = x s /\ sp s' = sp s /\
  ccs s' = ALU8.ccs_next alu ALU8Func.LD 0 acc (ccs s).
Proof.
  intros Hop Hd1 Hd2 Ha Hb Hdec Hmode Hn1 Hrs Hcy acc target dins s'.
  subst s' dins target acc.
  apply Z.eqb_neq in Hn1.
  open_core s. subst rs0 cy0. unfold_run.
  elab_plain. rewrite (trunc8_byte op Hop).
  do 4 elab_one ltac:(fun E =>
    rewrite Hdec in E; unfold STA, mode in E; cbn [instr] in E;
    rewrite Hmode, ?Hn1, !Z.eqb_refl in E).
  cbn [pc a b x sp ccs app]. unfold Mux.
  assert (Hacc : trunc 8 (if bit op 6 then b0 else a0) =
                 if bit op 6 then b0 else a0)
    by (apply trunc8_byte; destruct (bit op 6); assumption).
  rewrite !alu_NONE, !trunc_idem, !trunc_plus3, !trunc_succ_succ, !Hacc,
    ?(trunc8_byte d2 Hd2), ?(trunc8_byte d1 Hd1).
  rewrite !slice_Cat_hi by (assumption || apply slice_low_byte).
  rewrite !(trunc16_word (Cat d2 d1)) by (apply Cat_word16; assumption).
  repeat split.
Qed.

(** X21: CLV, SEV, CLC, SEC, CLI and SEI take one execute cycle, access no
    memory and leave A, B, X and SP alone; the flags are what the ALU
    makes of them under the set function of the flag when bit 0 of the
    opcode is set, and under its clear function otherwise. *)
Theorem clear_set_flag (s : Core) (op d : Z) :
  byte op -> is_CL_SE (decode op) = true ->
  reset_state s = 3 -> cycle s = 0 ->
  let s' := run alu mb fl s [op; d] in
  run_ends alu mb fl s [op; d] = [false; true] /\
  run_reads alu mb fl s [op; d] = [] /\
  run_writes alu mb fl s [op; d] = [] /\
  pc s' = trunc 16 (pc s + 1) /\
  a s' = a s /\ b s' = b s /\ x s' = x s /\ sp s' = sp s /\
  ccs s' =
    ALU8.ccs_next alu (cl_se_func (decode op) (bit op 0)) 0 0 (ccs s).
Proof.
  intros Hop Hh Hrs Hcy s'. subst s'.
  open_core s. subst rs0 cy0. unfold_run.
  elab_plain. rewrite (trunc8_byte op Hop).
  destruct (decode op) eqn:Hdec; try discriminate Hh.
  all: elab_one ltac:(fun E =>
    rewrite Hdec in E; unfold CL_SE_V, CL_SE_C, CL_SE_I in E;
    cbn [instr] in E).
  all: cbn [pc a b x sp ccs app cl_se_func].
  all: rewrite !alu_NONE, !trunc_idem. all: repeat split.
Qed.

(** X22: A relative branch takes four cycles and reads memory once, the offset
    at [pc + 1]; it changes nothing but the program counter, which ends
    two past the opcode plus the sign-extended offset when the condition,
    taken on the flags as they were, holds, and two past the opcode
    otherwise. *)
Theorem branch_instruction (s : Core) (op off d2 d3 : Z) :
  byte op -> byte off -> decode op = H_BR ->
  reset_state s = 3 -> cycle s = 0 ->
  let taken := xorb (base_condition fl (slice op 1 4) (ccs s)) (bit op 0) in
  let dins := [op; off; d2; d3] in
  let s' := run alu mb fl s dins in
  run_ends alu mb fl s dins = [false; false; false; true] /\
  run_reads alu mb fl s dins = [(trunc 16 (pc s + 1), off)] /\
  run_writes alu mb fl s dins = [] /\
  pc s' = (if taken then trunc 16 (pc s + 2 + signed8 off)
           else trunc 16 (pc s + 2)) /\
  Addr s' = pc s' /\
  a s' = a s /\ b s' = b s /\ x s' = x s /\ sp s' = sp s /\
  ccs s' = ccs s.
Proof.
  intros Hop Hoff Hdec Hrs Hcy taken dins s'. subst s' dins.
  open_core s. subst rs0 cy0. cbn [ccs] in taken.
  remember taken as tk eqn:Htk. subst taken. unfold_run.
  elab_plain. rewrite (trunc8_byte op Hop).
  do 2 elab_one ltac:(fun E => rewrite Hdec in E; unfold BR in E).
  elab_one ltac:(fun E =>
    rewrite Hdec in E; unfold BR in E;
    rewrite branch_check_table in E; cbn [instr ccs] in E;
    rewrite !alu_NONE, <- Htk in E).
  cbn [pc Addr a b x sp ccs app]. unfold Mux.
  rewrite !alu_NONE, !trunc_idem, !trunc_succ_succ, ?(trunc8_byte off Hoff).
  rewrite trunc_add_l.
  destruct tk; rewrite ?trunc_idem; repeat split.
Qed.

(** X23: TAP takes one execute cycle and accesses no memory; the flags become
    what the ALU makes of accumulator A under its TAP function, and A, B,
    X and SP stay as they are. *)
Theorem tap_instruction (s : Core) (op d : Z) :
  byte op -> byte (a s) -> decode op = H_TAP ->
  reset_state s = 3 -> cycle s = 0 ->
  let s' := run alu mb fl s [op; d] in
  run_ends alu mb fl s [op; d] = [false; true] /\
  run_reads alu mb fl s [op; d] = [] /\
  run_writes alu mb fl s [op; d] = [] /\
  pc s' = trunc 16 (pc s + 1) /\
  a s' = a s /\ b s' = b s /\ x s' = x s /\ sp s' = sp s /\
  ccs s' = ALU8.ccs_next alu ALU8Func.TAP (a s) 0 (ccs s).
Proof.
  intros Hop Ha Hdec Hrs Hcy s'. subst s'.
  open_core s. subst rs0 cy0. cbn [a] in Ha. unfold_run.
  elab_plain. rewrite (trunc8_byte op Hop).
  elab_one ltac:(fun E => rewrite Hdec in E; unfold TAP in E).
  cbn [pc a b x sp ccs app].
  rewrite !alu_NONE, !trunc_idem, !(trunc8_byte a0 Ha). repeat split.
Qed.

(** X24: TPA takes one execute cycle and accesses no memory; accumulator A
    takes the output of the ALU under its TPA function, whose inputs are
    both zero, so the result depends on the flags alone; B, X and SP stay
    as they are. *)
Theorem tpa_instruction (s : Core) (op d : Z) :
  byte op -> decode op = H_TPA ->
  reset_state s = 3 -> cycle s = 0 ->
  let s' := run alu mb fl s [op; d] in
  run_ends alu mb fl s [op; d] = [false; true] /\
  run_reads alu mb fl s [op; d] = [] /\
  run_writes alu mb fl s [op; d] = [] /\
  pc s' = trunc 16 (pc s + 1) /\
  a s' = trunc 8 (ALU8.output alu ALU8Func.TPA 0 0 (ccs s)) /\
  b s' = b s /\ x s' = x s /\ sp s' = sp s /\
  ccs s' = ALU8.ccs_next alu ALU8Func.TPA 0 0 (ccs s).
Proof.
  intros Hop Hdec Hrs Hcy s'. subst s'.
  open_core s. subst rs0 cy0. unfold_run.
  elab_plain. rewrite (trunc8_byte op Hop).
  elab_one ltac:(fun E => rewrite Hdec in E; unfold TPA in E).
  cbn [pc a b x sp ccs app].
  rewrite !alu_NONE, !trunc_idem. repeat split.
Qed.

(** X25: INX and DEX take three execute cycles and access no memory: the two
    middle cycles put the index register on the address bus with VMA low.
    X becomes X + 1, or X - 1 when bit 0 of the opcode is set, modulo
    2^16, and the last cycle sets the zero flag from the new X through
    the SEZ or CLZ function of the ALU. *)
Theorem inx_dex_instruction (s : Core) (op d1 d2 d3 : Z) :
  byte op -> word16 (x s) -> decode op = H_IN_DE_X ->
  reset_state s = 3 -> cycle s = 0 ->
  let x' := trunc 16 (if bit op 0 then x s - 1 else x s + 1) in
  let dins := [op; d1; d2; d3] in
  let s' := run alu mb fl s dins in
  run_ends alu mb fl s dins = [false; false; false; true] /\
  run_reads alu mb fl s dins = [] /\
  run_writes alu mb fl s dins = [] /\
  run_bus alu mb fl (step alu mb fl s op) [d1; d2; d3] =
    [(trunc 16 (pc s + 1), true, true, d1);
     (x s, true, false, d2);
     (x', true, false, d3)] /\
  pc s' = trunc 16 (pc s + 1) /\
  x s' = x' /\
  a s' = a s /\ b s' = b s /\ sp s' = sp s /\
  ccs s' =
    ALU8.ccs_next alu (if x' =? 0 then ALU8Func.SEZ else ALU8Func.CLZ)
      0 0 (ccs s).
Proof.
  intros Hop Hx Hdec Hrs Hcy x' dins s'. subst s' dins x'.
  open_core s. subst rs0 cy0. cbn [x] in Hx. unfold_run.
  elab_plain. rewrite (trunc8_byte op Hop).
  destruct (bit op 0) eqn:Hb0.
  all: do 3 elab_one ltac:(fun E =>
    rewrite Hdec in E; unfold IN_DE_X in E; cbn [instr] in E;
    rewrite ?Hb0 in E).
  all: cbn [pc a b x sp ccs app]; unfold Mux.
  all: rewrite !alu_NONE, !trunc_idem, ?(trunc16_word x0 Hx).
  all: repeat split.
Qed.

End Instructions.

(** ** The bus at the opcode fetch *)

Section FetchBus.

Variable alu : ALU8.t.
Variable fl : Flags.t.

(** No instruction leaves the address invalid behind its last cycle. *)
Lemma last_cycle_vma (s : Core) (d : Z) :
  reset_state s = 3 ->
  1 <= cycle s ->
  cycle s = last_cycle ModeBits_6800 (decode (instr s)) (mode s) ->
  VMA (step alu ModeBits_6800 fl s d) = true.
Proof.
  intros Hrs Hcy Hl. open_core s. subst rs0.
  unfold mode in *. cbn [instr] in *.
  pose proof (mode_range instr0) as Hmr.
  assert (Hmd : slice instr0 4 6 = 0 \/ slice instr0 4 6 = 1 \/
                slice instr0 4 6 = 2 \/ slice instr0 4 6 = 3) by lia.
  clear Hmr.
  destruct (decode instr0) as [ | | | | | | | | func o1 o2 st | | func st | | ]
    eqn:Hdec;
    destruct Hmd as [Hmd | [Hmd | [Hmd | Hmd]]]; rewrite Hmd in *;
    cbn [last_cycle Z.eqb Pos.eqb ModeBits.IMMEDIATE ModeBits.DIRECT
         ModeBits.INDEXED ModeBits.EXTENDED ModeBits.A ModeBits.B
         ModeBits_6800] in *;
    try lia; subst cy0; clear Hcy;
    try destruct st; destruct (bit instr0 6) eqn:Hb6;
    unfold_run;
    elab_one ltac:(fun E => settle_opcode Hdec Hmd E; rewrite ?Hb6 in E);
    cbn [VMA]; reflexivity.
Qed.

Lemma reset_cycle_vma (s : Core) (d : Z) :
  reset_state s = 2 -> cycle s = 2 ->
  VMA (step alu ModeBits_6800 fl s d) = true.
Proof.
  intros Hrs Hcy. open_core s. subst rs0 cy0.
  unfold_run. elab_plain. reflexivity.
Qed.

(** X26: Whenever the core, started from reset, is about to fetch an opcode,
    the bus is set for a valid read: R/W is high and VMA is high, although
    instructions lower VMA in cycles of their own and a store lowers R/W
    in its last cycle. *)
Theorem fetch_is_valid_read (s : Core) :
  reachable alu ModeBits_6800 fl s ->
  reset_state s = 3 -> cycle s = 0 ->
  RW s = true /\ VMA s = true.
Proof.
  induction 1 as [| s d Hs _]; [discriminate |].
  intros Hrs' Hcy'.
  pose proof (reachable_inv alu fl s Hs) as Hinv.
  destruct (core_inv_step alu fl s d Hinv) as [_ He].
  specialize (He Hcy').
  split; [apply (end_of_instruction alu ModeBits_6800 fl s d He) |].
  destruct Hinv as [[Hrs Hcy] | [[Hrs Hcy] | [[Hrs Hcy] | [(Hrs & Hcy & _) |
          (Hrs & Hb & Hcy)]]]].
  - destruct (reset_cycle alu fl s d) as (_ & H1 & _); lia.
  - destruct (reset_cycle alu fl s d) as (_ & H1 & _); lia.
  - apply reset_cycle_vma; assumption.
  - destruct (fetch_cycle alu fl s d Hrs Hcy) as (_ & _ & _ & H1). lia.
  - destruct (execute_cycle alu fl s d Hrs Hcy) as (H1 & _).
    rewrite He in H1. symmetry in H1. apply Z.eqb_eq in H1.
    apply last_cycle_vma; [assumption | lia | assumption].
Qed.

End FetchBus.

(** ** The check of formal_jmp.py *)

Lemma formal_jmp_opcodes (op : Z) :
  byte op -> formal_jmp_valid op = true -> op = 0x6E \/ op = 0x7E.
Proof.
  intros Hop Hv.
  pose proof (for_all_opcodes
    (fun o => implb (formal_jmp_valid o) ((o =? 0x6E) || (o =? 0x7E)))
    eq_refl op Hop) as H.
  cbv beta in H. rewrite Hv in H. cbn [implb] in H.
  apply orb_true_iff in H. destruct H as [H | H]; apply Z.eqb_eq in H; auto.
Qed.

Section FormalJmp.

Variable alu : ALU8.t.
Variable fl : Flags.t.

Hypothesis alu_NONE :
  forall input1 input2 flags,
    ALU8.ccs_next alu ALU8Func.NONE input1 input2 flags = flags.

(** X27: The core passes the check of formal_jmp.py: for every opcode that
    [Formal.valid] accepts, the registers at the fetch of the opcode, the
    registers at the next fetch and the reads and writes reported in
    between satisfy every assertion of [Formal.check].  The instruction
    is three cycles long in extended mode and four in indexed mode. *)
Theorem formal_jmp_check_holds (s : Core) (op d1 d2 d3 : Z) :
  byte op -> byte d1 -> byte d2 ->
  formal_jmp_valid op = true ->
  reset_state s = 3 -> cycle s = 0 ->
  let dins :=
    if slice op 4 6 =? ModeBits.EXTENDED ModeBits_6800
    then [op; d1; d2] else [op; d1; d2; d3] in
  run_ends alu ModeBits_6800 fl s dins =
    repeat false (List.length dins - 1) ++ [true] /\
  formal_jmp_check ModeBits_6800 op s
    (run alu ModeBits_6800 fl s dins)
    (run_reads alu ModeBits_6800 fl s dins)
    (run_writes alu ModeBits_6800 fl s dins).
Proof.
  intros Hop Hd1 Hd2 Hv Hrs Hcy dins. subst dins.
  destruct (formal_jmp_opcodes op Hop Hv) as [-> | ->];
    unfold formal_jmp_check, plus16;
    match goal with
    | |- context [slice ?o 4 6] =>
        let r := eval cbv in (slice o 4 6) in
        change (slice o 4 6) with r
    end;
    cbn [ModeBits.EXTENDED ModeBits.INDEXED ModeBits_6800 Z.eqb Pos.eqb
         List.length Nat.sub repeat app];
    open_core s; subst rs0 cy0; unfold_run;
    elab_plain; trunc_lit.
  - do 3 elab_one ltac:(fun E =>
      change (decode 110) with H_JMP in E; unfold JMP, mode in E;
      cbn [instr] in E; change (slice 110 4 6) with 2 in E;
      cbn [ModeBits.EXTENDED ModeBits.INDEXED ModeBits_6800 Z.eqb Pos.eqb]
        in E).
    cbn [pc a b x sp ccs app List.length nth fst snd].
    rewrite !alu_NONE, ?trunc_idem, ?trunc_succ_succ, ?Cat_zero_high
      by assumption.
    rewrite ?(Z.add_comm d1 x0).
    split; [reflexivity |].
    split; [repeat split |].
    split; intros Hm; try discriminate Hm; repeat split.
  - do 2 elab_one ltac:(fun E =>
      change (decode 126) with H_JMP in E; unfold JMP, mode in E;
      cbn [instr] in E; change (slice 126 4 6) with 3 in E;
      cbn [ModeBits.EXTENDED ModeBits.INDEXED ModeBits_6800 Z.eqb Pos.eqb]
        in E).
    cbn [pc a b x sp ccs app List.length nth fst snd].
    rewrite !alu_NONE, !trunc_succ_succ, (trunc8_byte d1 Hd1).
    rewrite slice_Cat_hi by (assumption || apply slice_low_byte).
    rewrite !(trunc16_word (Cat _ _)) by (apply Cat_word16; assumption).
    split; [reflexivity |].
    split; [repeat split |].
    split; intros Hm; try discriminate Hm; repeat split.
Qed.

End FormalJmp.

(** ** Sample instances *)

(** LDA A immediate (0x86) at 0x1000 with operand 0x42. *)
Lemma alu_immediate_witness :
  (forall input1 input2 flags,
     ALU8.ccs_next (alu8_model Flags_6800) ALU8Func.NONE input1 input2 flags
     = flags) /\
  byte 0x86 /\
  byte 0x42 /\
  byte (a (fetching 0x1000)) /\
  byte (b (fetching 0x1000)) /\
  decode 0x86 = H_ALU ALU8Func.LD true /\
  slice 0x86 4 6 = ModeBits.IMMEDIATE ModeBits_6800 /\
  ModeBits.IMMEDIATE ModeBits_6800 <> ModeBits.DIRECT ModeBits_6800 /\
  ModeBits.IMMEDIATE ModeBits_6800 <> ModeBits.EXTENDED ModeBits_6800 /\
  reset_state (fetching 0x1000) = 3 /\
  cycle (fetching 0x1000) = 0 /\
  run_reads (alu8_model Flags_6800) ModeBits_6800 Flags_6800
    (fetching 0x1000) [0x86; 0x42; 0xFF] =
  [(trunc 16 (pc (fetching 0x1000) + 1), 0x42)].
Proof.
  assert (H1 : byte 0x86)
    by (unfold byte; lia).
  assert (H2 : byte 0x42)
    by (unfold byte; lia).
  assert (H3 : byte (a (fetching 0x1000)))
    by (unfold byte, word16, fetching; simpl; lia).
  assert (H4 : byte (b (fetching 0x1000)))
    by (unfold byte, word16, fetching; simpl; lia).
  assert (H5 : decode 0x86 = H_ALU ALU8Func.LD true)
    by (reflexivity).
  assert (H6 : slice 0x86 4 6 = ModeBits.IMMEDIATE ModeBits_6800)
    by (reflexivity).
  assert (H7 : ModeBits.IMMEDIATE ModeBits_6800 <> ModeBits.DIRECT ModeBits_6800)
    by (simpl; lia).
  assert (H8 : ModeBits.IMMEDIATE ModeBits_6800 <> ModeBits.EXTENDED ModeBits_6800)
    by (simpl; lia).
  assert (H9 : reset_state (fetching 0x1000) = 3)
    by (reflexivity).
  assert (H10 : cycle (fetching 0x1000) = 0)
    by (reflexivity).
  split; [exact (alu8_model_NONE Flags_6800) |].
  repeat (split; [assumption |]).
  pose proof (alu_immediate (alu8_model Flags_6800) ModeBits_6800 Flags_6800
                (alu8_model_NONE Flags_6800)
                (fetching 0x1000) 0x86 0x42 0xFF ALU8Func.LD true
                H1 H2 H3 H4 H5 H6 H7 H8 H9 H10) as H.
  cbv zeta in H. destruct H as (_ & H & _). exact H.
Defined.

(** LDA A direct (0x96) at 0x1000: the operand 0x42 lies at 0x0010. *)
Lemma alu_direct_result_witness :
  (forall input1 input2 flags,
     ALU8.ccs_next (alu8_model Flags_6800) ALU8Func.NONE input1 input2 flags
     = flags) /\
  byte 0x96 /\
  byte 0x10 /\
  byte 0x42 /\
  byte (a (fetching 0x1000)) /\
  byte (b (fetching 0x1000)) /\
  decode 0x96 = H_ALU ALU8Func.LD true /\
  slice 0x96 4 6 = ModeBits.DIRECT ModeBits_6800 /\
  reset_state (fetching 0x1000) = 3 /\
  cycle (fetching 0x1000) = 0 /\
  ccs (run (alu8_model Flags_6800) ModeBits_6800 Flags_6800
    (fetching 0x1000) [0x96; 0x10; 0x42]) =
  ALU8.ccs_next (alu8_model Flags_6800) ALU8Func.LD
    (Mux (bit 0x96 6) (b (fetching 0x1000)) (a (fetching 0x1000))) 0x42
    (ccs (fetching 0x1000)).
Proof.
  assert (H1 : byte 0x96)
    by (unfold byte; lia).
  assert (H2 : byte 0x10)
    by (unfold byte; lia).
  assert (H3 : byte 0x42)
    by (unfold byte; lia).
  assert (H4 : byte (a (fetching 0x1000)))
    by (unfold byte, word16, fetching; simpl; lia).
  assert (H5 : byte (b (fetching 0x1000)))
    by (unfold byte, word16, fetching; simpl; lia).
  assert (H6 : decode 0x96 = H_ALU ALU8Func.LD true)
    by (reflexivity).
  assert (H7 : slice 0x96 4 6 = ModeBits.DIRECT ModeBits_6800)
    by (reflexivity).
  assert (H8 : reset_state (fetching 0x1000) = 3)
    by (reflexivity).
  assert (H9 : cycle (fetching 0x1000) = 0)
    by (reflexivity).
  split; [exact (alu8_model_NONE Flags_6800) |].
  repeat (split; [assumption |]).
  pose proof (alu_direct_result (alu8_model Flags_6800) ModeBits_6800 Flags_6800
                (alu8_model_NONE Flags_6800)
                (fetching 0x1000) 0x96 0x10 0x42 ALU8Func.LD true
                H1 H2 H3 H4 H5 H6 H7 H8 H9) as H.
  cbv zeta in H. destruct H as (_ & _ & H). exact H.
Defined.

(** LDA A extended (0xB6) at 0x1000: the operand 0x42 lies at 0x2010. *)
Lemma alu_extended_witness :
  (forall input1 input2 flags,
     ALU8.ccs_next (alu8_model Flags_6800) ALU8Func.NONE input1 input2 flags
     = flags) /\
  byte 0xB6 /\
  byte 0x20 /\
  byte 0x10 /\
  byte 0x42 /\
  byte (a (fetching 0x1000)) /\
  byte (b (fetching 0x1000)) /\
  decode 0xB6 = H_ALU ALU8Func.LD true /\
  slice 0xB6 4 6 = ModeBits.EXTENDED ModeBits_6800 /\
  ModeBits.EXTENDED ModeBits_6800 <> ModeBits.DIRECT ModeBits_6800 /\
  reset_state (fetching 0x1000) = 3 /\
  cycle (fetching 0x1000) = 0 /\
  run_reads (alu8_model Flags_6800) ModeBits_6800 Flags_6800
    (fetching 0x1000) [0xB6; 0x20; 0x10; 0x42] =
  [(trunc 16 (pc (fetching 0x1000) + 1), 0x20);
   (trunc 16 (pc (fetching 0x1000) + 2), 0x10); (Cat 0x10 0x20, 0x42)].
Proof.
  assert (H1 : byte 0xB6)
    by (unfold byte; lia).
  assert (H2 : byte 0x20)
    by (unfold byte; lia).
  assert (H3 : byte 0x10)
    by (unfold byte; lia).
  assert (H4 : byte 0x42)
    by (unfold byte; lia).
  assert (H5 : byte (a (fetching 0x1000)))
    by (unfold byte, word16, fetching; simpl; lia).
  assert (H6 : byte (b (fetching 0x1000)))
    by (unfold byte, word16, fetching; simpl; lia).
  assert (H7 : decode 0xB6 = H_ALU ALU8Func.LD true)
    by (reflexivity).
  assert (H8 : slice 0xB6 4 6 = ModeBits.EXTENDED ModeBits_6800)
    by (reflexivity).
  assert (H9 : ModeBits.EXTENDED ModeBits_6800 <> ModeBits.DIRECT ModeBits_6800)
    by (simpl; lia).
  assert (H10 : reset_state (fetching 0x1000) = 3)
    by (reflexivity).
  assert (H11 : cycle (fetching 0x1000) = 0)
    by (reflexivity).
  split; [exact (alu8_model_NONE Flags_6800) |].
  repeat (split; [assumption |]).
  pose proof (alu_extended (alu8_model Flags_6800) ModeBits_6800 Flags_6800
                (alu8_model_NONE Flags_6800)
                (fetching 0x1000) 0xB6 0x20 0x10 0x42 ALU8Func.LD true
                H1 H2 H3 H4 H5 H6 H7 H8 H9 H10 H11) as H.
  cbv zeta in H. destruct H as (_ & H & _). exact H.
Defined.

(** LDA A indexed (0xA6) at 0x1000 with offset 0x10: X is 0x3344. *)
Lemma alu_indexed_witness :
  (forall input1 input2 flags,
     ALU8.ccs_next (alu8_model Flags_6800) ALU8Func.NONE input1 input2 flags
     = flags) /\
  byte 0xA6 /\
  byte 0x10 /\
  byte 0x42 /\
  byte (a (fetching 0x1000)) /\
  byte (b (fetching 0x1000)) /\
  decode 0xA6 = H_ALU ALU8Func.LD true /\
  slice 0xA6 4 6 = ModeBits.INDEXED ModeBits_6800 /\
  ModeBits.INDEXED ModeBits_6800 <> ModeBits.DIRECT ModeBits_6800 /\
  ModeBits.INDEXED ModeBits_6800 <> ModeBits.EXTENDED ModeBits_6800 /\
  ModeBits.INDEXED ModeBits_6800 <> ModeBits.IMMEDIATE ModeBits_6800 /\
  reset_state (fetching 0x1000) = 3 /\
  cycle (fetching 0x1000) = 0 /\
  run_reads (alu8_model Flags_6800) ModeBits_6800 Flags_6800
    (fetching 0x1000) [0xA6; 0x10; 0xFF; 0xFF; 0x42] =
  [(trunc 16 (pc (fetching 0x1000) + 1), 0x10);
   (trunc 16 (x (fetching 0x1000) + 0x10), 0x42)].
Proof.
  assert (H1 : byte 0xA6)
    by (unfold byte; lia).
  assert (H2 : byte 0x10)
    by (unfold byte; lia).
  assert (H3 : byte 0x42)
    by (unfold byte; lia).
  assert (H4 : byte (a (fetching 0x1000)))
    by (unfold byte, word16, fetching; simpl; lia).
  assert (H5 : byte (b (fetching 0x1000)))
    by (unfold byte, word16, fetching; simpl; lia).
  assert (H6 : decode 0xA6 = H_ALU ALU8Func.LD true)
    by (reflexivity).
  assert (H7 : slice 0xA6 4 6 = ModeBits.INDEXED ModeBits_6800)
    by (reflexivity).
  assert (H8 : ModeBits.INDEXED ModeBits_6800 <> ModeBits.DIRECT ModeBits_6800)
    by (simpl; lia).
  assert (H9 : ModeBits.INDEXED ModeBits_6800 <> ModeBits.EXTENDED ModeBits_6800)
    by (simpl; lia).
  assert (H10 : ModeBits.INDEXED ModeBits_6800 <> ModeBits.IMMEDIATE ModeBits_6800)
    by (simpl; lia).
  assert (H11 : reset_state (fetching 0x1000) = 3)
    by (reflexivity).
  assert (H12 : cycle (fetching 0x1000) = 0)
    by (reflexivity).
  split; [exact (alu8_model_NONE Flags_6800) |].
  repeat (split; [assumption |]).
  pose proof (alu_indexed (alu8_model Flags_6800) ModeBits_6800 Flags_6800
                (alu8_model_NONE Flags_6800)
                (fetching 0x1000) 0xA6 0x10 0xFF 0xFF 0x42 ALU8Func.LD true
                H1 H2 H3 H4 H5 H6 H7 H8 H9 H10 H11 H12) as H.
  cbv zeta in H. destruct H as (_ & H & _). exact H.
Defined.

(** INC A (0x4C) at 0x1000. *)
Lemma alu2_inherent_witness :
  (forall input1 input2 flags,
     ALU8.ccs_next (alu8_model Flags_6800) ALU8Func.NONE input1 input2 flags
     = flags) /\
  byte 0x4C /\
  byte (a (fetching 0x1000)) /\
  byte (b (fetching 0x1000)) /\
  decode 0x4C = H_ALU2 ALU8Func.INC 0 1 true /\
  (slice 0x4C 4 6 = ModeBits.A ModeBits_6800 \/
   (slice 0x4C 4 6 = ModeBits.B ModeBits_6800 /\
    ModeBits.B ModeBits_6800 <> ModeBits.A ModeBits_6800)) /\
  reset_state (fetching 0x1000) = 3 /\
  cycle (fetching 0x1000) = 0 /\
  pc (run (alu8_model Flags_6800) ModeBits_6800 Flags_6800
    (fetching 0x1000) [0x4C; 0xFF]) =
  trunc 16 (pc (fetching 0x1000) + 1).
Proof.
  assert (H1 : byte 0x4C)
    by (unfold byte; lia).
  assert (H2 : byte (a (fetching 0x1000)))
    by (unfold byte, word16, fetching; simpl; lia).
  assert (H3 : byte (b (fetching 0x1000)))
    by (unfold byte, word16, fetching; simpl; lia).
  assert (H4 : decode 0x4C = H_ALU2 ALU8Func.INC 0 1 true)
    by (reflexivity).
  assert (H5 : slice 0x4C 4 6 = ModeBits.A ModeBits_6800 \/
   (slice 0x4C 4 6 = ModeBits.B ModeBits_6800 /\
    ModeBits.B ModeBits_6800 <> ModeBits.A ModeBits_6800))
    by (left; reflexivity).
  assert (H6 : reset_state (fetching 0x1000) = 3)
    by (reflexivity).
  assert (H7 : cycle (fetching 0x1000) = 0)
    by (reflexivity).
  split; [exact (alu8_model_NONE Flags_6800) |].
  repeat (split; [assumption |]).
  pose proof (alu2_inherent (alu8_model Flags_6800) ModeBits_6800 Flags_6800
                (alu8_model_NONE Flags_6800)
                (fetching 0x1000) 0x4C 0xFF ALU8Func.INC 0 1 true
                H1 H2 H3 H4 H5 H6 H7) as H.
  cbv zeta in H. destruct H as (_ & _ & _ & H & _). exact H.
Defined.

(** INC extended (0x7C) at 0x1000 on the byte 0x41 at 0x2010. *)
Lemma alu2_extended_witness :
  (forall input1 input2 flags,
     ALU8.ccs_next (alu8_model Flags_6800) ALU8Func.NONE input1 input2 flags
     = flags) /\
  byte 0x7C /\
  byte 0x20 /\
  byte 0x10 /\
  byte 0x41 /\
  decode 0x7C = H_ALU2 ALU8Func.INC 0 1 true /\
  slice 0x7C 4 6 = ModeBits.EXTENDED ModeBits_6800 /\
  ModeBits.EXTENDED ModeBits_6800 <> ModeBits.A ModeBits_6800 /\
  ModeBits.EXTENDED ModeBits_6800 <> ModeBits.B ModeBits_6800 /\
  reset_state (fetching 0x1000) = 3 /\
  cycle (fetching 0x1000) = 0 /\
  run_reads (alu8_model Flags_6800) ModeBits_6800 Flags_6800
    (fetching 0x1000) [0x7C; 0x20; 0x10; 0x41; 0xFF; 0xFF] =
  [(trunc 16 (pc (fetching 0x1000) + 1), 0x20);
   (trunc 16 (pc (fetching 0x1000) + 2), 0x10); (Cat 0x10 0x20, 0x41)].
Proof.
  assert (H1 : byte 0x7C)
    by (unfold byte; lia).
  assert (H2 : byte 0x20)
    by (unfold byte; lia).
  assert (H3 : byte 0x10)
    by (unfold byte; lia).
  assert (H4 : byte 0x41)
    by (unfold byte; lia).
  assert (H5 : decode 0x7C = H_ALU2 ALU8Func.INC 0 1 true)
    by (reflexivity).
  assert (H6 : slice 0x7C 4 6 = ModeBits.EXTENDED ModeBits_6800)
    by (reflexivity).
  assert (H7 : ModeBits.EXTENDED ModeBits_6800 <> ModeBits.A ModeBits_6800)
    by (simpl; lia).
  assert (H8 : ModeBits.EXTENDED ModeBits_6800 <> ModeBits.B ModeBits_6800)
    by (simpl; lia).
  assert (H9 : reset_state (fetching 0x1000) = 3)
    by (reflexivity).
  assert (H10 : cycle (fetching 0x1000) = 0)
    by (reflexivity).
  split; [exact (alu8_model_NONE Flags_6800) |].
  repeat (split; [assumption |]).
  pose proof (alu2_extended (alu8_model Flags_6800) ModeBits_6800 Flags_6800
                (alu8_model_NONE Flags_6800)
                (fetching 0x1000) 0x7C 0x20 0x10 0x41 0xFF 0xFF
                ALU8Func.INC 0 1 true
                H1 H2 H3 H4 H5 H6 H7 H8 H9 H10) as H.
  cbv zeta in H. destruct H as (_ & H & _). exact H.
Defined.

(** INC indexed (0x6C) at 0x1000 with offset 0x10: X is 0x3344. *)
Lemma alu2_indexed_witness :
  (forall input1 input2 flags,
     ALU8.ccs_next (alu8_model Flags_6800) ALU8Func.NONE input1 input2 flags
     = flags) /\
  byte 0x6C /\
  byte 0x10 /\
  byte 0x41 /\
  decode 0x6C = H_ALU2 ALU8Func.INC 0 1 true /\
  slice 0x6C 4 6 = ModeBits.INDEXED ModeBits_6800 /\
  ModeBits.INDEXED ModeBits_6800 <> ModeBits.A ModeBits_6800 /\
  ModeBits.INDEXED ModeBits_6800 <> ModeBits.B ModeBits_6800 /\
  ModeBits.INDEXED ModeBits_6800 <> ModeBits.EXTENDED ModeBits_6800 /\
  reset_state (fetching 0x1000) = 3 /\
  cycle (fetching 0x1000) = 0 /\
  run_reads (alu8_model Flags_6800) ModeBits_6800 Flags_6800
    (fetching 0x1000) [0x6C; 0x10; 0xFF; 0xFF; 0x41; 0xFF; 0xFF] =
  [(trunc 16 (pc (fetching 0x1000) + 1), 0x10);
   (trunc 16 (x (fetching 0x1000) + 0x10), 0x41)].
Proof.
  assert (H1 : byte 0x6C)
    by (unfold byte; lia).
  assert (H2 : byte 0x10)
    by (unfold byte; lia).
  assert (H3 : byte 0x41)
    by (unfold byte; lia).
  assert (H4 : decode 0x6C = H_ALU2 ALU8Func.INC 0 1 true)
    by (reflexivity).
  assert (H5 : slice 0x6C 4 6 = ModeBits.INDEXED ModeBits_6800)
    by (reflexivity).
  assert (H6 : ModeBits.INDEXED ModeBits_6800 <> ModeBits.A ModeBits_6800)
    by (simpl; lia).
  assert (H7 : ModeBits.INDEXED ModeBits_6800 <> ModeBits.B ModeBits_6800)
    by (simpl; lia).
  assert (H8 : ModeBits.INDEXED ModeBits_6800 <> ModeBits.EXTENDED ModeBits_6800)
    by (simpl; lia).
  assert (H9 : reset_state (fetching 0x1000) = 3)
    by (reflexivity).
  assert (H10 : cycle (fetching 0x1000) = 0)
    by (reflexivity).
  split; [exact (alu8_model_NONE Flags_6800) |].
  repeat (split; [assumption |]).
  pose proof (alu2_indexed (alu8_model Flags_6800) ModeBits_6800 Flags_6800
                (alu8_model_NONE Flags_6800)
                (fetching 0x1000) 0x6C 0x10 0xFF 0xFF 0x41 0xFF 0xFF
                ALU8Func.INC 0 1 true
                H1 H2 H3 H4 H5 H6 H7 H8 H9 H10) as H.
  cbv zeta in H. destruct H as (_ & H & _). exact H.
Defined.

(** JMP indexed (0x6E) at 0x1000 with offset 0x10: X is 0x3344. *)
Lemma jmp_indexed_witness :
  (forall input1 input2 flags,
     ALU8.ccs_next (alu8_model Flags_6800) ALU8Func.NONE input1 input2 flags
     = flags) /\
  byte 0x6E /\
  byte 0x10 /\
  decode 0x6E = H_JMP /\
  slice 0x6E 4 6 = ModeBits.INDEXED ModeBits_6800 /\
  ModeBits.INDEXED ModeBits_6800 <> ModeBits.EXTENDED ModeBits_6800 /\
  reset_state (fetching 0x1000) = 3 /\
  cycle (fetching 0x1000) = 0 /\
  pc (run (alu8_model Flags_6800) ModeBits_6800 Flags_6800
    (fetching 0x1000) [0x6E; 0x10; 0xFF; 0xFF]) =
  trunc 16 (x (fetching 0x1000) + 0x10).
Proof.
  assert (H1 : byte 0x6E)
    by (unfold byte; lia).
  assert (H2 : byte 0x10)
    by (unfold byte; lia).
  assert (H3 : decode 0x6E = H_JMP)
    by (reflexivity).
  assert (H4 : slice 0x6E 4 6 = ModeBits.INDEXED ModeBits_6800)
    by (reflexivity).
  assert (H5 : ModeBits.INDEXED ModeBits_6800 <> ModeBits.EXTENDED ModeBits_6800)
    by (simpl; lia).
  assert (H6 : reset_state (fetching 0x1000) = 3)
    by (reflexivity).
  assert (H7 : cycle (fetching 0x1000) = 0)
    by (reflexivity).
  split; [exact (alu8_model_NONE Flags_6800) |].
  repeat (split; [assumption |]).
  pose proof (jmp_indexed (alu8_model Flags_6800) ModeBits_6800 Flags_6800
                (alu8_model_NONE Flags_6800)
                (fetching 0x1000) 0x6E 0x10 0xFF 0xFF
                H1 H2 H3 H4 H5 H6 H7) as H.
  cbv zeta in H. destruct H as (_ & _ & _ & _ & H & _). exact H.
Defined.

(** STA A direct (0x97) at 0x1000 to 0x0010: A holds 0x11. *)
Lemma sta_direct_witness :
  (forall input1 input2 flags,
     ALU8.ccs_next (alu8_model Flags_6800) ALU8Func.NONE input1 input2 flags
     = flags) /\
  byte 0x97 /\
  byte 0x10 /\
  byte (a (fetching 0x1000)) /\
  byte (b (fetching 0x1000)) /\
  decode 0x97 = H_STA /\
  slice 0x97 4 6 = ModeBits.DIRECT ModeBits_6800 /\
  reset_state (fetching 0x1000) = 3 /\
  cycle (fetching 0x1000) = 0 /\
  run_writes (alu8_model Flags_6800) ModeBits_6800 Flags_6800
    (fetching 0x1000) [0x97; 0x10; 0xFF; 0xFF] =
  [(0x10, Mux (bit 0x97 6) (b (fetching 0x1000)) (a (fetching 0x1000)))].
Proof.
  assert (H1 : byte 0x97)
    by (unfold byte; lia).
  assert (H2 : byte 0x10)
    by (unfold byte; lia).
  assert (H3 : byte (a (fetching 0x1000)))
    by (unfold byte, word16, fetching; simpl; lia).
  assert (H4 : byte (b (fetching 0x1000)))
    by (unfold byte, word16, fetching; simpl; lia).
  assert (H5 : decode 0x97 = H_STA)
    by (reflexivity).
  assert (H6 : slice 0x97 4 6 = ModeBits.DIRECT ModeBits_6800)
    by (reflexivity).
  assert (H7 : reset_state (fetching 0x1000) = 3)
    by (reflexivity).
  assert (H8 : cycle (fetching 0x1000) = 0)
    by (reflexivity).
  split; [exact (alu8_model_NONE Flags_6800) |].
  repeat (split; [assumption |]).
  pose proof (sta_direct (alu8_model Flags_6800) ModeBits_6800 Flags_6800
                (alu8_model_NONE Flags_6800)
                (fetching 0x1000) 0x97 0x10 0xFF 0xFF
                H1 H2 H3 H4 H5 H6 H7 H8) as H.
  cbv zeta in H. destruct H as (_ & _ & H & _). exact H.
Defined.

(** STA A extended (0xB7) at 0x1000 to 0x2010: A holds 0x11. *)
Lemma sta_extended_witness :
  (forall input1 input2 flags,
     ALU8.ccs_next (alu8_model Flags_6800) ALU8Func.NONE input1 input2 flags
     = flags) /\
  byte 0xB7 /\
  byte 0x20 /\
  byte 0x10 /\
  byte (a (fetching 0x1000)) /\
  byte (b (fetching 0x1000)) /\
  decode 0xB7 = H_STA /\
  slice 0xB7 4 6 = ModeBits.EXTENDED ModeBits_6800 /\
  ModeBits.EXTENDED ModeBits_6800 <> ModeBits.DIRECT ModeBits_6800 /\
  reset_state (fetching 0x1000) = 3 /\
  cycle (fetching 0x1000) = 0 /\
  run_writes (alu8_model Flags_6800) ModeBits_6800 Flags_6800
    (fetching 0x1000) [0xB7; 0x20; 0x10; 0xFF; 0xFF] =
  [(Cat 0x10 0x20,
    Mux (bit 0xB7 6) (b (fetching 0x1000)) (a (fetching 0x1000)))].
Proof.
  assert (H1 : byte 0xB7)
    by (unfold byte; lia).
  assert (H2 : byte 0x20)
    by (unfold byte; lia).
  assert (H3 : byte 0x10)
    by (unfold byte; lia).
  assert (H4 : byte (a (fetching 0x1000)))
    by (unfold byte, word16, fetching; simpl; lia).
  assert (H5 : byte (b (fetching 0x1000)))
    by (unfold byte, word16, fetching; simpl; lia).
  assert (H6 : decode 0xB7 = H_STA)
    by (reflexivity).
  assert (H7 : slice 0xB7 4 6 = ModeBits.EXTENDED ModeBits_6800)
    by (reflexivity).
  assert (H8 : ModeBits.EXTENDED ModeBits_6800 <> ModeBits.DIRECT ModeBits_6800)
    by (simpl; lia).
  assert (H9 : reset_state (fetching 0x1000) = 3)
    by (reflexivity).
  assert (H10 : cycle (fetching 0x1000) = 0)
    by (reflexivity).
  split; [exact (alu8_model_NONE Flags_6800) |].
  repeat (split; [assumption |]).
  pose proof (sta_extended (alu8_model Flags_6800) ModeBits_6800 Flags_6800
                (alu8_model_NONE Flags_6800)
                (fetching 0x1000) 0xB7 0x20 0x10 0xFF 0xFF
                H1 H2 H3 H4 H5 H6 H7 H8 H9 H10) as H.
  cbv zeta in H. destruct H as (_ & _ & H & _). exact H.
Defined.

(** SEC (0x0D) at 0x1000. *)
Lemma clear_set_flag_witness :
  (forall input1 input2 flags,
     ALU8.ccs_next (alu8_model Flags_6800) ALU8Func.NONE input1 input2 flags
     = flags) /\
  byte 0x0D /\
  is_CL_SE (decode 0x0D) = true /\
  reset_state (fetching 0x1000) = 3 /\
  cycle (fetching 0x1000) = 0 /\
  ccs (run (alu8_model Flags_6800) ModeBits_6800 Flags_6800
    (fetching 0x1000) [0x0D; 0xFF]) =
  ALU8.ccs_next (alu8_model Flags_6800)
    (cl_se_func (decode 0x0D) (bit 0x0D 0)) 0 0 (ccs (fetching 0x1000)).
Proof.
  assert (H1 : byte 0x0D)
    by (unfold byte; lia).
  assert (H2 : is_CL_SE (decode 0x0D) = true)
    by (reflexivity).
  assert (H3 : reset_state (fetching 0x1000) = 3)
    by (reflexivity).
  assert (H4 : cycle (fetching 0x1000) = 0)
    by (reflexivity).
  split; [exact (alu8_model_NONE Flags_6800) |].
  repeat (split; [assumption |]).
  pose proof (clear_set_flag (alu8_model Flags_6800) ModeBits_6800 Flags_6800
                (alu8_model_NONE Flags_6800)
                (fetching 0x1000) 0x0D 0xFF
                H1 H2 H3 H4) as H.
  cbv zeta in H. destruct H as (_ & _ & _ & _ & _ & _ & _ & _ & H). exact H.
Defined.

(** BEQ (0x27) at 0x1000 with offset 0x10. *)
Lemma branch_instruction_witness :
  (forall input1 input2 flags,
     ALU8.ccs_next (alu8_model Flags_6800) ALU8Func.NONE input1 input2 flags
     = flags) /\
  byte 0x27 /\
  byte 0x10 /\
  decode 0x27 = H_BR /\
  reset_state (fetching 0x1000) = 3 /\
  cycle (fetching 0x1000) = 0 /\
  pc (run (alu8_model Flags_6800) ModeBits_6800 Flags_6800
    (fetching 0x1000) [0x27; 0x10; 0xFF; 0xFF]) =
  (if xorb (base_condition Flags_6800 (slice 0x27 1 4)
              (ccs (fetching 0x1000))) (bit 0x27 0)
   then trunc 16 (pc (fetching 0x1000) + 2 + signed8 0x10)
   else trunc 16 (pc (fetching 0x1000) + 2)).
Proof.
  assert (H1 : byte 0x27)
    by (unfold byte; lia).
  assert (H2 : byte 0x10)
    by (unfold byte; lia).
  assert (H3 : decode 0x27 = H_BR)
    by (reflexivity).
  assert (H4 : reset_state (fetching 0x1000) = 3)
    by (reflexivity).
  assert (H5 : cycle (fetching 0x1000) = 0)
    by (reflexivity).
  split; [exact (alu8_model_NONE Flags_6800) |].
  repeat (split; [assumption |]).
  pose proof (branch_instruction (alu8_model Flags_6800) ModeBits_6800 Flags_6800
                (alu8_model_NONE Flags_6800)
                (fetching 0x1000) 0x27 0x10 0xFF 0xFF
                H1 H2 H3 H4 H5) as H.
  cbv zeta in H. destruct H as (_ & _ & _ & H & _). exact H.
Defined.

(** TAP (0x06) at 0x1000: A holds 0x11. *)
Lemma tap_instruction_witness :
  (forall input1 input2 flags,
     ALU8.ccs_next (alu8_model Flags_6800) ALU8Func.NONE input1 input2 flags
     = flags) /\
  byte 0x06 /\
  byte (a (fetching 0x1000)) /\
  decode 0x06 = H_TAP /\
  reset_state (fetching 0x1000) = 3 /\
  cycle (fetching 0x1000) = 0 /\
  ccs (run (alu8_model Flags_6800) ModeBits_6800 Flags_6800
    (fetching 0x1000) [0x06; 0xFF]) =
  ALU8.ccs_next (alu8_model Flags_6800) ALU8Func.TAP (a (fetching 0x1000)) 0
    (ccs (fetching 0x1000)).
Proof.
  assert (H1 : byte 0x06)
    by (unfold byte; lia).
  assert (H2 : byte (a (fetching 0x1000)))
    by (unfold byte, word16, fetching; simpl; lia).
  assert (H3 : decode 0x06 = H_TAP)
    by (reflexivity).
  assert (H4 : reset_state (fetching 0x1000) = 3)
    by (reflexivity).
  assert (H5 : cycle (fetching 0x1000) = 0)
    by (reflexivity).
  split; [exact (alu8_model_NONE Flags_6800) |].
  repeat (split; [assumption |]).
  pose proof (tap_instruction (alu8_model Flags_6800) ModeBits_6800 Flags_6800
                (alu8_model_NONE Flags_6800)
                (fetching 0x1000) 0x06 0xFF
                H1 H2 H3 H4 H5) as H.
  cbv zeta in H. destruct H as (_ & _ & _ & _ & _ & _ & _ & _ & H). exact H.
Defined.

(** TPA (0x07) at 0x1000. *)
Lemma tpa_instruction_witness :
  (forall input1 input2 flags,
     ALU8.ccs_next (alu8_model Flags_6800) ALU8Func.NONE input1 input2 flags
     = flags) /\
  byte 0x07 /\
  decode 0x07 = H_TPA /\
  reset_state (fetching 0x1000) = 3 /\
  cycle (fetching 0x1000) = 0 /\
  a (run (alu8_model Flags_6800) ModeBits_6800 Flags_6800
    (fetching 0x1000) [0x07; 0xFF]) =
  trunc 8 (ALU8.output (alu8_model Flags_6800) ALU8Func.TPA 0 0
             (ccs (fetching 0x1000))).
Proof.
  assert (H1 : byte 0x07)
    by (unfold byte; lia).
  assert (H2 : decode 0x07 = H_TPA)
    by (reflexivity).
  assert (H3 : reset_state (fetching 0x1000) = 3)
    by (reflexivity).
  assert (H4 : cycle (fetching 0x1000) = 0)
    by (reflexivity).
  split; [exact (alu8_model_NONE Flags_6800) |].
  repeat (split; [assumption |]).
  pose proof (tpa_instruction (alu8_model Flags_6800) ModeBits_6800 Flags_6800
                (alu8_model_NONE Flags_6800)
                (fetching 0x1000) 0x07 0xFF
                H1 H2 H3 H4) as H.
  cbv zeta in H. destruct H as (_ & _ & _ & _ & H & _). exact H.
Defined.

(** DEX (0x09) at 0x1000: X is 0x3344. *)
Lemma inx_dex_instruction_witness :
  (forall input1 input2 flags,
     ALU8.ccs_next (alu8_model Flags_6800) ALU8Func.NONE input1 input2 flags
     = flags) /\
  byte 0x09 /\
  word16 (x (fetching 0x1000)) /\
  decode 0x09 = H_IN_DE_X /\
  reset_state (fetching 0x1000) = 3 /\
  cycle (fetching 0x1000) = 0 /\
  x (run (alu8_model Flags_6800) ModeBits_6800 Flags_6800
    (fetching 0x1000) [0x09; 0xFF; 0xFF; 0xFF]) =
  trunc 16 (if bit 0x09 0 then x (fetching 0x1000) - 1
            else x (fetching 0x1000) + 1).
Proof.
  assert (H1 : byte 0x09)
    by (unfold byte; lia).
  assert (H2 : word16 (x (fetching 0x1000)))
    by (unfold byte, word16, fetching; simpl; lia).
  assert (H3 : decode 0x09 = H_IN_DE_X)
    by (reflexivity).
  assert (H4 : reset_state (fetching 0x1000) = 3)
    by (reflexivity).
  assert (H5 : cycle (fetching 0x1000) = 0)
    by (reflexivity).
  split; [exact (alu8_model_NONE Flags_6800) |].
  repeat (split; [assumption |]).
  pose proof (inx_dex_instruction (alu8_model Flags_6800) ModeBits_6800 Flags_6800
                (alu8_model_NONE Flags_6800)
                (fetching 0x1000) 0x09 0xFF 0xFF 0xFF
                H1 H2 H3 H4 H5) as H.
  cbv zeta in H. destruct H as (_ & _ & _ & _ & _ & H & _). exact H.
Defined.

(** A core about to fetch the opcode of JMP. *)
Lemma step_keeps_widths_witness :
  wf_core (fetching 0x1000) /\
  wf_core (step (alu8_model Flags_6800) ModeBits_6800 Flags_6800
             (fetching 0x1000) 0x7E).
Proof.
  assert (H1 : wf_core (fetching 0x1000))
    by (unfold wf_core, byte, word16, fetching; simpl; lia).
  repeat (split; [assumption |]).
  pose proof (step_keeps_widths (alu8_model Flags_6800) ModeBits_6800 Flags_6800
                (fetching 0x1000) 0x7E
                H1) as H.
  exact H.
Defined.

(** NOP is in the latch while the opcode of INX arrives. *)
Lemma x_written_by_inx_dex_witness :
  decode (instr (fetching 0x1000)) <> H_IN_DE_X /\
  x (step (alu8_model Flags_6800) ModeBits_6800 Flags_6800
       (fetching 0x1000) 0x08) = x (fetching 0x1000).
Proof.
  assert (H1 : decode (instr (fetching 0x1000)) <> H_IN_DE_X)
    by (vm_compute; discriminate).
  repeat (split; [assumption |]).
  pose proof (x_written_by_inx_dex (alu8_model Flags_6800) ModeBits_6800 Flags_6800
                (fetching 0x1000) 0x08
                H1) as H.
  exact H.
Defined.

(** The fetch of the opcode of JMP replaces the NOP in the latch. *)
Lemma instr_latched_by_fetch_witness :
  instr (step (alu8_model Flags_6800) ModeBits_6800 Flags_6800
           (fetching 0x1000) 0x7E) <> instr (fetching 0x1000) /\
  reset_state (fetching 0x1000) = 3 /\ cycle (fetching 0x1000) = 0.
Proof.
  assert (H1 : instr (step (alu8_model Flags_6800) ModeBits_6800 Flags_6800
           (fetching 0x1000) 0x7E) <> instr (fetching 0x1000))
    by (vm_compute; discriminate).
  repeat (split; [assumption |]).
  pose proof (instr_latched_by_fetch (alu8_model Flags_6800) ModeBits_6800 Flags_6800
                (fetching 0x1000) 0x7E
                H1) as H.
  exact H.
Defined.

(** NOP is in the latch. *)
Lemma accumulators_written_by_alu_witness :
  loads_acc (decode (instr (fetching 0x1000))) = false /\
  a (step (alu8_model Flags_6800) ModeBits_6800 Flags_6800
       (fetching 0x1000) 0x86) = a (fetching 0x1000) /\
  b (step (alu8_model Flags_6800) ModeBits_6800 Flags_6800
       (fetching 0x1000) 0x86) = b (fetching 0x1000).
Proof.
  assert (H1 : loads_acc (decode (instr (fetching 0x1000))) = false)
    by (reflexivity).
  repeat (split; [assumption |]).
  pose proof (accumulators_written_by_alu (alu8_model Flags_6800) ModeBits_6800 Flags_6800
                (fetching 0x1000) 0x86
                H1) as H.
  exact H.
Defined.

(** NOP is in the latch. *)
Lemma only_stores_report_writes_witness :
  reports_write (decode (instr (fetching 0x1000))) = false /\
  writes ModeBits_6800 Flags_6800 (fetching 0x1000) 0x97 = [].
Proof.
  assert (H1 : reports_write (decode (instr (fetching 0x1000))) = false)
    by (reflexivity).
  repeat (split; [assumption |]).
  pose proof (only_stores_report_writes ModeBits_6800 Flags_6800
                (fetching 0x1000) 0x97
                H1) as H.
  exact H.
Defined.

(** NOP is in the latch and R/W is high. *)
Lemma only_stores_lower_RW_witness :
  lowers_RW (decode (instr (fetching 0x1000))) = false /\
  RW (fetching 0x1000) = true /\
  RW (step (alu8_model Flags_6800) ModeBits_6800 Flags_6800
        (fetching 0x1000) 0x97) = true.
Proof.
  assert (H1 : lowers_RW (decode (instr (fetching 0x1000))) = false)
    by (reflexivity).
  assert (H2 : RW (fetching 0x1000) = true)
    by (reflexivity).
  repeat (split; [assumption |]).
  pose proof (only_stores_lower_RW (alu8_model Flags_6800) ModeBits_6800 Flags_6800
                (fetching 0x1000) 0x97
                H1 H2) as H.
  exact H.
Defined.

(** The core of the simulation three ticks after a reset pulse. *)
Lemma fetch_is_valid_read_witness :
  let s := ticks (alu8_model Flags_6800) ModeBits_6800 Flags_6800 main_mem 3
             (reset_core (alu8_model Flags_6800) (fetching 0)) in
  reachable (alu8_model Flags_6800) ModeBits_6800 Flags_6800 s /\
  reset_state s = 3 /\ cycle s = 0 /\
  RW s = true /\ VMA s = true.
Proof.
  intros s.
  pose proof (reachable_ticks (alu8_model Flags_6800) Flags_6800 main_mem 3
                _ (reach_reset (alu8_model Flags_6800) ModeBits_6800
                     Flags_6800 (fetching 0))) as Hs.
  fold s in Hs.
  split; [exact Hs |]. split; [reflexivity |]. split; [reflexivity |].
  exact (fetch_is_valid_read (alu8_model Flags_6800) Flags_6800 s Hs
           eq_refl eq_refl).
Defined.

(** JMP extended (0x7E) at 0x1000 to 0xA010. *)
Lemma formal_jmp_check_holds_witness :
  (forall input1 input2 flags,
     ALU8.ccs_next (alu8_model Flags_6800) ALU8Func.NONE input1 input2 flags
     = flags) /\
  byte 0x7E /\ byte 0xA0 /\ byte 0x10 /\
  formal_jmp_valid 0x7E = true /\
  reset_state (fetching 0x1000) = 3 /\ cycle (fetching 0x1000) = 0 /\
  formal_jmp_check ModeBits_6800 0x7E (fetching 0x1000)
    (run (alu8_model Flags_6800) ModeBits_6800 Flags_6800
       (fetching 0x1000) [0x7E; 0xA0; 0x10])
    (run_reads (alu8_model Flags_6800) ModeBits_6800 Flags_6800
       (fetching 0x1000) [0x7E; 0xA0; 0x10])
    (run_writes (alu8_model Flags_6800) ModeBits_6800 Flags_6800
       (fetching 0x1000) [0x7E; 0xA0; 0x10]).
Proof.
  assert (H1 : byte 0x7E) by (unfold byte; lia).
  assert (H2 : byte 0xA0) by (unfold byte; lia).
  assert (H3 : byte 0x10) by (unfold byte; lia).
  split; [exact (alu8_model_NONE Flags_6800) |].
  split; [exact H1 |]. split; [exact H2 |]. split; [exact H3 |].
  repeat (split; [reflexivity |]).
  pose proof (formal_jmp_check_holds (alu8_model Flags_6800) Flags_6800
                (alu8_model_NONE Flags_6800) (fetching 0x1000)
                0x7E 0xA0 0x10 0xFF H1 H2 H3 eq_refl eq_refl eq_refl) as H.
  cbv zeta in H.
  change (slice 126 4 6 =? ModeBits.EXTENDED ModeBits_6800) with true in H.
  cbv iota in H. destruct H as [_ H]. exact H.
Defined.
